(** * botpress-messenger: a shallow embedding of [messenger.js] and [src/users.js]

    The development follows the two source files:
    - [Js]        : the fragment of JavaScript values, exceptions and settled
                    promises the two files compute with;
    - [Messenger] : [messenger.js] (label normalisation, button formatting,
                    the outbound request primitive, the typing indicator, the
                    event emitter and the webhook handler);
    - [Users]     : [src/users.js] (the profile cache and its on-disk mirror).

    [Json] is a reader and a writer of JSON text, an instance of the codec
    the cache is parametric in.  The definitions come first; the properties
    follow, one section per component. *)

From Stdlib Require Import ZArith Ascii String List Bool Lia DecimalString DecimalN.
From stdpp Require Import base option list strings pretty gmap.

Set Warnings "-register-all".
Local Open Scope string_scope.
Local Open Scope list_scope.

(* ===================================================================== *)
(** * JavaScript values *)
(* ===================================================================== *)

Module Js.

(** Numbers are the integers, plus [NaN] (which [text.length * 10] produces
    when [text] has no length). *)
Inductive number : Type :=
  | Num (n : Z)
  | NaN.

(** The values that flow through the connector: parsed JSON bodies, message
    objects, option bags.  An object is its list of own properties in
    insertion order. *)
Inductive value : Type :=
  | VUndefined
  | VNull
  | VBool (b : bool)
  | VNumber (x : number)
  | VStr (s : string)
  | VArr (xs : list value)
  | VObj (fields : list (string * value)).

(** What [if (v)], [v && ...], [v || ...] and [!v] test. *)
Definition truthy (v : value) : bool :=
  match v with
  | VUndefined | VNull | VNumber NaN => false
  | VBool b => b
  | VNumber (Num n) => negb (n =? 0)%Z
  | VStr s => negb (String.eqb s "")
  | VArr _ | VObj _ => true
  end.

Definition nullish (v : value) : bool :=
  match v with
  | VUndefined | VNull => true
  | _ => false
  end.

Fixpoint assoc (k : string) (fields : list (string * value)) : value :=
  match fields with
  | [] => VUndefined
  | (k', v) :: rest => if String.eqb k k' then v else assoc k rest
  end.

(** [v.k] on a value that is neither [undefined] nor [null].  None of the
    property names the connector reads ([message], [text], [sender], ...) is
    defined on a primitive or on [Object.prototype], so only own properties
    of objects answer. *)
Definition prop (v : value) (k : string) : value :=
  match v with
  | VObj fields => assoc k fields
  | _ => VUndefined
  end.

(** [obj[k] = x] on the property list: an existing property keeps its place,
    a new one goes last. *)
Fixpoint update_field (k : string) (x : value) (fields : list (string * value))
  : list (string * value) :=
  match fields with
  | [] => [(k, x)]
  | (k', v) :: rest =>
      if String.eqb k k' then (k, x) :: rest else (k', v) :: update_field k x rest
  end.

Inductive exn : Type :=
  | TypeError (msg : string)
  | FetchError (msg : string)
  | SyntaxError (msg : string)
  | ListenerError (lid : nat).

(** The text a template literal [`${err}`] produces. *)
Definition exn_to_string (e : exn) : string :=
  match e with
  | TypeError msg => "TypeError: " +:+ msg
  | FetchError msg => "FetchError: " +:+ msg
  | SyntaxError msg => "SyntaxError: " +:+ msg
  | ListenerError _ => "Error"
  end.

(** A computation either returns or throws. *)
Inductive result (A : Type) : Type :=
  | Ok (a : A)
  | Throw (e : exn).
Arguments Ok {A} a.
Arguments Throw {A} e.

(** [v.k] in general: reading a property of [undefined] or [null] throws. *)
Definition get (v : value) (k : string) : result value :=
  if nullish v
  then Throw (TypeError ("Cannot read property '" +:+ k +:+ "' of undefined"))
  else Ok (prop v k).

(** [a === b] against a string literal. *)
Definition is_string (v : value) (s : string) : bool :=
  match v with
  | VStr s' => String.eqb s' s
  | _ => false
  end.

(** The state a promise ends in.  [Pending] is a promise nobody ever
    resolves or rejects. *)
Inductive promise (A : Type) : Type :=
  | Fulfilled (a : A)
  | Rejected (e : exn)
  | Pending.
Arguments Fulfilled {A} a.
Arguments Rejected {A} e.
Arguments Pending {A}.

End Js.

Import Js.

(* ===================================================================== *)
(** * JSON text *)
(* ===================================================================== *)

(** [JSON.stringify] and [JSON.parse] belong to the runtime.  This module is
    a writer and a reader of JSON text over [value]: compact output as
    [JSON.stringify] gives it, integers for numbers (a fraction or an
    exponent is refused), bytes for characters (an escape [\uXXXX] beyond a
    byte is refused). *)
Module Json.

Definition quote : ascii := "034"%char.
Definition backslash : ascii := "\"%char.

Definition is_ws (c : ascii) : bool :=
  Ascii.eqb c " " || Ascii.eqb c "009" || Ascii.eqb c "010" || Ascii.eqb c "013".

Definition is_digit (c : ascii) : bool :=
  (48 <=? nat_of_ascii c)%nat && (nat_of_ascii c <=? 57)%nat.

(** ** Writing *)

Definition hex_digit (n : nat) : ascii :=
  if (n <? 10)%nat then ascii_of_nat (48 + n) else ascii_of_nat (87 + n).

Definition escape_char (c : ascii) : string :=
  if Ascii.eqb c quote then String backslash (String quote EmptyString)
  else if Ascii.eqb c backslash then String backslash (String backslash EmptyString)
  else if Ascii.eqb c "008" then "\b"
  else if Ascii.eqb c "012" then "\f"
  else if Ascii.eqb c "010" then "\n"
  else if Ascii.eqb c "013" then "\r"
  else if Ascii.eqb c "009" then "\t"
  else if (nat_of_ascii c <? 32)%nat then
    "\u00" +:+ String (hex_digit (nat_of_ascii c / 16))
                 (String (hex_digit (nat_of_ascii c mod 16)) EmptyString)
  else String c EmptyString.

Fixpoint escape (s : string) : string :=
  match s with
  | EmptyString => EmptyString
  | String c rest => escape_char c +:+ escape rest
  end.

Definition print_string (s : string) : string :=
  String quote (escape s +:+ String quote EmptyString).

Definition print_N (n : N) : string := NilEmpty.string_of_uint (N.to_uint n).

Definition print_Z (n : Z) : string :=
  match n with
  | Zneg p => String "-" (print_N (Npos p))
  | _ => print_N (Z.to_N n)
  end.

Definition separator (first : bool) : string := if first then "" else ",".

Fixpoint print_items (pr : value -> string) (first : bool) (xs : list value) : string :=
  match xs with
  | [] => ""
  | x :: rest => separator first +:+ pr x +:+ print_items pr false rest
  end.

(** A property holding [undefined] is left out. *)
Fixpoint print_fields (pr : value -> string) (first : bool) (fields : list (string * value))
  : string :=
  match fields with
  | [] => ""
  | (k, VUndefined) :: rest => print_fields pr first rest
  | (k, v) :: rest =>
      separator first +:+ print_string k +:+ ":" +:+ pr v +:+ print_fields pr false rest
  end.

Fixpoint print (v : value) : string :=
  match v with
  | VUndefined | VNull | VNumber NaN => "null"
  | VBool b => if b then "true" else "false"
  | VNumber (Num n) => print_Z n
  | VStr s => print_string s
  | VArr xs => "[" +:+ print_items print true xs +:+ "]"
  | VObj fields => "{" +:+ print_fields print true fields +:+ "}"
  end.

(** ** Reading *)

Fixpoint skip_ws (s : string) : string :=
  match s with
  | String c rest => if is_ws c then skip_ws rest else s
  | EmptyString => s
  end.

Definition hex_value (c : ascii) : option nat :=
  let n := nat_of_ascii c in
  if ((48 <=? n) && (n <=? 57))%nat then Some (n - 48)
  else if ((97 <=? n) && (n <=? 102))%nat then Some (n - 87)
  else if ((65 <=? n) && (n <=? 70))%nat then Some (n - 55)
  else None.

Definition hex4 (h1 h2 h3 h4 : ascii) : option ascii :=
  match hex_value h1, hex_value h2, hex_value h3, hex_value h4 with
  | Some a, Some b, Some c, Some d =>
      let code := (4096 * a + 256 * b + 16 * c + d)%nat in
      if (code <? 256)%nat then Some (ascii_of_nat code) else None
  | _, _, _, _ => None
  end.

Definition simple_escape (e : ascii) : option ascii :=
  if Ascii.eqb e quote then Some quote
  else if Ascii.eqb e backslash then Some backslash
  else if Ascii.eqb e "/" then Some "/"%char
  else if Ascii.eqb e "b" then Some "008"%char
  else if Ascii.eqb e "f" then Some "012"%char
  else if Ascii.eqb e "n" then Some "010"%char
  else if Ascii.eqb e "r" then Some "013"%char
  else if Ascii.eqb e "t" then Some "009"%char
  else None.

Definition cons_char (c : ascii) (r : option (string * string)) : option (string * string) :=
  match r with
  | Some (s, rest) => Some (String c s, rest)
  | None => None
  end.

(** The characters of a string, after its opening quote. *)
Fixpoint read_string (s : string) : option (string * string) :=
  match s with
  | EmptyString => None
  | String c rest =>
      if Ascii.eqb c quote then Some (EmptyString, rest)
      else if Ascii.eqb c backslash then
        match rest with
        | String e rest1 =>
            if Ascii.eqb e "u" then
              match rest1 with
              | String h1 (String h2 (String h3 (String h4 rest2))) =>
                  match hex4 h1 h2 h3 h4 with
                  | Some ch => cons_char ch (read_string rest2)
                  | None => None
                  end
              | _ => None
              end
            else
              match simple_escape e with
              | Some ch => cons_char ch (read_string rest1)
              | None => None
              end
        | EmptyString => None
        end
      else if (nat_of_ascii c <? 32)%nat then None
      else cons_char c (read_string rest)
  end.

Fixpoint span_digits (s : string) : string * string :=
  match s with
  | String c rest =>
      if is_digit c then
        let (ds, rest') := span_digits rest in (String c ds, rest')
      else (EmptyString, s)
  | EmptyString => (EmptyString, EmptyString)
  end.

Definition read_N (s : string) : option (N * string) :=
  match span_digits s with
  | (EmptyString, _) => None
  | (ds, rest) =>
      match NilEmpty.uint_of_string ds with
      | Some d => Some (N.of_uint d, rest)
      | None => None
      end
  end.

Definition read_Z (s : string) : option (Z * string) :=
  match s with
  | String c rest =>
      if Ascii.eqb c "-" then
        match read_N rest with
        | Some (n, rest') => Some (Z.opp (Z.of_N n), rest')
        | None => None
        end
      else
        match read_N s with
        | Some (n, rest') => Some (Z.of_N n, rest')
        | None => None
        end
  | EmptyString => None
  end.

(** [expect word s]: [s] without its prefix [word]. *)
Fixpoint expect (word s : string) : option string :=
  match word, s with
  | EmptyString, _ => Some s
  | String a word', String b s' => if Ascii.eqb a b then expect word' s' else None
  | String _ _, EmptyString => None
  end.

Definition literal (word : string) (v : value) (s : string) : option (value * string) :=
  match expect word s with
  | Some rest => Some (v, rest)
  | None => None
  end.

(** Properties are set in the order read: a repeated name keeps its first
    place and its last value. *)
Definition set_fields (fields : list (string * value)) : list (string * value) :=
  fold_left (fun acc kv => update_field (fst kv) (snd kv) acc) fields [].

(** [s] without its first character, when that is [c]. *)
Definition starts_with (c : ascii) (s : string) : option string :=
  match s with
  | String c' rest => if Ascii.eqb c' c then Some rest else None
  | EmptyString => None
  end.

Fixpoint read_value (fuel : nat) (s : string) : option (value * string) :=
  match fuel with
  | O => None
  | S fuel =>
      match skip_ws s with
      | EmptyString => None
      | String c rest =>
          if Ascii.eqb c "n" then literal "ull" VNull rest
          else if Ascii.eqb c "t" then literal "rue" (VBool true) rest
          else if Ascii.eqb c "f" then literal "alse" (VBool false) rest
          else if Ascii.eqb c quote then
            match read_string rest with
            | Some (str, rest') => Some (VStr str, rest')
            | None => None
            end
          else if Ascii.eqb c "[" then
            match starts_with "]" (skip_ws rest) with
            | Some rest' => Some (VArr [], rest')
            | None =>
                match read_items fuel rest with
                | Some (xs, rest') => Some (VArr xs, rest')
                | None => None
                end
            end
          else if Ascii.eqb c "{" then
            match starts_with "}" (skip_ws rest) with
            | Some rest' => Some (VObj [], rest')
            | None =>
                match read_fields fuel rest with
                | Some (fields, rest') => Some (VObj (set_fields fields), rest')
                | None => None
                end
            end
          else
            match read_Z (String c rest) with
            | Some (n, rest') => Some (VNumber (Num n), rest')
            | None => None
            end
      end
  end

with read_items (fuel : nat) (s : string) : option (list value * string) :=
  match fuel with
  | O => None
  | S fuel =>
      match read_value fuel s with
      | Some (x, rest) =>
          match starts_with "," (skip_ws rest) with
          | Some rest' =>
              match read_items fuel rest' with
              | Some (xs, rest'') => Some (x :: xs, rest'')
              | None => None
              end
          | None =>
              match starts_with "]" (skip_ws rest) with
              | Some rest' => Some ([x], rest')
              | None => None
              end
          end
      | None => None
      end
  end

with read_fields (fuel : nat) (s : string) : option (list (string * value) * string) :=
  match fuel with
  | O => None
  | S fuel =>
      match starts_with quote (skip_ws s) with
      | Some rest =>
          match read_string rest with
          | Some (k, rest1) =>
              match starts_with ":" (skip_ws rest1) with
              | Some rest2 =>
                  match read_value fuel rest2 with
                  | Some (v, rest3) =>
                      match starts_with "," (skip_ws rest3) with
                      | Some rest4 =>
                          match read_fields fuel rest4 with
                          | Some (fields, rest5) => Some ((k, v) :: fields, rest5)
                          | None => None
                          end
                      | None =>
                          match starts_with "}" (skip_ws rest3) with
                          | Some rest4 => Some ([(k, v)], rest4)
                          | None => None
                          end
                      end
                  | None => None
                  end
              | None => None
              end
          | None => None
          end
      | None => None
      end
  end.

(** The whole text is one value, blanks around it allowed. *)
Definition read (s : string) : option value :=
  match read_value (S (String.length s)) s with
  | Some (v, rest) =>
      match skip_ws rest with
      | EmptyString => Some v
      | String _ _ => None
      end
  | None => None
  end.

(** ** The values JSON text can hold *)

(** No [undefined], no [NaN], and no property name twice in an object. *)
Fixpoint is_json (v : value) : bool :=
  match v with
  | VUndefined | VNumber NaN => false
  | VNull | VBool _ | VNumber (Num _) | VStr _ => true
  | VArr xs => forallb is_json xs
  | VObj fields =>
      forallb (fun kv => is_json (snd kv)) fields
      && bool_decide (NoDup (List.map fst fields))
  end.

(** What may follow a number: anything but a further digit. *)
Definition ends_number (s : string) : bool :=
  match s with
  | String c _ => negb (is_digit c)
  | EmptyString => true
  end.

(** The characters a printed value starts with. *)
Definition is_value_start (c : ascii) : bool :=
  is_digit c || Ascii.eqb c "-" || Ascii.eqb c "n" || Ascii.eqb c "t" || Ascii.eqb c "f"
  || Ascii.eqb c quote || Ascii.eqb c "[" || Ascii.eqb c "{".

(** Reading what was written for [v] gives [v] back, whatever follows. *)
Definition reads_back (v : value) : Prop :=
  is_json v = true ->
  forall fuel rest,
    ends_number rest = true ->
    String.length (print v) <= fuel ->
    read_value fuel (print v +:+ rest) = Some (v, rest).

(** ** The profile mapping as JSON text *)

Definition stringify (m : gmap string value) : string :=
  print (VObj (map_to_list m)).

(** A text that is not an object is refused like a text that does not
    parse. *)
Definition parse (s : string) : option (gmap string value) :=
  match read s with
  | Some (VObj fields) => Some (list_to_map fields)
  | _ => None
  end.

Definition json_map (m : gmap string value) : Prop :=
  map_Forall (fun _ v => is_json v = true) m.

End Json.

(* ===================================================================== *)
(** * The world the connector runs in *)
(* ===================================================================== *)

Module Runtime.

(** A JavaScript function used as an event listener: its identity and
    whether it throws on the arguments [emit] passes it. *)
Record listener : Type := {
  l_id : nat;
  l_throws : value -> value -> bool
}.

(** One entry of the emitter's registry ([on] or [once]). *)
Record registration : Type := {
  reg_event : string;
  reg_once : bool;
  reg_listener : listener
}.

(** One call of [emit(type, event, data)]. *)
Record emission : Type := {
  em_type : string;
  em_event : value;
  em_data : value
}.

(** A request as [fetch] receives it; [rq_body] is the value that
    [JSON.stringify] turns into the body ([undefined] when there is none). *)
Record request : Type := {
  rq_url : string;
  rq_method : string;
  rq_body : value
}.

(** The calls that leave the process: an HTTP request through [fetch] and a
    timer armed through [setTimeout]. *)
Inductive effect : Type :=
  | Http (r : request)
  | SetTimeout (ms : number).

(** What the remote end does with a request: the transport fails, or a
    response arrives whose body parses as JSON ([Some]) or does not
    ([None]). *)
Inductive fetch_outcome : Type :=
  | NetworkFailure (msg : string)
  | Response (body : option value).

Record world : Type := {
  listeners : list registration;   (* the emitter's registry, oldest first *)
  emitted : list emission;         (* every [emit], oldest first *)
  invoked : list nat;              (* every listener call, oldest first *)
  console : list string;           (* [console.log] and [console.error] *)
  effects : list effect;           (* outbound calls, oldest first *)
  responses : list Z;              (* statuses sent on the webhook response *)
  network : nat -> fetch_outcome   (* the outcome of the n-th [fetch] *)
}.

Definition set_listeners (f : list registration -> list registration) (w : world) : world :=
  {| listeners := f (listeners w); emitted := emitted w; invoked := invoked w;
     console := console w; effects := effects w; responses := responses w;
     network := network w |}.

Definition add_emitted (e : emission) (w : world) : world :=
  {| listeners := listeners w; emitted := emitted w ++ [e]; invoked := invoked w;
     console := console w; effects := effects w; responses := responses w;
     network := network w |}.

Definition add_invoked (i : nat) (w : world) : world :=
  {| listeners := listeners w; emitted := emitted w; invoked := invoked w ++ [i];
     console := console w; effects := effects w; responses := responses w;
     network := network w |}.

Definition add_console (line : string) (w : world) : world :=
  {| listeners := listeners w; emitted := emitted w; invoked := invoked w;
     console := console w ++ [line]; effects := effects w; responses := responses w;
     network := network w |}.

Definition add_effect (e : effect) (w : world) : world :=
  {| listeners := listeners w; emitted := emitted w; invoked := invoked w;
     console := console w; effects := effects w ++ [e]; responses := responses w;
     network := network w |}.

Definition add_response (status : Z) (w : world) : world :=
  {| listeners := listeners w; emitted := emitted w; invoked := invoked w;
     console := console w; effects := effects w; responses := responses w ++ [status];
     network := network w |}.

(** ** Computations: state passing with exceptions *)

Definition ST (S A : Type) : Type := S -> result A * S.

Definition ret {S A} (a : A) : ST S A := fun s => (Ok a, s).

Definition bind {S A B} (m : ST S A) (k : A -> ST S B) : ST S B :=
  fun s =>
    match m s with
    | (Ok a, s') => k a s'
    | (Throw e, s') => (Throw e, s')
    end.

Definition throw {S A} (e : exn) : ST S A := fun s => (Throw e, s).

Definition lift {S A} (r : result A) : ST S A := fun s => (r, s).

Definition modify {S} (f : S -> S) : ST S unit := fun s => (Ok tt, f s).

Definition gets {S A} (f : S -> A) : ST S A := fun s => (Ok (f s), s).

Definition when {S} (b : bool) (m : ST S unit) : ST S unit := if b then m else ret tt.

(** ** Promises, in a world where one call runs to its end *)

(** [p.then(f)]: [f] runs when [p] is fulfilled; what [f] throws rejects the
    derived promise. *)
Definition then_ {S A B} (p : promise A) (f : A -> ST S (promise B)) : ST S (promise B) :=
  match p with
  | Fulfilled a =>
      fun s =>
        match f a s with
        | (Ok q, s') => (Ok q, s')
        | (Throw e, s') => (Ok (Rejected e), s')
        end
  | Rejected e => ret (Rejected e)
  | Pending => ret Pending
  end.

(** [p.catch(h)] *)
Definition catch_ {S A} (p : promise A) (h : exn -> ST S (promise A)) : ST S (promise A) :=
  match p with
  | Fulfilled a => ret (Fulfilled a)
  | Rejected e =>
      fun s =>
        match h e s with
        | (Ok q, s') => (Ok q, s')
        | (Throw e', s') => (Ok (Rejected e'), s')
        end
  | Pending => ret Pending
  end.

(** Inside [new Promise((resolve, reject) => ...)]: the body yields [Some v]
    when it reaches [resolve(v)] and [None] when it never does. *)
Definition resolve {S A} (v : A) : ST S (option A) := ret (Some v).

Definition on_fulfilled {S A B} (p : promise A) (f : A -> ST S (option B)) : ST S (option B) :=
  match p with
  | Fulfilled a => f a
  | _ => ret None
  end.

Definition new_Promise {S A} (executor : ST S (option A)) : ST S (promise A) :=
  fun s =>
    match executor s with
    | (Ok (Some a), s') => (Ok (Fulfilled a), s')
    | (Ok None, s') => (Ok Pending, s')
    | (Throw e, s') => (Ok (Rejected e), s')
    end.

(** Computations of [messenger.js] run over the [world]. *)
Abbreviation M := (ST world).

End Runtime.

Import Runtime.

Notation "x <- m ;; k" := (bind m (fun x => k))
  (at level 100, m at next level, right associativity).
Notation "m ;; k" := (bind m (fun _ => k))
  (at level 100, right associativity).

(* ===================================================================== *)
(** * messenger.js *)
(* ===================================================================== *)

Module Messenger.

(** ** [normalizeString] *)

Definition in_range (lo hi : nat) (c : ascii) : bool :=
  (lo <=? nat_of_ascii c)%nat && (nat_of_ascii c <=? hi)%nat.

Definition is_lower (c : ascii) : bool := in_range 97 122 c.
Definition is_upper (c : ascii) : bool := in_range 65 90 c.
Definition is_digit (c : ascii) : bool := in_range 48 57 c.

(** The character class [a-zA-Z0-9]. *)
Definition is_alnum (c : ascii) : bool := is_lower c || is_upper c || is_digit c.

(** [str.replace(/[^a-zA-Z0-9]+/g, repl)]: every maximal run of characters
    outside the class is one match and is replaced by [repl]; [in_run] records
    that the scan is inside a match whose replacement was already written. *)
Fixpoint replace_runs (repl : string) (in_run : bool) (str : string) : string :=
  match str with
  | EmptyString => EmptyString
  | String c rest =>
      if is_alnum c
      then String c (replace_runs repl false rest)
      else (if in_run then "" else repl) +:+ replace_runs repl true rest
  end.

Definition upper_char (c : ascii) : ascii :=
  if is_lower c then ascii_of_nat (nat_of_ascii c - 32) else c.

(** [s.toUpperCase()] on the letters [a-z]; any other character is kept.
    In [normalizeString] only characters of the class reach it. *)
Fixpoint toUpperCase (s : string) : string :=
  match s with
  | EmptyString => EmptyString
  | String c rest => String (upper_char c) (toUpperCase rest)
  end.

Definition normalizeString (str : string) : string :=
  toUpperCase (replace_runs "" false str).

(** ** [_formatButtons] *)

(** [xs.map(f)]: arrays only; any other truthy receiver has no [map]. *)
Definition js_map (f : value -> value) (v : value) : result value :=
  match v with
  | VArr xs => Ok (VArr (List.map f xs))
  | _ => Throw (TypeError "map is not a function")
  end.

Definition format_button (button : value) : value :=
  match button with
  | VStr s =>
      VObj [("type", VStr "postback");
            ("title", VStr s);
            ("payload", VStr ("BOOTBOT_BUTTON_" +:+ normalizeString s))]
  | _ =>
      if truthy button && truthy (prop button "title")
      then button
      else VObj []
  end.

(** [buttons && buttons.map(...)] *)
Definition _formatButtons (buttons : value) : result value :=
  if truthy buttons then js_map format_button buttons else Ok buttons.

(** ** The instance *)

(** The fields the constructor copies from its options. *)
Record messenger : Type := {
  accessToken : string;
  verifyToken : string;
  appSecret : string;
  broadcastEchoes : bool
}.

(** ** The emitter ([eventemitter2], which [Messenger] extends)

    [emit] without wildcards: it takes a copy of the handlers registered for
    the name and calls them in registration order; a [once] handler removes
    itself before it runs.  Nothing catches what a handler throws.

    The registry is that of an emitter on which nobody listens to
    'newListener': before it registers a listener, the emitter calls the
    listeners of that name, and [on] and [once] below leave that call
    out. *)

Definition same_registration (a b : registration) : bool :=
  String.eqb (reg_event a) (reg_event b)
  && Nat.eqb (l_id (reg_listener a)) (l_id (reg_listener b))
  && Bool.eqb (reg_once a) (reg_once b).

Fixpoint remove_first (r : registration) (rs : list registration) : list registration :=
  match rs with
  | [] => []
  | r' :: rest => if same_registration r r' then rest else r' :: remove_first r rest
  end.

Definition on (type : string) (f : listener) : M unit :=
  modify (set_listeners (fun rs =>
    rs ++ [{| reg_event := type; reg_once := false; reg_listener := f |}])).

Definition once (type : string) (f : listener) : M unit :=
  modify (set_listeners (fun rs =>
    rs ++ [{| reg_event := type; reg_once := true; reg_listener := f |}])).

Definition handlers_for (type : string) (rs : list registration) : list registration :=
  List.filter (fun r => String.eqb (reg_event r) type) rs.

Definition call_handler (r : registration) (event data : value) : M unit :=
  when (reg_once r) (modify (set_listeners (remove_first r))) ;;
  modify (add_invoked (l_id (reg_listener r))) ;;
  if l_throws (reg_listener r) event data
  then throw (ListenerError (l_id (reg_listener r)))
  else ret tt.

Fixpoint call_handlers (hs : list registration) (event data : value) : M unit :=
  match hs with
  | [] => ret tt
  | h :: rest => call_handler h event data ;; call_handlers rest event data
  end.

Definition emit (type : string) (event data : value) : M bool :=
  modify (add_emitted {| em_type := type; em_event := event; em_data := data |}) ;;
  hs <- gets (fun w => handlers_for type (listeners w)) ;;
  call_handlers hs event data ;;
  ret (negb (Nat.eqb (length hs) 0)).

(** ** Timers, requests and the console *)

(** [setTimeout(callback, ms)]: the timer is armed, then the callback runs. *)
Definition setTimeout {A} (callback : M A) (ms : number) : M A :=
  modify (add_effect (SetTimeout ms)) ;; callback.

Definition count_http (es : list effect) : nat :=
  length (List.filter (fun e => match e with Http _ => true | SetTimeout _ => false end) es).

(** [fetch(url, init)]: the request leaves, and the remote end decides. *)
Definition fetch (url method : string) (body : value) : M (promise (option value)) :=
  n <- gets (fun w => count_http (effects w)) ;;
  modify (add_effect (Http {| rq_url := url; rq_method := method; rq_body := body |})) ;;
  outcome <- gets (fun w => network w n) ;;
  match outcome with
  | NetworkFailure msg => ret (Rejected (FetchError msg))
  | Response body => ret (Fulfilled body)
  end.

(** [res.json()] *)
Definition res_json (res : option value) : M (promise value) :=
  match res with
  | Some json => ret (Fulfilled json)
  | None => ret (Rejected (SyntaxError "Unexpected token in JSON"))
  end.

Definition console_log (line : string) : M unit := modify (add_console line).
Definition console_error (line : string) : M unit := modify (add_console line).

(** [x || d] on an optional string argument. *)
Definition or_default (x : option string) (d : string) : string :=
  match x with
  | Some s => if String.eqb s "" then d else s
  | None => d
  end.

(** ** The outbound sender *)

Definition sendRequest (this : messenger) (body : value) (endpoint method : option string)
  : M (promise value) :=
  let endpoint := or_default endpoint "messages" in
  let method := or_default method "POST" in
  res <- fetch ("https://graph.facebook.com/v2.7/me/" +:+ endpoint
                +:+ "?access_token=" +:+ accessToken this) method body ;;
  json <- then_ res res_json ;;
  catch_ json (fun err =>
    console_log ("Error sending message: " +:+ exn_to_string err) ;;
    ret (Fulfilled VUndefined)).

Definition sendAction (this : messenger) (recipientId : value) (action : string)
  : M (promise value) :=
  sendRequest this
    (VObj [("recipient", VObj [("id", recipientId)]); ("sender_action", VStr action)])
    None None.

Definition isNaN (x : number) : bool :=
  match x with
  | NaN => true
  | Num _ => false
  end.

(** [x > 20000] *)
Definition gt_20000 (x : number) : bool :=
  match x with
  | Num n => (20000 <? n)%Z
  | NaN => false
  end.

(** The assignment [milliseconds = 20000] in the guard has no reader: the
    timer below is armed with [timeout], which was computed before it. *)
Definition sendTypingIndicator (this : messenger) (recipientId : value) (milliseconds : number)
  : M (promise value) :=
  let timeout := if isNaN milliseconds then Num 0 else milliseconds in
  when (gt_20000 milliseconds)
    (console_error "sendTypingIndicator: max milliseconds value is 20000 (20 seconds)") ;;
  new_Promise (
    typing_on <- sendAction this recipientId "typing_on" ;;
    on_fulfilled typing_on (fun _ =>
      setTimeout (
        typing_off <- sendAction this recipientId "typing_off" ;;
        on_fulfilled typing_off (fun json => resolve json))
      timeout)).

(** The [options] argument of the send methods. *)
Record send_options : Type := {
  typing : value;
  onDelivery : option listener;   (* [Some] when [typeof] gives ['function'] *)
  onRead : option listener
}.

(** [text.length * 10]; a text is a string in every message the composer
    builds, and of the other values only arrays have a length here. *)
Definition length_times_10 (text : value) : number :=
  match text with
  | VStr s => Num (Z.of_nat (String.length s) * 10)
  | VArr xs => Num (Z.of_nat (length xs) * 10)
  | _ => NaN
  end.

Definition sendMessage (this : messenger) (recipientId message : value)
    (options : option send_options) : M (promise value) :=
  let onDelivery := match options with Some o => onDelivery o | None => None end in
  let onRead := match options with Some o => onRead o | None => None end in
  let req : M (promise value) :=
    sent <- sendRequest this
              (VObj [("recipient", VObj [("id", recipientId)]); ("message", message)])
              None None ;;
    then_ sent (fun json =>
      match onDelivery with Some f => once "delivery" f | None => ret tt end ;;
      match onRead with Some f => once "read" f | None => ret tt end ;;
      ret (Fulfilled json)) in
  match options with
  | Some o =>
      if truthy (typing o) then
        let autoTimeout :=
          if truthy message && truthy (prop message "text")
          then length_times_10 (prop message "text")
          else Num 1000 in
        let timeout :=
          match typing o with
          | VNumber n => n
          | _ => autoTimeout
          end in
        typed <- sendTypingIndicator this recipientId timeout ;;
        then_ typed (fun _ => req)
      else req
  | None => req
  end.

Definition getUserProfile (this : messenger) (userId : string) : M (promise value) :=
  let url := "https://graph.facebook.com/v2.7/" +:+ userId
             +:+ "?fields=first_name,last_name,profile_pic,locale,timezone,gender&access_token="
             +:+ accessToken this in
  res <- fetch url "GET" VUndefined ;;
  json <- then_ res res_json ;;
  catch_ json (fun err =>
    console_log ("Error getting user profile: " +:+ exn_to_string err) ;;
    ret (Fulfilled VUndefined)).

(** ** The event dispatcher *)

Definition getM (v : value) (k : string) : M value := lift (get v k).

(** [v.k1.k2] *)
Definition getM2 (v : value) (k1 k2 : string) : M value :=
  x <- getM v k1 ;; getM x k2.

(** [a && b]: [b] is evaluated only when [a] is truthy. *)
Definition and_ (a b : M value) : M value :=
  x <- a ;; if truthy x then b else ret x.

Definition _handleEvent (type : string) (event data : value) : M unit :=
  emit type event data ;; ret tt.

Definition _handleConversationResponse (type : string) (event : value) : M bool :=
  userId <- getM2 event "sender" "id" ;;
  let captured := false in
  ret captured.

Definition _handleMessageEvent (event : value) : M unit :=
  stop <- _handleConversationResponse "message" event ;;
  if stop then ret tt else
  text <- getM2 event "message" "text" ;;
  senderId <- getM2 event "sender" "id" ;;
  let captured := false in
  if negb (truthy text) then ret tt else
  _handleEvent "message" event (VObj [("captured", VBool captured)]).

Definition _handleAttachmentEvent (event : value) : M unit :=
  stop <- _handleConversationResponse "attachment" event ;;
  if stop then ret tt else
  _handleEvent "attachment" event VUndefined.

(** [`${v}`]: the string a template literal makes of a value. *)
Fixpoint to_string (v : value) : string :=
  match v with
  | VUndefined => "undefined"
  | VNull => "null"
  | VBool b => if b then "true" else "false"
  | VNumber (Num n) => pretty n
  | VNumber NaN => "NaN"
  | VStr s => s
  | VArr xs =>
      (fix join (items : list value) : string :=
         match items with
         | [] => ""
         | [x] => if nullish x then "" else to_string x
         | x :: rest => (if nullish x then "" else to_string x) +:+ "," +:+ join rest
         end) xs
  | VObj _ => "[object Object]"
  end.

Definition _handlePostbackEvent (event : value) : M unit :=
  stop <- _handleConversationResponse "postback" event ;;
  if stop then ret tt else
  payload <- getM2 event "postback" "payload" ;;
  when (truthy payload) (_handleEvent ("postback:" +:+ to_string payload) event VUndefined) ;;
  _handleEvent "postback" event VUndefined.

Definition _handleQuickReplyEvent (event : value) : M unit :=
  stop <- _handleConversationResponse "quick_reply" event ;;
  if stop then ret tt else
  payload <- and_ (getM2 event "message" "quick_reply")
                  (q <- getM2 event "message" "quick_reply" ;; getM q "payload") ;;
  when (truthy payload) (_handleEvent ("quick_reply:" +:+ to_string payload) event VUndefined) ;;
  _handleEvent "quick_reply" event VUndefined.

(** [xs.forEach(f)] *)
Fixpoint each (xs : list value) (f : value -> M unit) : M unit :=
  match xs with
  | [] => ret tt
  | x :: rest => f x ;; each rest f
  end.

Definition forEach (xs : value) (f : value -> M unit) : M unit :=
  match xs with
  | VArr l => each l f
  | _ => throw (TypeError "forEach is not a function")
  end.

(** The callback of [entry.messaging.forEach]. *)
Definition on_messaging (this : messenger) (event : value) : M unit :=
  echo <- and_ (getM event "message")
            (and_ (getM2 event "message" "is_echo")
                  (ret (VBool (negb (broadcastEchoes this))))) ;;
  if truthy echo then ret tt else
  optin <- getM event "optin" ;;
  if truthy optin then _handleEvent "authentication" event VUndefined else
  text <- and_ (getM event "message") (getM2 event "message" "text") ;;
  if truthy text then
    _handleMessageEvent event ;;
    quick_reply <- getM2 event "message" "quick_reply" ;;
    when (truthy quick_reply) (_handleQuickReplyEvent event)
  else
  attachments <- and_ (getM event "message") (getM2 event "message" "attachments") ;;
  if truthy attachments then _handleAttachmentEvent event else
  postback <- getM event "postback" ;;
  if truthy postback then _handlePostbackEvent event else
  delivery <- getM event "delivery" ;;
  if truthy delivery then _handleEvent "delivery" event VUndefined else
  read <- getM event "read" ;;
  if truthy read then _handleEvent "read" event VUndefined else
  account_linking <- getM event "account_linking" ;;
  if truthy account_linking then _handleEvent "account_linking" event VUndefined else
  console_log "Webhook received unknown event: ".

Definition sendStatus (status : Z) : M unit := modify (add_response status).

(** The handler [_initWebhook] mounts on [POST /webhook]; [data] is
    [req.body]. *)
Definition post_webhook (this : messenger) (data : value) : M unit :=
  object <- getM data "object" ;;
  if negb (is_string object "page") then ret tt else
  entries <- getM data "entry" ;;
  forEach entries (fun entry =>
    messaging <- getM entry "messaging" ;;
    forEach messaging (on_messaging this)) ;;
  sendStatus 200.

(** ** [_formatQuickReplies] *)

(** [xs.map(f)] with a callback that may throw: the first throw ends the
    call. *)
Fixpoint map_result (f : value -> result value) (xs : list value) : result (list value) :=
  match xs with
  | [] => Ok []
  | x :: rest =>
      match f x with
      | Ok y =>
          match map_result f rest with
          | Ok ys => Ok (y :: ys)
          | Throw e => Throw e
          end
      | Throw e => Throw e
      end
  end.

Definition js_map_result (f : value -> result value) (v : value) : result value :=
  match v with
  | VArr xs =>
      match map_result f xs with
      | Ok ys => Ok (VArr ys)
      | Throw e => Throw e
      end
  | _ => Throw (TypeError "map is not a function")
  end.

(** [normalizeString(v)]: only a string has [replace]. *)
Definition normalize_value (v : value) : result string :=
  match v with
  | VStr s => Ok (normalizeString s)
  | _ => Throw (TypeError "str.replace is not a function")
  end.

(** [a || b] *)
Definition or_else (a b : value) : value := if truthy a then a else b.

Definition format_quick_reply (reply : value) : result value :=
  match reply with
  | VStr s =>
      Ok (VObj [("content_type", VStr "text");
                ("title", VStr s);
                ("payload", VStr ("BOOTBOT_QR_" +:+ normalizeString s))])
  | _ =>
      if truthy reply && truthy (prop reply "title") then
        let content_type := or_else (prop reply "content_type") (VStr "text") in
        let title := prop reply "title" in
        if truthy (prop reply "payload") then
          Ok (VObj [("content_type", content_type); ("title", title);
                    ("payload", prop reply "payload")])
        else
          match normalize_value (prop reply "title") with
          | Ok n =>
              Ok (VObj [("content_type", content_type); ("title", title);
                        ("payload", VStr ("BOOTBOT_QR_" +:+ n))])
          | Throw e => Throw e
          end
      else Ok (VObj [])
  end.

(** [quickReplies && quickReplies.map(...)] *)
Definition _formatQuickReplies (quickReplies : value) : result value :=
  if truthy quickReplies then js_map_result format_quick_reply quickReplies
  else Ok quickReplies.

(** ** The composer *)

(** [v.length] *)
Definition length_of (v : value) : value :=
  match v with
  | VStr s => VNumber (Num (Z.of_nat (String.length s)))
  | VArr xs => VNumber (Num (Z.of_nat (length xs)))
  | VObj fields => assoc "length" fields
  | _ => VUndefined
  end.

(** *** [x > 0], with the conversions of the comparison

    The comparison converts its left side to a number first: a string by
    the grammar of numeric strings, an array or an object through its
    string. *)

(** The white space a numeric string may start and end with: of the code
    units below 256, TAB, LF, VT, FF, CR, SP and NBSP. *)
Definition is_str_white_space (c : ascii) : bool :=
  let n := nat_of_ascii c in
  ((9 <=? n) && (n <=? 13) || (n =? 32) || (n =? 160))%nat.

Fixpoint trim_start (s : string) : string :=
  match s with
  | String c rest => if is_str_white_space c then trim_start rest else s
  | EmptyString => EmptyString
  end.

Fixpoint trim_end (s : string) : string :=
  match s with
  | String c rest =>
      let kept := trim_end rest in
      if is_str_white_space c && String.eqb kept "" then EmptyString else String c kept
  | EmptyString => EmptyString
  end.

(** The longest prefix of characters that satisfy [p], and what follows. *)
Fixpoint span (p : ascii -> bool) (s : string) : string * string :=
  match s with
  | String c rest =>
      if p c then let (taken, left) := span p rest in (String c taken, left)
      else (EmptyString, s)
  | EmptyString => (EmptyString, EmptyString)
  end.

(** The value of a digit, hexadecimal digits included. *)
Definition digit_value (c : ascii) : option Z :=
  let n := Z.of_nat (nat_of_ascii c) in
  if (48 <=? n)%Z && (n <=? 57)%Z then Some (n - 48)%Z
  else if (97 <=? n)%Z && (n <=? 102)%Z then Some (n - 87)%Z
  else if (65 <=? n)%Z && (n <=? 70)%Z then Some (n - 55)%Z
  else None.

Fixpoint digits_in (base acc : Z) (s : string) : option Z :=
  match s with
  | String c rest =>
      match digit_value c with
      | Some d => if (d <? base)%Z then digits_in base (acc * base + d)%Z rest else None
      | None => None
      end
  | EmptyString => Some acc
  end.

(** One digit or more of the base, and nothing else. *)
Definition integer_literal (base : Z) (s : string) : option Z :=
  if String.eqb s "" then None else digits_in base 0 s.

(** [StrUnsignedDecimalLiteral] other than [Infinity]: digits, a point and
    digits, an exponent; at least one digit before the exponent.  The
    literal stands for [m * 10 ^ k]. *)
Definition unsigned_decimal (s : string) : option (Z * Z) :=
  let (whole, rest) := span is_digit s in
  let (fraction, rest) :=
    match rest with
    | String "." after => span is_digit after
    | _ => (EmptyString, rest)
    end in
  match integer_literal 10 (whole +:+ fraction) with
  | None => None
  | Some m =>
      let shift := Z.of_nat (String.length fraction) in
      match rest with
      | EmptyString => Some (m, (- shift)%Z)
      | String c exponent =>
          if Ascii.eqb c "e" || Ascii.eqb c "E" then
            let (sign, exponent) :=
              match exponent with
              | String "+" after => (1%Z, after)
              | String "-" after => ((-1)%Z, after)
              | _ => (1%Z, exponent)
              end in
            match integer_literal 10 exponent with
            | Some e => Some (m, (sign * e - shift)%Z)
            | None => None
            end
          else None
      end
  end.

(** The literal is a number above zero.  A double is above zero when the
    value it rounds is above [2 ^ -1075], half of the least double. *)
Definition positive_decimal (s : string) : bool :=
  if String.eqb s "Infinity" then true
  else
    match unsigned_decimal s with
    | Some (m, k) => (0 <? m)%Z && ((0 <=? k)%Z || (10 ^ (- k) <? m * 2 ^ 1075)%Z)
    | None => false
    end.

Definition positive_integer (base : Z) (s : string) : bool :=
  match integer_literal base s with
  | Some n => (0 <? n)%Z
  | None => false
  end.

(** [Number(s) > 0]: white space around one literal, which is a decimal
    literal with an optional sign, or an unsigned binary, octal or
    hexadecimal integer; the empty string is zero and every other text is
    [NaN]. *)
Definition string_gt_0 (s : string) : bool :=
  match trim_end (trim_start s) with
  | String "+" rest => positive_decimal rest
  | String "0" (String c rest) as literal =>
      if Ascii.eqb c "x" || Ascii.eqb c "X" then positive_integer 16 rest
      else if Ascii.eqb c "o" || Ascii.eqb c "O" then positive_integer 8 rest
      else if Ascii.eqb c "b" || Ascii.eqb c "B" then positive_integer 2 rest
      else positive_decimal literal
  | literal => positive_decimal literal
  end.

Definition has_key (k : string) (fields : list (string * value)) : bool :=
  existsb (fun kv => String.eqb (fst kv) k) fields.

(** [String(v)] as the comparison and [Array.prototype.join] apply it.  An
    object answers "[object Object]" through [Object.prototype.toString],
    unless a property of its own named [toString] hides that function;
    then nothing is left to call, for [valueOf] gives the object back.
    Numbers print as integers, as in [to_string]. *)
Fixpoint ToString (v : value) : result string :=
  match v with
  | VUndefined => Ok "undefined"
  | VNull => Ok "null"
  | VBool b => Ok (if b then "true" else "false")
  | VNumber (Num n) => Ok (pretty n)
  | VNumber NaN => Ok "NaN"
  | VStr s => Ok s
  | VArr xs =>
      (fix join (items : list value) : result string :=
         match items with
         | [] => Ok ""
         | x :: rest =>
             match (if nullish x then Ok "" else ToString x) with
             | Ok first =>
                 match rest with
                 | [] => Ok first
                 | _ =>
                     match join rest with
                     | Ok others => Ok (first +:+ "," +:+ others)
                     | Throw e => Throw e
                     end
                 end
             | Throw e => Throw e
             end
         end) xs
  | VObj fields =>
      if has_key "toString" fields
      then Throw (TypeError "Cannot convert object to primitive value")
      else Ok "[object Object]"
  end.

(** [x > 0] *)
Definition gt_0 (x : value) : result bool :=
  match x with
  | VNumber (Num n) => Ok (0 <? n)%Z
  | VNumber NaN | VUndefined | VNull => Ok false
  | VBool b => Ok b
  | VStr s => Ok (string_gt_0 s)
  | VArr _ | VObj _ =>
      match ToString x with
      | Ok s => Ok (string_gt_0 s)
      | Throw e => Throw e
      end
  end.

(** [v && v.length > 0] *)
Definition has_items (v : value) : result bool :=
  if truthy v then gt_0 (length_of v) else Ok false.

(** A message literal to which [quick_replies] is added when there are
    some. *)
Definition with_quick_replies (message : list (string * value)) (some : bool)
    (formatted : value) : value :=
  if some
  then VObj (message ++ [("quick_replies", formatted)])
  else VObj message.

Definition sendTextMessage (this : messenger) (recipientId text quickReplies : value)
    (options : option send_options) : M (promise value) :=
  formattedQuickReplies <- lift (_formatQuickReplies quickReplies) ;;
  some <- lift (has_items formattedQuickReplies) ;;
  sendMessage this recipientId
    (with_quick_replies [("text", text)] some formattedQuickReplies) options.

Definition sendTemplate (this : messenger) (recipientId payload : value)
    (options : option send_options) : M (promise value) :=
  sendMessage this recipientId
    (VObj [("attachment", VObj [("type", VStr "template"); ("payload", payload)])])
    options.

Definition sendButtonTemplate (this : messenger) (recipientId text buttons : value)
    (options : option send_options) : M (promise value) :=
  formattedButtons <- lift (_formatButtons buttons) ;;
  sendTemplate this recipientId
    (VObj [("template_type", VStr "button"); ("text", text);
           ("buttons", formattedButtons)])
    options.

Definition sendGenericTemplate (this : messenger) (recipientId elements : value)
    (options : option send_options) : M (promise value) :=
  sendTemplate this recipientId
    (VObj [("template_type", VStr "generic"); ("elements", elements)])
    options.

Definition sendAttachment (this : messenger) (recipientId type url quickReplies : value)
    (options : option send_options) : M (promise value) :=
  formattedQuickReplies <- lift (_formatQuickReplies quickReplies) ;;
  some <- lift (has_items formattedQuickReplies) ;;
  sendMessage this recipientId
    (with_quick_replies
       [("attachment", VObj [("type", type); ("payload", VObj [("url", url)])])]
       some formattedQuickReplies)
    options.

(** [say] returns the promise of the send it chose, or nothing. *)
Definition say (this : messenger) (recipientId message : value)
    (options : option send_options) : M (option (promise value)) :=
  let invalid : M (option (promise value)) :=
    console_error "Invalid format for .say() message." ;; ret None in
  match message with
  | VStr _ =>
      sent <- sendTextMessage this recipientId message (VArr []) options ;;
      ret (Some sent)
  | _ =>
      if truthy message && truthy (prop message "text") then
        quickReplies <- lift (has_items (prop message "quickReplies")) ;;
        if quickReplies then
          sent <- sendTextMessage this recipientId (prop message "text")
                    (prop message "quickReplies") options ;;
          ret (Some sent)
        else
          buttons <- lift (has_items (prop message "buttons")) ;;
          if buttons then
            sent <- sendButtonTemplate this recipientId (prop message "text")
                      (prop message "buttons") options ;;
            ret (Some sent)
          else invalid
      else if truthy message && truthy (prop message "attachment") then
        sent <- sendAttachment this recipientId (prop message "attachment")
                  (prop message "url") (prop message "quickReplies") options ;;
        ret (Some sent)
      else invalid
  end.

(** ** Thread settings *)

Definition sendThreadRequest (this : messenger) (body : value) (method : option string)
  : M (promise value) :=
  sendRequest this body (Some "thread_settings") method.

Definition setGreetingText (this : messenger) (text : value) : M (promise value) :=
  sendThreadRequest this
    (VObj [("setting_type", VStr "greeting"); ("greeting", VObj [("text", text)])])
    None.

(** The argument of [setGetStartedButton]: a payload string, a callback, or
    anything else. *)
Inductive get_started_action : Type :=
  | ActionPayload (payload : string)
  | ActionCallback (f : listener)
  | ActionOther.

Definition setGetStartedButton (this : messenger) (action : get_started_action)
  : M (promise value) :=
  let payload :=
    match action with
    | ActionPayload s => s
    | _ => "BOOTBOT_GET_STARTED"
    end in
  match action with
  | ActionCallback f => on ("postback:" +:+ payload) f
  | _ => ret tt
  end ;;
  sendThreadRequest this
    (VObj [("setting_type", VStr "call_to_actions");
           ("thread_state", VStr "new_thread");
           ("call_to_actions", VArr [VObj [("payload", VStr payload)]])])
    None.

Definition deleteGetStartedButton (this : messenger) : M (promise value) :=
  sendThreadRequest this
    (VObj [("setting_type", VStr "call_to_actions"); ("thread_state", VStr "new_thread")])
    (Some "DELETE").

Definition setPersistentMenu (this : messenger) (buttons : value) : M (promise value) :=
  formattedButtons <- lift (_formatButtons buttons) ;;
  sendThreadRequest this
    (VObj [("setting_type", VStr "call_to_actions");
           ("thread_state", VStr "existing_thread");
           ("call_to_actions", formattedButtons)])
    None.

Definition deletePersistentMenu (this : messenger) : M (promise value) :=
  sendThreadRequest this
    (VObj [("setting_type", VStr "call_to_actions");
           ("thread_state", VStr "existing_thread")])
    (Some "DELETE").

(** ** The constructor *)

(** The options of the constructor: the three tokens are strings, [skin] is
    given or not. *)
Record constructor_options : Type := {
  opt_accessToken : string;
  opt_verifyToken : string;
  opt_appSecret : string;
  opt_broadcastEchoes : value;
  opt_skin : bool
}.

(** What [throw new Error(msg)] leaves: the call failed with [msg]. *)
Inductive checked (A : Type) : Type :=
  | Passed (a : A)
  | Failed (msg : string).
Arguments Passed {A} a.
Arguments Failed {A} msg.

Definition nonempty (s : string) : bool := negb (String.eqb s "").

(** The instance the constructor leaves, before it mounts the two
    handlers. *)
Definition constructor (options : option constructor_options) : checked messenger :=
  match options with
  | Some o =>
      if nonempty (opt_accessToken o) && nonempty (opt_verifyToken o)
         && nonempty (opt_appSecret o) && opt_skin o
      then Passed {| accessToken := opt_accessToken o;
                     verifyToken := opt_verifyToken o;
                     appSecret := opt_appSecret o;
                     broadcastEchoes := truthy (or_else (opt_broadcastEchoes o)
                                                        (VBool false)) |}
      else Failed "You need to specify an accessToken, verifyToken, appSecret and skin"
  | None => Failed "You need to specify an accessToken, verifyToken, appSecret and skin"
  end.

(** ** The verification handshake, [GET /webhook] *)

(** What the handler asks [res] to send. *)
Inductive reply : Type :=
  | StatusSend (status : Z) (body : value)   (* [res.status(s).send(body)] *)
  | SendStatus (status : Z).                 (* [res.sendStatus(s)] *)

(** The handler over [req.query]; its result is what was sent.  The second
    comparison is made only when the first holds. *)
Definition get_webhook (this : messenger) (query : value) : M reply :=
  mode <- getM query "hub.mode" ;;
  valid <- (if is_string mode "subscribe"
            then token <- getM query "hub.verify_token" ;;
                 ret (is_string token (verifyToken this))
            else ret false) ;;
  if valid then
    console_log "Validation Succeded." ;;
    challenge <- getM query "hub.challenge" ;;
    ret (StatusSend 200 challenge)
  else
    console_error "Failed validation. Make sure the validation tokens match." ;;
    ret (SendStatus 403).

(** ** [_verifyRequestSignature] *)

(** [s.split(sep)] for a one-character separator. *)
Fixpoint js_split (sep : ascii) (s : string) : list string :=
  match s with
  | EmptyString => [EmptyString]
  | String c rest =>
      if Ascii.eqb c sep then EmptyString :: js_split sep rest
      else
        match js_split sep rest with
        | piece :: pieces => String c piece :: pieces
        | [] => [String c EmptyString]
        end
  end.

Section Signature.

(** [crypto.createHmac('sha1', key).update(buf).digest('hex')] *)
Variable hmac_sha1_hex : string -> string -> string.

(** [signature] is the header [x-hub-signature], when the request has it. *)
Definition _verifyRequestSignature (this : messenger) (signature : option string)
    (buf : string) : checked unit :=
  match signature with
  | None => Failed "Couldn't validate the request signature."
  | Some signature =>
      if negb (nonempty signature) then Failed "Couldn't validate the request signature."
      else
        let elements := js_split "=" signature in
        let signatureHash := nth_error elements 1 in
        let expectedHash := hmac_sha1_hex (appSecret this) buf in
        match signatureHash with
        | Some hash =>
            if String.eqb hash expectedHash then Passed tt
            else Failed "Couldn't validate the request signature."
        | None => Failed "Couldn't validate the request signature."
        end
  end.

End Signature.

End Messenger.

(* ===================================================================== *)
(** * src/users.js *)
(* ===================================================================== *)

Module Users.

(** What surrounds the helper: the file [botpress-messenger.profiles.json]
    under [bp.dataLocation] (absent, or its content), the clock [new Date()]
    reads, the rows [bp.db.saveUser] received and which rows it rejects, the
    lines given to [bp.logger.debug], and the world [messenger] sends into. *)
Record env : Type := {
  file : option string;
  clock : Z;
  db_rows : list value;
  db_rejects : value -> bool;
  logger : list string;
  outside : world
}.

(** A memoized profile: the fetched value once [profile.id = userId] has
    run.  A fetched object holds the [id] among its properties; a fetched
    array keeps it as a property beside its elements, which is no part of
    the array's JSON text. *)
Inductive profile : Type :=
  | Plain (json : value)
  | ArrayWithId (xs : list value) (id : value).

(** What [JSON.stringify] writes of a profile. *)
Definition to_json (p : profile) : value :=
  match p with
  | Plain json => json
  | ArrayWithId xs _ => VArr xs
  end.

(** [profile.k] *)
Definition profile_prop (p : profile) (k : string) : value :=
  match p with
  | Plain json => prop json k
  | ArrayWithId xs id => if String.eqb k "id" then id else prop (VArr xs) k
  end.

(** The helper's own variables: [userProfiles], by its own properties, and
    [cacheTs]. *)
Record state : Type := {
  userProfiles : gmap string profile;
  cacheTs : Z;
  environment : env
}.

Definition set_file (content : string) (e : env) : env :=
  {| file := Some content; clock := clock e; db_rows := db_rows e;
     db_rejects := db_rejects e; logger := logger e; outside := outside e |}.

Definition add_logger (line : string) (e : env) : env :=
  {| file := file e; clock := clock e; db_rows := db_rows e;
     db_rejects := db_rejects e; logger := logger e ++ [line]; outside := outside e |}.

Definition add_db_row (row : value) (e : env) : env :=
  {| file := file e; clock := clock e; db_rows := db_rows e ++ [row];
     db_rejects := db_rejects e; logger := logger e; outside := outside e |}.

Definition set_outside (w : world) (e : env) : env :=
  {| file := file e; clock := clock e; db_rows := db_rows e;
     db_rejects := db_rejects e; logger := logger e; outside := w |}.

Definition set_environment (f : env -> env) (s : state) : state :=
  {| userProfiles := userProfiles s; cacheTs := cacheTs s;
     environment := f (environment s) |}.

Definition set_userProfiles (f : gmap string profile -> gmap string profile) (s : state)
  : state :=
  {| userProfiles := f (userProfiles s); cacheTs := cacheTs s;
     environment := environment s |}.

Definition set_cacheTs (t : Z) (s : state) : state :=
  {| userProfiles := userProfiles s; cacheTs := t; environment := environment s |}.

(** A call into [messenger] runs over the world outside. *)
Definition in_world {A} (m : M A) : ST state A :=
  fun s =>
    match m (outside (environment s)) with
    | (r, w') => (r, set_environment (set_outside w') s)
    end.

Definition new_Date : ST state Z := gets (fun s => clock (environment s)).

(** The property names of [Object.prototype].  [userProfiles] is a plain
    object (the literal [{}], or what [JSON.parse] built), so it answers
    these names too: with functions, and under [__proto__] with
    [Object.prototype] itself. *)
Definition Object_prototype : list string :=
  ["constructor"; "__defineGetter__"; "__defineSetter__"; "hasOwnProperty";
   "__lookupGetter__"; "__lookupSetter__"; "isPrototypeOf"; "propertyIsEnumerable";
   "toString"; "valueOf"; "__proto__"; "toLocaleString"].

Definition inherited (k : string) : bool := existsb (String.eqb k) Object_prototype.

(** What [userProfiles[userId]] evaluates to: an own property, [undefined],
    or the member of [Object.prototype] of that name. *)
Inductive looked_up : Type :=
  | Own (p : profile)
  | Inherited (name : string).

(** [userProfiles[userId]]: own properties first, then the prototype. *)
Definition lookup_profile (userId : string) (profiles : gmap string profile) : looked_up :=
  match profiles !! userId with
  | Some p => Own p
  | None => if inherited userId then Inherited userId else Own (Plain VUndefined)
  end.

(** [if (userProfiles[userId])]: a function or an object is truthy. *)
Definition is_truthy (x : looked_up) : bool :=
  match x with
  | Own (Plain json) => truthy json
  | Own (ArrayWithId _ _) => true
  | Inherited _ => true
  end.

(** [profile.id = x] in strict mode: it throws on [undefined], [null] and on
    a primitive. *)
Definition set_id (v : value) (x : value) : result profile :=
  match v with
  | VObj fields => Ok (Plain (VObj (update_field "id" x fields)))
  | VArr xs => Ok (ArrayWithId xs x)
  | VUndefined | VNull => Throw (TypeError "Cannot set property 'id' of undefined")
  | VBool _ | VNumber _ | VStr _ => Throw (TypeError "Cannot create property 'id'")
  end.

(** [Promise.method(f)]: what [f] throws becomes a rejection. *)
Definition Promise_method {S A} (body : ST S (promise A)) : ST S (promise A) :=
  fun s =>
    match body s with
    | (Ok p, s') => (Ok p, s')
    | (Throw e, s') => (Ok (Rejected e), s')
    end.

(** [bp.db.saveUser(row)] *)
Definition saveUser (row : value) : ST state (promise unit) :=
  modify (set_environment (add_db_row row)) ;;
  rejects <- gets (fun s => db_rejects (environment s) row) ;;
  if rejects then ret (Rejected (FetchError "saveUser")) else ret (Fulfilled tt).

Definition user_row (p : profile) : value :=
  VObj [("id", profile_prop p "id");
        ("platform", VStr "facebook");
        ("gender", profile_prop p "gender");
        ("timezone", profile_prop p "timezone");
        ("locale", profile_prop p "locale");
        ("picture_url", profile_prop p "profile_pic");
        ("first_name", profile_prop p "first_name");
        ("last_name", profile_prop p "last_name")].

Section Cache.

(** [JSON.stringify] and [JSON.parse] at the type of the profile mapping;
    [parse] gives [None] where [JSON.parse] throws. *)
Variable stringify : gmap string value -> string.
Variable parse : string -> option (gmap string value).

Definition loadUserProfiles (e : env) : result (gmap string profile) :=
  match file e with
  | Some content =>
      match parse content with
      | Some profiles => Ok (Plain <$> profiles)
      | None => Throw (SyntaxError "Unexpected token in JSON")
      end
  | None => Ok ∅
  end.

Definition saveUserProfiles (profiles : gmap string profile) : ST state unit :=
  let content := stringify (to_json <$> profiles) in
  modify (set_environment (set_file content)) ;;
  modify (set_environment (add_logger "messenger: saved user profiles to disk")).

(** The body of the exported function up to its [return]: a fresh instance
    over the environment it is given. *)
Definition init (e : env) : result state :=
  match loadUserProfiles e with
  | Ok profiles =>
      Ok {| userProfiles := profiles; cacheTs := clock e; environment := e |}
  | Throw err => Throw err
  end.

Definition getOrFetchUserProfile (messenger : Messenger.messenger) (userId : string)
  : ST state (promise looked_up) :=
  Promise_method (
    cached <- gets (fun s => lookup_profile userId (userProfiles s)) ;;
    if is_truthy cached then ret (Fulfilled cached) else
    fetched <- in_world (Messenger.getUserProfile messenger userId) ;;
    then_ fetched (fun profile =>
      profile <- lift (set_id profile (VStr userId)) ;;
      modify (set_userProfiles (insert userId profile)) ;;
      now <- new_Date ;;
      ts <- gets cacheTs ;;
      when (10000 <=? now - ts)%Z (
        profiles <- gets userProfiles ;;
        saveUserProfiles profiles ;;
        now' <- new_Date ;;
        modify (set_cacheTs now')) ;;
      saved <- saveUser (user_row profile) ;;
      then_ saved (fun _ => ret (Fulfilled (Own profile))))).

End Cache.

End Users.

Import Messenger.

(* ===================================================================== *)
(** * Definitions used to state the properties *)
(* ===================================================================== *)

(** Every character of [s] satisfies [p]. *)
Fixpoint all_chars (p : ascii -> bool) (s : string) : bool :=
  match s with
  | EmptyString => true
  | String c rest => p c && all_chars p rest
  end.

(** An upper-case letter or a digit: the characters [normalizeString] can
    produce. *)
Definition is_upper_alnum (c : ascii) : bool := is_upper c || is_digit c.

(** The button the specification's example expects. *)
Definition prefix_button_yes : value :=
  VArr [VObj [("type", VStr "postback"); ("title", VStr "Yes");
              ("payload", VStr "PREFIX_BUTTON_YES")]].

(** The button the code builds. *)
Definition bootbot_button_yes : value :=
  VArr [VObj [("type", VStr "postback"); ("title", VStr "Yes");
              ("payload", VStr "BOOTBOT_BUTTON_YES")]].

(** ** Induction on values, through the lists nested in them *)

Section ValueInduction.

Variable P : value -> Prop.
Hypothesis P_undefined : P VUndefined.
Hypothesis P_null : P VNull.
Hypothesis P_bool : forall b, P (VBool b).
Hypothesis P_number : forall x, P (VNumber x).
Hypothesis P_str : forall s, P (VStr s).
Hypothesis P_arr : forall xs, Forall P xs -> P (VArr xs).
Hypothesis P_obj : forall fields, Forall (fun kv => P (snd kv)) fields -> P (VObj fields).

Fixpoint value_nested_ind (v : value) : P v :=
  match v with
  | VUndefined => P_undefined
  | VNull => P_null
  | VBool b => P_bool b
  | VNumber x => P_number x
  | VStr s => P_str s
  | VArr xs =>
      P_arr xs
        ((fix all (l : list value) : Forall P l :=
            match l with
            | [] => @List.Forall_nil _ P
            | x :: rest => @List.Forall_cons _ P x rest (value_nested_ind x) (all rest)
            end) xs)
  | VObj fields =>
      P_obj fields
        ((fix all (l : list (string * value)) : Forall (fun kv => P (snd kv)) l :=
            match l with
            | [] => @List.Forall_nil _ _
            | kv :: rest =>
                @List.Forall_cons _ (fun kv => P (snd kv)) kv rest
                  (value_nested_ind (snd kv)) (all rest)
            end) fields)
  end.

End ValueInduction.

(** ** Labels, buttons and quick replies *)

(** No label of the list is the empty string. *)
Definition no_empty_label (xs : list value) : bool :=
  forallb (fun x => negb (is_string x "")) xs.

(** A formatted quick reply: the empty object, or exactly a content type, a
    title and a payload, the first and the last of them truthy. *)
Definition is_formatted_reply (y : value) : bool :=
  match y with
  | VObj [] => true
  | VObj [(k1, content_type); (k2, _); (k3, payload)] =>
      String.eqb k1 "content_type" && String.eqb k2 "title" && String.eqb k3 "payload"
      && truthy content_type && truthy payload
  | _ => false
  end.

Definition is_a_string (v : value) : bool :=
  match v with
  | VStr _ => true
  | _ => false
  end.

(** A titled reply whose title is no string and which brings no payload. *)
Definition untitled_payload (reply : value) : bool :=
  negb (is_a_string reply)
  && truthy reply && truthy (prop reply "title")
  && negb (truthy (prop reply "payload"))
  && negb (is_a_string (prop reply "title")).

(** ** Outbound requests *)

Definition messages_url (this : messenger) : string :=
  "https://graph.facebook.com/v2.7/me/messages?access_token=" +:+ accessToken this.

Definition action_request (this : messenger) (recipientId : value) (action : string) : request :=
  {| rq_url := messages_url this; rq_method := "POST";
     rq_body := VObj [("recipient", VObj [("id", recipientId)]);
                      ("sender_action", VStr action)] |}.

Definition message_request (this : messenger) (recipientId message : value) : request :=
  {| rq_url := messages_url this; rq_method := "POST";
     rq_body := VObj [("recipient", VObj [("id", recipientId)]); ("message", message)] |}.

(** What the promise of a request resolves with: the JSON of the response,
    or [undefined] once the [catch] handler has logged a failure. *)
Definition reply_of (o : fetch_outcome) : value :=
  match o with
  | Response (Some json) => json
  | _ => VUndefined
  end.

(** The error the [catch] handler receives, if there is one. *)
Definition failure_of (o : fetch_outcome) : option exn :=
  match o with
  | NetworkFailure msg => Some (FetchError msg)
  | Response None => Some (SyntaxError "Unexpected token in JSON")
  | Response (Some _) => None
  end.

Definition log_failure (intro : string) (o : fetch_outcome) (w : world) : world :=
  match failure_of o with
  | Some err => add_console (intro +:+ exn_to_string err) w
  | None => w
  end.

(** The world once request [r] has left and its promise has settled. *)
Definition after_request (intro : string) (r : request) (w : world) : world :=
  log_failure intro (network w (count_http (effects w))) (add_effect (Http r) w).

(** What the guard of [sendTypingIndicator] logs. *)
Definition guard_lines (n : Z) : list string :=
  if (20000 <? n)%Z
  then ["sendTypingIndicator: max milliseconds value is 20000 (20 seconds)"]
  else [].

(** The console lines a failed request leaves. *)
Definition failure_lines (intro : string) (o : fetch_outcome) : list string :=
  match failure_of o with
  | Some err => [intro +:+ exn_to_string err]
  | None => []
  end.

(** ** The profile cache *)

Definition profile_request (this : messenger) (userId : string) : request :=
  {| rq_url := "https://graph.facebook.com/v2.7/" +:+ userId
               +:+ "?fields=first_name,last_name,profile_pic,locale,timezone,gender&access_token="
               +:+ accessToken this;
     rq_method := "GET"; rq_body := VUndefined |}.

(** The fetched profile once [profile.id = userId] has run. *)
Definition stamped (userId : string) (fields : list (string * value)) : value :=
  VObj (update_field "id" (VStr userId) fields).

(** The remote end answers the next request with this JSON. *)
Definition next_reply (s : Users.state) (json : value) : Prop :=
  network (Users.outside (Users.environment s))
          (count_http (effects (Users.outside (Users.environment s))))
  = Response (Some json).

(** [userProfiles[userId]] is falsy. *)
Definition misses (userId : string) (s : Users.state) : Prop :=
  Users.is_truthy (Users.lookup_profile userId (Users.userProfiles s)) = false.

Definition http_calls (s : Users.state) : list effect :=
  effects (Users.outside (Users.environment s)).

(** The state a miss leaves once the remote end has answered with the
    object [fields]. *)
Definition after_miss (stringify : gmap string value -> string) (this : messenger)
    (userId : string) (fields : list (string * value)) (s : Users.state) : Users.state :=
  let profile := Users.Plain (stamped userId fields) in
  let profiles := <[userId := profile]> (Users.userProfiles s) in
  let e := Users.environment s in
  let flush := (10000 <=? Users.clock e - Users.cacheTs s)%Z in
  let answered :=
    Users.set_outside
      (after_request "Error getting user profile: " (profile_request this userId)
                     (Users.outside e)) e in
  let flushed :=
    if flush
    then Users.add_logger "messenger: saved user profiles to disk"
           (Users.set_file (stringify (Users.to_json <$> profiles)) answered)
    else answered in
  {| Users.userProfiles := profiles;
     Users.cacheTs := if flush then Users.clock e else Users.cacheTs s;
     Users.environment := Users.add_db_row (Users.user_row profile) flushed |}.

(** ** Concrete states of the cache *)

Definition ann : list (string * value) :=
  [("first_name", VStr "Ann"); ("last_name", VStr "Lee"); ("timezone", VNumber (Num 2))].

Definition answering (json : value) : world :=
  {| listeners := []; emitted := []; invoked := []; console := []; effects := [];
     responses := []; network := fun _ => Response (Some json) |}.

(** An empty cache, created at time 0 and used at time 20000, with no file
    on disk and a store that accepts every row. *)
Definition empty_cache (w : world) : Users.state :=
  {| Users.userProfiles := ∅;
     Users.cacheTs := 0;
     Users.environment :=
       {| Users.file := None; Users.clock := 20000; Users.db_rows := [];
          Users.db_rejects := fun _ => false; Users.logger := [];
          Users.outside := w |} |}.

(** ** The classification rules, as section 4.2 lists them *)

Inductive rule : Type :=
  | EchoDiscard
  | Optin
  | MessageText
  | MessageAttachments
  | Postback
  | Delivery
  | Read
  | AccountLinking
  | Unknown.

(** A field is present when the handler's test on it succeeds. *)
Definition present (event : value) (k : string) : bool := truthy (prop event k).

Definition present2 (event : value) (k1 k2 : string) : bool :=
  present event k1 && present (prop event k1) k2.

(** The first rule, in the fixed order, that the event's shape meets. *)
Definition classify (this : messenger) (event : value) : rule :=
  if present2 event "message" "is_echo" && negb (broadcastEchoes this) then EchoDiscard
  else if present event "optin" then Optin
  else if present2 event "message" "text" then MessageText
  else if present2 event "message" "attachments" then MessageAttachments
  else if present event "postback" then Postback
  else if present event "delivery" then Delivery
  else if present event "read" then Read
  else if present event "account_linking" then AccountLinking
  else Unknown.

(** Rules 1 to 8: every rule but the fall-through. *)
Definition names_a_rule (r : rule) : bool :=
  match r with
  | Unknown => false
  | _ => true
  end.

(** Rules 2 to 8: the rules that emit. *)
Definition emitting (r : rule) : bool :=
  match r with
  | EchoDiscard | Unknown => false
  | _ => true
  end.

(** The base event a rule emits. *)
Definition base_event_of (r : rule) : option string :=
  match r with
  | Optin => Some "authentication"
  | MessageText => Some "message"
  | MessageAttachments => Some "attachment"
  | Postback => Some "postback"
  | Delivery => Some "delivery"
  | Read => Some "read"
  | AccountLinking => Some "account_linking"
  | EchoDiscard | Unknown => None
  end.

Definition base_events : list string :=
  ["authentication"; "message"; "attachment"; "postback"; "delivery"; "read";
   "account_linking"].

Definition is_base_event (type : string) : bool :=
  existsb (String.eqb type) base_events.

Definition count_base (es : list emission) : nat :=
  length (List.filter (fun e => is_base_event (em_type e)) es).

(** The messaging events of a batch, in array order. *)
Definition array_items (v : value) : list value :=
  match v with
  | VArr xs => xs
  | _ => []
  end.

Definition batch_events (data : value) : list value :=
  List.concat (List.map (fun entry => array_items (prop entry "messaging"))
                        (array_items (prop data "entry"))).

Definition is_array (v : value) : bool :=
  match v with
  | VArr _ => true
  | _ => false
  end.

(** A batch of the documented shape: [entry] is an array of objects whose
    [messaging] is an array of events, and every event carries a sender. *)
Definition well_formed_event (event : value) : bool :=
  negb (nullish event) && negb (nullish (prop event "sender")).

Definition well_formed_entry (entry : value) : bool :=
  negb (nullish entry) && is_array (prop entry "messaging")
  && forallb well_formed_event (array_items (prop entry "messaging")).

Definition well_formed_batch (data : value) : bool :=
  is_string (prop data "object") "page"
  && is_array (prop data "entry")
  && forallb well_formed_entry (array_items (prop data "entry")).

(** No registered listener throws, whatever it is called with. *)
Definition never_throws (r : registration) : Prop :=
  forall event data, l_throws (reg_listener r) event data = false.

Definition quiet (w : world) : Prop := Forall never_throws (listeners w).

(** ** The dispatch table of section 4.2 *)

(** The derived sub-event [kind:<payload>], emitted only for a payload. *)
Definition derived (kind : string) (payload : value) : list string :=
  if truthy payload then [kind +:+ ":" +:+ to_string payload] else [].

(** [message.quick_reply && message.quick_reply.payload] *)
Definition quick_reply_payload (event : value) : value :=
  if present (prop event "message") "quick_reply"
  then prop (prop (prop event "message") "quick_reply") "payload"
  else prop (prop event "message") "quick_reply".

(** The names emitted for one event, in order. *)
Definition dispatched (this : messenger) (event : value) : list string :=
  match classify this event with
  | EchoDiscard => []
  | Optin => ["authentication"]
  | MessageText =>
      "message" ::
      (if present (prop event "message") "quick_reply"
       then derived "quick_reply" (quick_reply_payload event) ++ ["quick_reply"]
       else [])
  | MessageAttachments => ["attachment"]
  | Postback => derived "postback" (prop (prop event "postback") "payload") ++ ["postback"]
  | Delivery => ["delivery"]
  | Read => ["read"]
  | AccountLinking => ["account_linking"]
  | Unknown => []
  end.

(** What one run leaves behind when nothing throws: the emitter is still
    quiet, the emit log grew by [types], no status was sent. *)
Definition runs (m : M unit) (w : world) (types : list string) (w' : world) : Prop :=
  m w = (Ok tt, w')
  /\ quiet w'
  /\ (exists new, emitted w' = emitted w ++ new /\ List.map em_type new = types)
  /\ responses w' = responses w.

(** ** Listeners that throw *)

(** The handlers [emit] reaches: all of them up to and including the first
    one that throws. *)
Fixpoint until_throw (hs : list registration) (event data : value) : list registration :=
  match hs with
  | [] => []
  | h :: rest =>
      if l_throws (reg_listener h) event data then [h]
      else h :: until_throw rest event data
  end.

(** How [emit] ends: with the exception of the first handler that throws,
    if there is one. *)
Fixpoint emit_result (hs : list registration) (event data : value) : result unit :=
  match hs with
  | [] => Ok tt
  | h :: rest =>
      if l_throws (reg_listener h) event data
      then Throw (ListenerError (l_id (reg_listener h)))
      else emit_result rest event data
  end.

Definition listener_ids (hs : list registration) : list nat :=
  List.map (fun h => l_id (reg_listener h)) hs.

(** ** Concrete inputs *)

Definition offline : nat -> fetch_outcome := fun _ => NetworkFailure "offline".

Definition empty_world : world :=
  {| listeners := []; emitted := []; invoked := []; console := []; effects := [];
     responses := []; network := offline |}.

Definition bot : messenger :=
  {| accessToken := "token"; verifyToken := "verify"; appSecret := "secret";
     broadcastEchoes := false |}.

Definition sender_1001 : value := VObj [("id", VStr "1001")].

Definition text_event (text : string) : value :=
  VObj [("sender", sender_1001); ("message", VObj [("text", VStr text)])].

Definition echo_event : value :=
  VObj [("sender", sender_1001);
        ("message", VObj [("is_echo", VBool true); ("text", VStr "hi")])].

Definition batch (object : string) (events : list value) : value :=
  VObj [("object", VStr object); ("entry", VArr [VObj [("messaging", VArr events)]])].

Definition failing_listener : listener := {| l_id := 1; l_throws := fun _ _ => true |}.
Definition plain_listener : listener := {| l_id := 2; l_throws := fun _ _ => false |}.

(** [on('message', failing_listener)] then [on('message', plain_listener)]. *)
Definition two_listeners : world :=
  {| listeners := [ {| reg_event := "message"; reg_once := false;
                       reg_listener := failing_listener |};
                    {| reg_event := "message"; reg_once := false;
                       reg_listener := plain_listener |} ];
     emitted := []; invoked := []; console := []; effects := [];
     responses := []; network := offline |}.

(** ** Send options and one-shot listeners *)

Definition once_registration (type : string) (f : listener) : registration :=
  {| reg_event := type; reg_once := true; reg_listener := f |}.

Definition on_registration (type : string) (f : listener) : registration :=
  {| reg_event := type; reg_once := false; reg_listener := f |}.

(** The registrations a send makes for the callbacks of its options. *)
Definition callbacks (o : send_options) : list registration :=
  match onDelivery o with Some f => [once_registration "delivery" f] | None => [] end
  ++ match onRead o with Some f => [once_registration "read" f] | None => [] end.

Definition is_a_number (v : value) : bool :=
  match v with
  | VNumber _ => true
  | _ => false
  end.

(** The three outbound calls of a typing indicator of [n] milliseconds. *)
Definition typing_calls (this : messenger) (recipientId : value) (n : Z) : list effect :=
  [Http (action_request this recipientId "typing_on");
   SetTimeout (Num n);
   Http (action_request this recipientId "typing_off")].

(** ** Thread settings *)

Definition thread_settings_url (this : messenger) : string :=
  "https://graph.facebook.com/v2.7/me/thread_settings?access_token=" +:+ accessToken this.

Definition thread_request (this : messenger) (method : string) (body : value) : request :=
  {| rq_url := thread_settings_url this; rq_method := method; rq_body := body |}.

Definition get_started_payload (action : get_started_action) : string :=
  match action with
  | ActionPayload s => s
  | _ => "BOOTBOT_GET_STARTED"
  end.

Definition get_started_body (payload : string) : value :=
  VObj [("setting_type", VStr "call_to_actions");
        ("thread_state", VStr "new_thread");
        ("call_to_actions", VArr [VObj [("payload", VStr payload)]])].

(** A character other than the separator of the signature header. *)
Definition not_equals_sign (c : ascii) : bool := negb (Ascii.eqb c "=").

(** A stand-in digest for examples: the key, a colon, the text. *)
Definition toy_digest (key buf : string) : string := key +:+ ":" +:+ buf.


(** ** The webhook's answer *)

(** A computation that sends no status. *)
Definition keeps_responses {A} (m : M A) : Prop :=
  forall w, responses (snd (m w)) = responses w.

(** The rules whose handler reads [event.sender.id]. *)
Definition needs_sender (r : rule) : bool :=
  match r with
  | MessageText | MessageAttachments | Postback => true
  | _ => false
  end.

(** ** Replies that are no profile *)

(** [undefined], [null], a boolean, a number or a string. *)
Definition is_primitive (v : value) : bool :=
  match v with
  | VObj _ | VArr _ => false
  | _ => true
  end.


(** ** Mappings that JSON text can hold *)

(** A profile that is a JSON value: what a fetched object becomes, and what
    a file gives. *)
Definition json_profile (p : Users.profile) : Prop :=
  match p with
  | Users.Plain json => Json.is_json json = true
  | Users.ArrayWithId _ _ => False
  end.

Definition json_profiles (m : gmap string Users.profile) : Prop :=
  map_Forall (fun _ p => json_profile p) m.


(* ===================================================================== *)
(** * Properties of [normalizeString] and [_formatButtons] *)
(* ===================================================================== *)

Section Normalize.

Lemma upper_char_alnum c :
  is_alnum c = true -> is_upper_alnum (upper_char c) = true.
Proof.
  destruct c as [[] [] [] [] [] [] [] []]; vm_compute; intros H;
    first [reflexivity | discriminate H].
Qed.

Lemma upper_alnum_is_alnum c :
  is_upper_alnum c = true -> is_alnum c = true.
Proof.
  unfold is_upper_alnum, is_alnum.
  destruct (is_lower c), (is_upper c), (is_digit c); simpl; auto.
Qed.

Lemma upper_char_fixed c :
  is_upper_alnum c = true -> upper_char c = c.
Proof.
  destruct c as [[] [] [] [] [] [] [] []]; vm_compute; intros H;
    first [reflexivity | discriminate H].
Qed.

(** Deleting the runs leaves only characters of the class. *)
Lemma replace_runs_alnum in_run str :
  all_chars is_alnum (replace_runs "" in_run str) = true.
Proof.
  revert in_run. induction str as [|c rest IH]; intros in_run; simpl.
  - reflexivity.
  - destruct (is_alnum c) eqn:Hc; simpl.
    + rewrite Hc. simpl. apply IH.
    + destruct in_run; simpl; apply IH.
Qed.

Lemma toUpperCase_upper_alnum s :
  all_chars is_alnum s = true ->
  all_chars is_upper_alnum (toUpperCase s) = true.
Proof.
  induction s as [|c rest IH]; simpl; intros H.
  - reflexivity.
  - apply andb_true_iff in H as [Hc Hrest].
    rewrite (upper_char_alnum c Hc). simpl. auto.
Qed.

Lemma normalizeString_upper_alnum str :
  all_chars is_upper_alnum (normalizeString str) = true.
Proof.
  unfold normalizeString. apply toUpperCase_upper_alnum, replace_runs_alnum.
Qed.

(** A string of upper-case letters and digits has no run to delete ... *)
Lemma replace_runs_fixed s :
  all_chars is_upper_alnum s = true -> replace_runs "" false s = s.
Proof.
  induction s as [|c rest IH]; simpl; intros H.
  - reflexivity.
  - apply andb_true_iff in H as [Hc Hrest].
    rewrite (upper_alnum_is_alnum c Hc). f_equal. auto.
Qed.

(** ... and no letter to raise. *)
Lemma toUpperCase_fixed s :
  all_chars is_upper_alnum s = true -> toUpperCase s = s.
Proof.
  induction s as [|c rest IH]; simpl; intros H.
  - reflexivity.
  - apply andb_true_iff in H as [Hc Hrest].
    rewrite (upper_char_fixed c Hc). f_equal. auto.
Qed.

(** C10. Label normalisation is idempotent: for every string [s],
    [normalizeString (normalizeString s) = normalizeString s], because its
    output holds only upper-case letters and digits, which it maps to
    themselves. *)
Theorem normalizeString_idempotent (s : string) :
  normalizeString (normalizeString s) = normalizeString s.
Proof.
  pose proof (normalizeString_upper_alnum s) as H.
  unfold normalizeString at 1.
  rewrite (replace_runs_fixed _ H). apply toUpperCase_fixed, H.
Qed.

(** C9, as the specification words its example: the payload would carry the
    prefix [PREFIX_BUTTON_].  The code does not produce it. *)
Lemma formatButtons_yes_is_not_prefix_button :
  _formatButtons (VArr [VStr "Yes"]) <> Ok prefix_button_yes.
Proof. vm_compute. intros H. discriminate H. Qed.

(** C9, amended. [_formatButtons] applied to the one-element list ["Yes"]
    returns the postback button titled "Yes" whose payload is
    "BOOTBOT_BUTTON_YES", a string button always becomes a postback button
    whose payload is "BOOTBOT_BUTTON_" followed by the normalised title, and
    [normalizeString "Yes, please!"] is "YESPLEASE". *)
Theorem formatButtons_yes_and_normalize_example :
  _formatButtons (VArr [VStr "Yes"]) = Ok bootbot_button_yes
  /\ (forall title : string,
        _formatButtons (VArr [VStr title])
        = Ok (VArr [VObj [("type", VStr "postback"); ("title", VStr title);
                          ("payload", VStr ("BOOTBOT_BUTTON_" +:+ normalizeString title))]]))
  /\ normalizeString "Yes, please!" = "YESPLEASE".
Proof. repeat split. Qed.

End Normalize.

Section Outbound.

Lemma sendRequest_messages this body w :
  sendRequest this body None None w
  = (Ok (Fulfilled (reply_of (network w (count_http (effects w))))),
     log_failure "Error sending message: " (network w (count_http (effects w)))
       (add_effect (Http {| rq_url := messages_url this; rq_method := "POST";
                            rq_body := body |}) w)).
Proof.
  unfold sendRequest, fetch, bind, gets, modify, log_failure, messages_url. simpl.
  destruct (network w (count_http (effects w))) as [msg|[json|]]; reflexivity.
Qed.

Lemma effects_log_failure intro o w : effects (log_failure intro o w) = effects w.
Proof. unfold log_failure. destruct (failure_of o); reflexivity. Qed.

Lemma effects_after_request intro r w :
  effects (after_request intro r w) = effects w ++ [Http r].
Proof. unfold after_request. rewrite effects_log_failure. reflexivity. Qed.

Lemma sendAction_run this recipientId action w :
  sendAction this recipientId action w
  = (Ok (Fulfilled (reply_of (network w (count_http (effects w))))),
     after_request "Error sending message: " (action_request this recipientId action) w).
Proof. unfold sendAction. rewrite sendRequest_messages. reflexivity. Qed.

Lemma console_log_failure intro o w :
  console (log_failure intro o w) = console w ++ failure_lines intro o.
Proof.
  unfold log_failure, failure_lines. destruct (failure_of o); simpl;
    [reflexivity | rewrite app_nil_r; reflexivity].
Qed.

Lemma console_after_request intro r w :
  exists more, console (after_request intro r w) = console w ++ more.
Proof. unfold after_request. rewrite console_log_failure. eexists. reflexivity. Qed.

Lemma sendTypingIndicator_effects this recipientId n w :
  exists json w',
    sendTypingIndicator this recipientId (Num n) w = (Ok (Fulfilled json), w')
    /\ effects w' = effects w ++ [Http (action_request this recipientId "typing_on");
                                   SetTimeout (Num n);
                                   Http (action_request this recipientId "typing_off")]
    /\ exists more, console w' = console w ++ guard_lines n ++ more.
Proof.
  unfold sendTypingIndicator, new_Promise, setTimeout, on_fulfilled, resolve, when.
  unfold bind at 1. simpl isNaN. cbv iota. unfold guard_lines.
  change (gt_20000 (Num n)) with (20000 <? n)%Z.
  set (w0 := if (20000 <? n)%Z
             then add_console
                    "sendTypingIndicator: max milliseconds value is 20000 (20 seconds)" w
             else w).
  assert (Hguard : (if (20000 <? n)%Z
                    then console_error
                           "sendTypingIndicator: max milliseconds value is 20000 (20 seconds)"
                    else ret tt) w = (Ok tt, w0))
    by (subst w0; destruct (20000 <? n)%Z; reflexivity).
  assert (Heff0 : effects w0 = effects w) by (subst w0; destruct (20000 <? n)%Z; reflexivity).
  assert (Hcon0 : console w0
                  = console w
                    ++ (if (20000 <? n)%Z
                        then ["sendTypingIndicator: max milliseconds value is 20000 (20 seconds)"]
                        else []))
    by (subst w0; destruct (20000 <? n)%Z; simpl; rewrite ?app_nil_r; reflexivity).
  rewrite Hguard. unfold bind. rewrite sendAction_run.
  unfold modify. rewrite sendAction_run. unfold ret.
  eexists _, _. split; [reflexivity|]. split.
  - rewrite effects_after_request. simpl effects.
    rewrite effects_after_request, Heff0, <- !app_assoc. reflexivity.
  - destruct (console_after_request "Error sending message: "
                (action_request this recipientId "typing_off")
                (add_effect (SetTimeout (Num n))
                   (after_request "Error sending message: "
                      (action_request this recipientId "typing_on") w0)))
      as (more2 & H2).
    destruct (console_after_request "Error sending message: "
                (action_request this recipientId "typing_on") w0) as (more1 & H1).
    exists (more1 ++ more2). rewrite H2. simpl console. rewrite H1, Hcon0.
    rewrite <- !app_assoc. reflexivity.
Qed.

Lemma effects_set_listeners f w : effects (set_listeners f w) = effects w.
Proof. reflexivity. Qed.

(** A send preceded by a typing indicator of [n] milliseconds, [n] being a
    number other than zero: the four outbound calls, in order, and what the
    guard logged. *)
Lemma sendMessage_typing_effects this recipientId message n d r w :
  n <> 0%Z ->
  exists json w',
    sendMessage this recipientId message
      (Some {| typing := VNumber (Num n); onDelivery := d; onRead := r |}) w
    = (Ok (Fulfilled json), w')
    /\ effects w' = effects w ++ [Http (action_request this recipientId "typing_on");
                                   SetTimeout (Num n);
                                   Http (action_request this recipientId "typing_off");
                                   Http (message_request this recipientId message)]
    /\ exists more, console w' = console w ++ guard_lines n ++ more.
Proof.
  intros Hn. unfold sendMessage. cbn [typing onDelivery onRead truthy].
  destruct (Z.eqb_spec n 0) as [|_]; [contradiction|]. cbn [negb].
  destruct (sendTypingIndicator_effects this recipientId n w)
    as (j & w1 & Hrun & Heff & more1 & Hcon).
  unfold bind at 1. rewrite Hrun. unfold then_ at 1.
  unfold bind at 1. rewrite sendRequest_messages. unfold then_.
  set (w2 := log_failure _ _ _).
  assert (Hw2 : effects w2 = effects w1 ++ [Http (message_request this recipientId message)]).
  { subst w2. rewrite effects_log_failure. reflexivity. }
  assert (Hc2 : exists more, console w2 = console w ++ guard_lines n ++ more).
  { subst w2. rewrite console_log_failure. simpl console. rewrite Hcon.
    eexists. rewrite <- !app_assoc. reflexivity. }
  destruct d as [fd|], r as [fr|]; unfold once, bind, modify, ret;
    eexists _, _; (split; [reflexivity|]); (split; [|exact Hc2]);
    rewrite ?effects_set_listeners, Hw2, Heff, <- !app_assoc; reflexivity.
Qed.

(** C4. For every call of [sendRequest] and of [getUserProfile], whatever
    the remote end does, the returned promise is fulfilled and never
    rejected: when the transport fails or the response does not parse, the
    error is logged and the promise resolves (with [undefined]); when a
    response parses, the promise resolves with that JSON, whatever its shape,
    and nothing is logged. *)
Theorem sendRequest_and_getUserProfile_always_resolve
    this body endpoint method userId w :
  (exists w',
     sendRequest this body endpoint method w
     = (Ok (Fulfilled (reply_of (network w (count_http (effects w))))), w')
     /\ console w'
        = console w
          ++ failure_lines "Error sending message: " (network w (count_http (effects w))))
  /\ (exists w',
        getUserProfile this userId w
        = (Ok (Fulfilled (reply_of (network w (count_http (effects w))))), w')
        /\ console w'
           = console w
             ++ failure_lines "Error getting user profile: "
                  (network w (count_http (effects w)))).
Proof.
  split.
  - unfold sendRequest, fetch, bind, gets, modify. simpl.
    destruct (network w (count_http (effects w))) as [msg|[json|]];
      eexists; (split; [reflexivity|]); simpl; rewrite ?app_nil_r; reflexivity.
  - unfold getUserProfile, fetch, bind, gets, modify. simpl.
    destruct (network w (count_http (effects w))) as [msg|[json|]];
      eexists; (split; [reflexivity|]); simpl; rewrite ?app_nil_r; reflexivity.
Qed.


(** C2, at [options.typing = 30000]: the guard of [sendTypingIndicator] logs
    its complaint, but the timer between typing_on and typing_off is armed
    with 30000 milliseconds, not with 20000. *)
Theorem sendMessage_typing_30000_waits_30000 this recipientId message d r w :
  exists json w',
    sendMessage this recipientId message
      (Some {| typing := VNumber (Num 30000); onDelivery := d; onRead := r |}) w
    = (Ok (Fulfilled json), w')
    /\ effects w' = effects w ++ [Http (action_request this recipientId "typing_on");
                                  SetTimeout (Num 30000);
                                  Http (action_request this recipientId "typing_off");
                                  Http (message_request this recipientId message)]
    /\ exists more,
         console w'
         = console w
           ++ ["sendTypingIndicator: max milliseconds value is 20000 (20 seconds)"]
           ++ more.
Proof. apply sendMessage_typing_effects. discriminate. Qed.

End Outbound.

Ltac split_runs := unfold runs; split; [|split; [|split]].

Section Emitter.

Lemma remove_first_Forall (P : registration -> Prop) r rs :
  Forall P rs -> Forall P (remove_first r rs).
Proof.
  induction 1 as [|r' rest Hr' Hrest IH]; simpl.
  - constructor.
  - destruct (same_registration r r'); [assumption|]. constructor; assumption.
Qed.

Lemma handlers_for_Forall (P : registration -> Prop) type rs :
  Forall P rs -> Forall P (handlers_for type rs).
Proof.
  unfold handlers_for. induction 1 as [|r rest Hr Hrest IH]; simpl.
  - constructor.
  - destruct (String.eqb (reg_event r) type); [constructor|]; assumption.
Qed.

Lemma runs_ret w : quiet w -> runs (ret tt) w [] w.
Proof.
  intros Hq. split_runs.
  - reflexivity.
  - assumption.
  - exists []. rewrite app_nil_r. auto.
  - reflexivity.
Qed.

Lemma runs_bind (m k : M unit) w w1 w2 t1 t2 :
  runs m w t1 w1 -> runs k w1 t2 w2 -> runs (m ;; k) w (t1 ++ t2) w2.
Proof.
  intros (Hm & _ & (n1 & He1 & Ht1) & Hr1) (Hk & Hq & (n2 & He2 & Ht2) & Hr2).
  split_runs.
  - unfold bind. rewrite Hm. exact Hk.
  - exact Hq.
  - exists (n1 ++ n2). rewrite He2, He1, <- app_assoc, List.map_app, Ht1, Ht2. auto.
  - congruence.
Qed.

Lemma call_handlers_quiet hs event data w :
  Forall never_throws hs -> quiet w ->
  exists w', runs (call_handlers hs event data) w [] w'.
Proof.
  intros Hhs. revert w. induction Hhs as [|h rest Hh Hrest IH]; intros w Hq.
  - exists w. apply runs_ret, Hq.
  - simpl call_handlers.
    assert (Hstep : exists w1, runs (call_handler h event data) w [] w1).
    { unfold call_handler, when, bind, modify, ret. rewrite (Hh event data).
      destruct (reg_once h); eexists; split_runs;
        try reflexivity;
        try (exists []; rewrite app_nil_r; split; reflexivity).
      - simpl. apply remove_first_Forall, Hq.
      - exact Hq. }
    destruct Hstep as (w1 & H1).
    destruct (IH w1) as (w2 & H2); [apply H1|].
    exists w2. change (@nil string) with (@nil string ++ []). eapply runs_bind; eassumption.
Qed.

(** In a quiet world [_handleEvent] returns, having logged one emission. *)
Lemma _handleEvent_quiet type event data w :
  quiet w -> exists w', runs (_handleEvent type event data) w [type] w'.
Proof.
  intros Hq. unfold _handleEvent, emit.
  set (w0 := add_emitted {| em_type := type; em_event := event; em_data := data |} w).
  destruct (call_handlers_quiet (handlers_for type (listeners w0)) event data w0)
    as (w1 & Hrun & Hq1 & (new & Hnew & Htypes) & Hresp).
  { apply handlers_for_Forall, Hq. }
  { exact Hq. }
  exists w1. split_runs.
  - unfold bind, modify, gets, ret. fold w0. rewrite Hrun. reflexivity.
  - exact Hq1.
  - destruct new; [|discriminate Htypes].
    exists [{| em_type := type; em_event := event; em_data := data |}].
    rewrite Hnew, app_nil_r. split; reflexivity.
  - rewrite Hresp. reflexivity.
Qed.

(** The handlers run one after the other; the first throw ends the loop. *)
Lemma call_handlers_until_throw hs event data w :
  exists w',
    call_handlers hs event data w = (emit_result hs event data, w')
    /\ invoked w' = invoked w ++ listener_ids (until_throw hs event data).
Proof.
  revert w. induction hs as [|h rest IH]; intros w.
  - exists w. simpl. rewrite app_nil_r. auto.
  - simpl. unfold bind at 1. unfold call_handler, when.
    set (w0 := if reg_once h then set_listeners (remove_first h) w else w).
    assert (Hw0 : invoked w0 = invoked w) by (subst w0; destruct (reg_once h); reflexivity).
    assert (Hstep : (if reg_once h then modify (set_listeners (remove_first h)) else ret tt) w
                    = (Ok tt, w0)) by (subst w0; destruct (reg_once h); reflexivity).
    unfold bind at 1. rewrite Hstep. unfold bind at 1, modify at 1.
    destruct (l_throws (reg_listener h) event data).
    + eexists. split; [reflexivity|]. simpl. rewrite Hw0. reflexivity.
    + unfold ret at 1.
      destruct (IH (add_invoked (l_id (reg_listener h)) w0)) as (w' & Hrun & Hinv).
      exists w'. split; [exact Hrun|].
      rewrite Hinv. simpl. rewrite Hw0, <- app_assoc. reflexivity.
Qed.

(** C5, as stated, fails: with two listeners on 'message' of which the first
    throws, the exception leaves [_handleEvent] and the second listener is
    never called. *)
Lemma later_listener_not_invoked :
  fst (_handleEvent "message" (text_event "hi") VUndefined two_listeners)
  = Throw (ListenerError (l_id failing_listener))
  /\ invoked (snd (_handleEvent "message" (text_event "hi") VUndefined two_listeners))
     = [l_id failing_listener]
  /\ ~ In (l_id plain_listener)
       (invoked (snd (_handleEvent "message" (text_event "hi") VUndefined two_listeners))).
Proof.
  vm_compute. repeat split. intros [H|[]]. discriminate H.
Qed.

(** C5, amended. For every dispatched event, the listeners registered for
    that event name are invoked in registration order up to and including
    the first one that throws; its exception leaves [_handleEvent] and no
    listener registered after it is invoked.  When none throws, all of them
    are invoked and [_handleEvent] returns. *)
Theorem handleEvent_stops_at_first_throw type event data w :
  exists w',
    _handleEvent type event data w
    = (emit_result (handlers_for type (listeners w)) event data, w')
    /\ invoked w'
       = invoked w
         ++ listener_ids (until_throw (handlers_for type (listeners w)) event data).
Proof.
  unfold _handleEvent, emit.
  set (w0 := add_emitted {| em_type := type; em_event := event; em_data := data |} w).
  destruct (call_handlers_until_throw (handlers_for type (listeners w0)) event data w0)
    as (w' & Hrun & Hinv).
  exists w'. split.
  - unfold bind, modify, gets, ret. fold w0. rewrite Hrun.
    change (listeners w0) with (listeners w).
    destruct (emit_result (handlers_for type (listeners w)) event data) as [[]|err];
      reflexivity.
  - exact Hinv.
Qed.

End Emitter.

Section Dispatcher.

Lemma truthy_not_nullish v : truthy v = true -> nullish v = false.
Proof. destruct v; simpl; intros H; first [reflexivity | discriminate H]. Qed.

Lemma bind_pure {A B} (m : M A) (k : A -> M B) a w :
  m w = (Ok a, w) -> (x <- m ;; k x) w = k a w.
Proof. intros H. unfold bind. rewrite H. reflexivity. Qed.

Lemma getM_run v k w : nullish v = false -> getM v k w = (Ok (prop v k), w).
Proof. intros H. unfold getM, lift, get. rewrite H. reflexivity. Qed.

Lemma getM2_run v k1 k2 w :
  nullish v = false -> nullish (prop v k1) = false ->
  getM2 v k1 k2 w = (Ok (prop (prop v k1) k2), w).
Proof.
  intros H1 H2. unfold getM2. rewrite (bind_pure _ _ _ _ (getM_run v k1 w H1)).
  apply getM_run, H2.
Qed.

(** [event.k1 && event.k1.k2] *)
Lemma and_get_run event k1 k2 w :
  nullish event = false ->
  exists v, and_ (getM event k1) (getM2 event k1 k2) w = (Ok v, w)
            /\ truthy v = present2 event k1 k2.
Proof.
  intros Hn. unfold and_, present2, present.
  rewrite (bind_pure _ _ _ _ (getM_run event k1 w Hn)).
  destruct (truthy (prop event k1)) eqn:Ht.
  - exists (prop (prop event k1) k2). split; [|reflexivity].
    apply getM2_run; [assumption|]. apply truthy_not_nullish, Ht.
  - exists (prop event k1). split; [reflexivity|]. rewrite Ht. reflexivity.
Qed.

Lemma runs_eq (m m' : M unit) w types w' :
  m w = m' w -> runs m' w types w' -> runs m w types w'.
Proof. unfold runs. intros ->. auto. Qed.

(** [event.message && event.message.is_echo && !this.broadcastEchoes] *)
Lemma echo_test_run this event w :
  nullish event = false ->
  exists v,
    and_ (getM event "message")
      (and_ (getM2 event "message" "is_echo")
            (ret (VBool (negb (broadcastEchoes this))))) w = (Ok v, w)
    /\ truthy v = present2 event "message" "is_echo" && negb (broadcastEchoes this).
Proof.
  intros Hn. unfold and_ at 1. unfold present2, present.
  rewrite (bind_pure _ _ _ _ (getM_run event "message" w Hn)).
  destruct (truthy (prop event "message")) eqn:Hm.
  - unfold and_.
    rewrite (bind_pure _ _ _ _
               (getM2_run event "message" "is_echo" w Hn (truthy_not_nullish _ Hm))).
    destruct (truthy (prop (prop event "message") "is_echo")) eqn:He.
    + eexists. split; [reflexivity|]. reflexivity.
    + eexists. split; [reflexivity|]. rewrite He. reflexivity.
  - eexists. split; [reflexivity|]. rewrite Hm. reflexivity.
Qed.

Lemma _handleConversationResponse_run type event w :
  nullish event = false -> nullish (prop event "sender") = false ->
  _handleConversationResponse type event w = (Ok false, w).
Proof.
  intros Hn Hs. unfold _handleConversationResponse.
  rewrite (bind_pure _ _ _ _ (getM2_run event "sender" "id" w Hn Hs)). reflexivity.
Qed.

Lemma when_runs (b : bool) (m : M unit) w types :
  quiet w ->
  (b = true -> exists w', runs m w types w') ->
  exists w', runs (when b m) w (if b then types else []) w'.
Proof.
  intros Hq Hm. destruct b; simpl.
  - apply Hm. reflexivity.
  - exists w. apply runs_ret, Hq.
Qed.

Lemma runs_quiet m w types w' : runs m w types w' -> quiet w'.
Proof. intros H. apply H. Qed.

Lemma runs_seq (m k : M unit) w t1 t2 :
  (exists w1, runs m w t1 w1) ->
  (forall w1, quiet w1 -> exists w2, runs k w1 t2 w2) ->
  exists w2, runs (m ;; k) w (t1 ++ t2) w2.
Proof.
  intros (w1 & H1) Hk. destruct (Hk w1 (runs_quiet _ _ _ _ H1)) as (w2 & H2).
  exists w2. eapply runs_bind; eassumption.
Qed.

Lemma _handleMessageEvent_runs event w :
  quiet w -> nullish event = false -> nullish (prop event "sender") = false ->
  present2 event "message" "text" = true ->
  exists w', runs (_handleMessageEvent event) w ["message"] w'.
Proof.
  intros Hq Hn Hs Ht. unfold present2, present in Ht.
  apply andb_true_iff in Ht as [Hm Ht].
  destruct (_handleEvent_quiet "message" event (VObj [("captured", VBool false)]) w Hq)
    as (w' & Hrun).
  exists w'. eapply runs_eq; [|exact Hrun].
  unfold _handleMessageEvent.
  rewrite (bind_pure _ _ _ _ (_handleConversationResponse_run "message" event w Hn Hs)).
  rewrite (bind_pure _ _ _ _
             (getM2_run event "message" "text" w Hn (truthy_not_nullish _ Hm))).
  rewrite (bind_pure _ _ _ _ (getM2_run event "sender" "id" w Hn Hs)).
  rewrite Ht. reflexivity.
Qed.

Lemma _handleAttachmentEvent_runs event w :
  quiet w -> nullish event = false -> nullish (prop event "sender") = false ->
  exists w', runs (_handleAttachmentEvent event) w ["attachment"] w'.
Proof.
  intros Hq Hn Hs.
  destruct (_handleEvent_quiet "attachment" event VUndefined w Hq) as (w' & Hrun).
  exists w'. eapply runs_eq; [|exact Hrun].
  unfold _handleAttachmentEvent.
  rewrite (bind_pure _ _ _ _ (_handleConversationResponse_run "attachment" event w Hn Hs)).
  reflexivity.
Qed.

Lemma derived_runs kind payload event w :
  quiet w ->
  exists w',
    runs (when (truthy payload)
            (_handleEvent (kind +:+ ":" +:+ to_string payload) event VUndefined))
         w (derived kind payload) w'.
Proof.
  intros Hq. unfold derived. apply when_runs; [assumption|].
  intros _. apply _handleEvent_quiet, Hq.
Qed.

Lemma _handlePostbackEvent_runs event w :
  quiet w -> nullish event = false -> nullish (prop event "sender") = false ->
  present event "postback" = true ->
  exists w',
    runs (_handlePostbackEvent event) w
         (derived "postback" (prop (prop event "postback") "payload") ++ ["postback"]) w'.
Proof.
  intros Hq Hn Hs Hp. unfold present in Hp.
  destruct (runs_seq
              (when (truthy (prop (prop event "postback") "payload"))
                 (_handleEvent ("postback" +:+ ":" +:+
                                to_string (prop (prop event "postback") "payload"))
                               event VUndefined))
              (_handleEvent "postback" event VUndefined) w
              (derived "postback" (prop (prop event "postback") "payload")) ["postback"])
    as (w' & Hrun).
  { apply derived_runs, Hq. }
  { intros w1 Hq1. apply _handleEvent_quiet, Hq1. }
  exists w'. eapply runs_eq; [|exact Hrun].
  unfold _handlePostbackEvent.
  rewrite (bind_pure _ _ _ _ (_handleConversationResponse_run "postback" event w Hn Hs)).
  rewrite (bind_pure _ _ _ _
             (getM2_run event "postback" "payload" w Hn (truthy_not_nullish _ Hp))).
  reflexivity.
Qed.

Lemma _handleQuickReplyEvent_runs event w :
  quiet w -> nullish event = false -> nullish (prop event "sender") = false ->
  present event "message" = true ->
  exists w',
    runs (_handleQuickReplyEvent event) w
         (derived "quick_reply" (quick_reply_payload event) ++ ["quick_reply"]) w'.
Proof.
  intros Hq Hn Hs Hm. unfold present in Hm.
  pose proof (truthy_not_nullish _ Hm) as Hmn.
  destruct (runs_seq
              (when (truthy (quick_reply_payload event))
                 (_handleEvent ("quick_reply" +:+ ":" +:+
                                to_string (quick_reply_payload event)) event VUndefined))
              (_handleEvent "quick_reply" event VUndefined) w
              (derived "quick_reply" (quick_reply_payload event)) ["quick_reply"])
    as (w' & Hrun).
  { apply derived_runs, Hq. }
  { intros w1 Hq1. apply _handleEvent_quiet, Hq1. }
  exists w'. eapply runs_eq; [|exact Hrun].
  unfold _handleQuickReplyEvent.
  rewrite (bind_pure _ _ _ _ (_handleConversationResponse_run "quick_reply" event w Hn Hs)).
  cbv iota.
  assert (Hp : and_ (getM2 event "message" "quick_reply")
                 (q <- getM2 event "message" "quick_reply" ;; getM q "payload") w
               = (Ok (quick_reply_payload event), w)).
  { unfold and_, quick_reply_payload, present.
    rewrite (bind_pure _ _ _ _ (getM2_run event "message" "quick_reply" w Hn Hmn)).
    destruct (truthy (prop (prop event "message") "quick_reply")) eqn:Hqr; [|reflexivity].
    rewrite (bind_pure _ _ _ _ (getM2_run event "message" "quick_reply" w Hn Hmn)).
    apply getM_run, truthy_not_nullish, Hqr. }
  rewrite (bind_pure _ _ _ _ Hp). reflexivity.
Qed.

Lemma runs_pure {A} (m : M A) (k : A -> M unit) a w types :
  m w = (Ok a, w) ->
  (exists w', runs (k a) w types w') ->
  exists w', runs (x <- m ;; k x) w types w'.
Proof.
  intros Hm (w' & Hk). exists w'. eapply runs_eq; [|exact Hk].
  apply bind_pure, Hm.
Qed.

Lemma console_log_runs line w : quiet w -> exists w', runs (console_log line) w [] w'.
Proof.
  intros Hq. eexists. split_runs; [reflexivity|exact Hq| |reflexivity].
  exists []. rewrite app_nil_r. split; reflexivity.
Qed.

(** The callback of the webhook emits, for a well-formed event and in a quiet
    world, exactly the names of the dispatch table. *)
Lemma on_messaging_runs this event w :
  quiet w -> well_formed_event event = true ->
  exists w', runs (on_messaging this event) w (dispatched this event) w'.
Proof.
  intros Hq Hwf. unfold well_formed_event in Hwf.
  apply andb_true_iff in Hwf as [Hn Hs].
  apply negb_true_iff in Hn, Hs.
  unfold on_messaging, dispatched, classify.
  destruct (echo_test_run this event w Hn) as (echo & Hecho & Htecho).
  eapply runs_pure; [exact Hecho|]. rewrite Htecho.
  destruct (present2 event "message" "is_echo" && negb (broadcastEchoes this)).
  { exists w. apply runs_ret, Hq. }
  eapply runs_pure; [apply getM_run, Hn|]. fold (present event "optin").
  destruct (present event "optin").
  { apply _handleEvent_quiet, Hq. }
  destruct (and_get_run event "message" "text" w Hn) as (text & Htext & Httext).
  eapply runs_pure; [exact Htext|]. rewrite Httext.
  destruct (present2 event "message" "text") eqn:Hpt.
  { pose proof Hpt as Hpm. unfold present2 in Hpm. apply andb_true_iff in Hpm as [Hpm _].
    change ("message" :: ?l) with (["message"] ++ l).
    apply runs_seq.
    - apply _handleMessageEvent_runs; assumption.
    - intros w1 Hq1.
      eapply runs_pure.
      { apply getM2_run; [exact Hn|]. apply truthy_not_nullish, Hpm. }
      fold (present (prop event "message") "quick_reply").
      apply when_runs; [exact Hq1|]. intros _.
      apply _handleQuickReplyEvent_runs; assumption. }
  destruct (and_get_run event "message" "attachments" w Hn) as (att & Hatt & Htatt).
  eapply runs_pure; [exact Hatt|]. rewrite Htatt.
  destruct (present2 event "message" "attachments").
  { apply _handleAttachmentEvent_runs; assumption. }
  eapply runs_pure; [apply getM_run, Hn|]. fold (present event "postback").
  destruct (present event "postback") eqn:Hpb.
  { apply _handlePostbackEvent_runs; assumption. }
  eapply runs_pure; [apply getM_run, Hn|]. fold (present event "delivery").
  destruct (present event "delivery").
  { apply _handleEvent_quiet, Hq. }
  eapply runs_pure; [apply getM_run, Hn|]. fold (present event "read").
  destruct (present event "read").
  { apply _handleEvent_quiet, Hq. }
  eapply runs_pure; [apply getM_run, Hn|]. fold (present event "account_linking").
  destruct (present event "account_linking").
  { apply _handleEvent_quiet, Hq. }
  apply console_log_runs, Hq.
Qed.

Lemma each_runs this events w :
  quiet w -> forallb well_formed_event events = true ->
  exists w',
    runs (each events (on_messaging this)) w
         (List.concat (List.map (dispatched this) events)) w'.
Proof.
  revert w. induction events as [|event rest IH]; intros w Hq Hwf; simpl.
  - exists w. apply runs_ret, Hq.
  - apply andb_true_iff in Hwf as [Hevent Hrest].
    apply runs_seq.
    + apply on_messaging_runs; assumption.
    + intros w1 Hq1. apply IH; assumption.
Qed.

Lemma entry_runs this entry w :
  quiet w -> well_formed_entry entry = true ->
  exists w',
    runs (messaging <- getM entry "messaging" ;; forEach messaging (on_messaging this)) w
         (List.concat (List.map (dispatched this) (array_items (prop entry "messaging")))) w'.
Proof.
  intros Hq Hwf. unfold well_formed_entry in Hwf.
  apply andb_true_iff in Hwf as [Hwf Hevents].
  apply andb_true_iff in Hwf as [Hn Harr]. apply negb_true_iff in Hn.
  eapply runs_pure; [apply getM_run, Hn|].
  destruct (prop entry "messaging"); try discriminate Harr.
  simpl. apply each_runs; assumption.
Qed.

Lemma entries_runs this entries w :
  quiet w -> forallb well_formed_entry entries = true ->
  exists w',
    runs (each entries (fun entry =>
            messaging <- getM entry "messaging" ;; forEach messaging (on_messaging this))) w
         (List.concat (List.map (dispatched this)
            (List.concat (List.map (fun entry => array_items (prop entry "messaging"))
                                   entries)))) w'.
Proof.
  revert w. induction entries as [|entry rest IH]; intros w Hq Hwf; simpl.
  - exists w. apply runs_ret, Hq.
  - apply andb_true_iff in Hwf as [Hentry Hrest].
    rewrite List.map_app, List.concat_app.
    apply runs_seq.
    + apply entry_runs; assumption.
    + intros w1 Hq1. apply IH; assumption.
Qed.

Lemma well_formed_batch_object data :
  well_formed_batch data = true ->
  nullish data = false /\ is_string (prop data "object") "page" = true.
Proof.
  unfold well_formed_batch. intros H.
  apply andb_true_iff in H as [H _]. apply andb_true_iff in H as [H _].
  split; [|exact H]. destruct data; first [reflexivity | discriminate H].
Qed.

(** The whole handler on a well-formed page batch, in a quiet world: it
    returns, it emitted the names of the dispatch table in batch order, and
    it answered 200. *)
Lemma post_webhook_runs this data w :
  well_formed_batch data = true -> quiet w ->
  exists w' new,
    post_webhook this data w = (Ok tt, w')
    /\ emitted w' = emitted w ++ new
    /\ List.map em_type new = List.concat (List.map (dispatched this) (batch_events data))
    /\ responses w' = responses w ++ [200%Z].
Proof.
  intros Hwf Hq. destruct (well_formed_batch_object data Hwf) as [Hn Hpage].
  unfold well_formed_batch in Hwf.
  apply andb_true_iff in Hwf as [Hwf Hentries].
  apply andb_true_iff in Hwf as [_ Harr].
  unfold post_webhook, batch_events.
  rewrite (bind_pure _ _ _ _ (getM_run data "object" w Hn)). rewrite Hpage. cbn [negb].
  rewrite (bind_pure _ _ _ _ (getM_run data "entry" w Hn)).
  destruct (prop data "entry") as [| | | | |entries|]; try discriminate Harr.
  simpl forEach. simpl array_items in *.
  destruct (entries_runs this entries w Hq Hentries)
    as (w1 & Hrun & _ & (new & Hnew & Htypes) & Hresp).
  exists (add_response 200 w1), new. unfold bind at 1. rewrite Hrun.
  unfold sendStatus, modify. simpl. rewrite Hresp. auto.
Qed.

Lemma derived_not_base kind payload :
  is_base_event (kind +:+ ":" +:+ to_string payload) = false ->
  List.filter is_base_event (derived kind payload) = [].
Proof. intros H. unfold derived. destruct (truthy payload); simpl; [rewrite H|]; reflexivity. Qed.

Lemma quick_reply_derived_not_base s :
  is_base_event ("quick_reply" +:+ ":" +:+ s) = false.
Proof. reflexivity. Qed.

Lemma postback_derived_not_base s :
  is_base_event ("postback" +:+ ":" +:+ s) = false.
Proof. reflexivity. Qed.

(** Of the names emitted for one event, the base event is the one of its
    rule. *)
Lemma dispatched_base_event this event :
  List.filter is_base_event (dispatched this event)
  = match base_event_of (classify this event) with
    | Some type => [type]
    | None => []
    end.
Proof.
  unfold dispatched. destruct (classify this event); try reflexivity.
  - destruct (present (prop event "message") "quick_reply"); [|reflexivity].
    cbn [List.filter]. change (is_base_event "message") with true. cbv iota.
    rewrite List.filter_app, derived_not_base by apply quick_reply_derived_not_base.
    reflexivity.
  - rewrite List.filter_app, derived_not_base by apply postback_derived_not_base.
    reflexivity.
Qed.

(** One event contributes one base event when its rule emits, none
    otherwise. *)
Lemma dispatched_base_count this event :
  length (List.filter is_base_event (dispatched this event))
  = if emitting (classify this event) then 1 else 0.
Proof. rewrite dispatched_base_event. destruct (classify this event); reflexivity. Qed.

Lemma batch_base_count this events :
  length (List.filter is_base_event (List.concat (List.map (dispatched this) events)))
  = length (List.filter (fun e => emitting (classify this e)) events).
Proof.
  induction events as [|event rest IH]; simpl; [reflexivity|].
  rewrite List.filter_app, List.length_app, IH, dispatched_base_count.
  destruct (emitting (classify this event)); reflexivity.
Qed.

Lemma count_base_types (es : list emission) :
  count_base es = length (List.filter is_base_event (List.map em_type es)).
Proof.
  unfold count_base. induction es as [|e rest IH]; simpl; [reflexivity|].
  destruct (is_base_event (em_type e)); simpl; rewrite IH; reflexivity.
Qed.




(** Any body whose [object] is not the string "page" stops the handler at its
    guard. *)
Lemma post_webhook_not_page this data w :
  nullish data = false ->
  is_string (prop data "object") "page" = false ->
  post_webhook this data w = (Ok tt, w).
Proof.
  intros Hn Hobject. unfold post_webhook.
  rewrite (bind_pure _ _ _ _ (getM_run data "object" w Hn)), Hobject. reflexivity.
Qed.

(** C3, at a body whose [object] is "user": the handler returns at its guard.
    Nothing is emitted, and no status is sent either: the world is left as it
    was, the response list included. *)
Theorem post_webhook_non_page_sends_nothing this events w :
  post_webhook this (batch "user" events) w = (Ok tt, w).
Proof. reflexivity. Qed.

End Dispatcher.

(* ===================================================================== *)
(** * JSON text: what is written is read back *)
(* ===================================================================== *)

Section JsonText.

Import Json.

Lemma append_cons c s t : String c s +:+ t = String c (s +:+ t).
Proof. reflexivity. Qed.

Lemma append_empty_l t : EmptyString +:+ t = t.
Proof. reflexivity. Qed.

Lemma append_empty_r s : s +:+ EmptyString = s.
Proof. induction s as [|c s IH]; [reflexivity|]. rewrite append_cons, IH. reflexivity. Qed.

Lemma append_assoc s t u : (s +:+ t) +:+ u = s +:+ (t +:+ u).
Proof.
  induction s as [|c s IH]; [reflexivity|]. rewrite !append_cons, IH. reflexivity.
Qed.

Lemma length_append s t : String.length (s +:+ t) = String.length s + String.length t.
Proof.
  induction s as [|c s IH]; [reflexivity|]. rewrite append_cons. simpl. rewrite IH.
  reflexivity.
Qed.

(** ** Strings *)

(** Reading undoes the escape of one character, whichever it is. *)
Lemma read_escape_char c tail :
  read_string (escape_char c +:+ tail) = cons_char c (read_string tail).
Proof. destruct c as [[] [] [] [] [] [] [] []]; reflexivity. Qed.

Lemma read_escape s rest :
  read_string (escape s +:+ String quote rest) = Some (s, rest).
Proof.
  induction s as [|c s IH].
  - reflexivity.
  - simpl escape. rewrite append_assoc, read_escape_char, IH. reflexivity.
Qed.

Lemma print_string_append s rest :
  print_string s +:+ rest = String quote (escape s +:+ String quote rest).
Proof. unfold print_string. rewrite append_cons, append_assoc. reflexivity. Qed.

(** ** Numbers *)

Lemma span_digits_uint d rest :
  ends_number rest = true ->
  span_digits (NilEmpty.string_of_uint d +:+ rest) = (NilEmpty.string_of_uint d, rest).
Proof.
  intros Hrest. induction d; simpl NilEmpty.string_of_uint;
    rewrite ?append_cons; try (simpl span_digits; rewrite IHd; reflexivity).
  rewrite append_empty_l. destruct rest as [|c rest]; [reflexivity|].
  simpl in Hrest. simpl. apply negb_true_iff in Hrest. rewrite Hrest. reflexivity.
Qed.

Lemma uint_head_digit d :
  d <> Decimal.Nil ->
  exists c tl, NilEmpty.string_of_uint d = String c tl /\ is_digit c = true.
Proof.
  destruct d; intros Hd; [contradiction|..]; simpl; eexists _, _; split; reflexivity.
Qed.

Lemma to_uint_nonnil n : N.to_uint n <> Decimal.Nil.
Proof.
  destruct n as [|p]; [discriminate|]. apply DecimalPos.Unsigned.to_uint_nonnil.
Qed.

Lemma print_N_head n :
  exists c tl, print_N n = String c tl /\ is_digit c = true.
Proof. apply uint_head_digit, to_uint_nonnil. Qed.

Lemma read_print_N n rest :
  ends_number rest = true -> read_N (print_N n +:+ rest) = Some (n, rest).
Proof.
  intros Hrest. unfold read_N, print_N. rewrite span_digits_uint by assumption.
  destruct (uint_head_digit (N.to_uint n) (to_uint_nonnil n)) as (c & tl & Hhead & _).
  rewrite NilEmpty.usu, DecimalN.Unsigned.of_to. rewrite Hhead. reflexivity.
Qed.

Lemma digit_not_minus c : is_digit c = true -> Ascii.eqb c "-" = false.
Proof. destruct c as [[] [] [] [] [] [] [] []]; vm_compute; congruence. Qed.

Lemma read_print_Z z rest :
  ends_number rest = true -> read_Z (print_Z z +:+ rest) = Some (z, rest).
Proof.
  intros Hrest.
  assert (Hnat : forall n, read_Z (print_N n +:+ rest) = Some (Z.of_N n, rest)).
  { intros n. unfold read_Z.
    destruct (print_N_head n) as (c & tl & Hhead & Hc).
    pose proof (read_print_N n rest Hrest) as Hread.
    rewrite Hhead in *. rewrite append_cons in *.
    rewrite (digit_not_minus c Hc), Hread. reflexivity. }
  destruct z as [|p|p].
  - apply (Hnat 0%N).
  - apply (Hnat (N.pos p)).
  - unfold print_Z, read_Z. rewrite append_cons.
    change (Ascii.eqb "-" "-") with true. cbv iota.
    rewrite (read_print_N (N.pos p) rest Hrest). reflexivity.
Qed.

Lemma print_Z_head z :
  exists c tl, print_Z z = String c tl /\ (is_digit c || Ascii.eqb c "-") = true.
Proof.
  destruct z as [|p|p].
  - eexists _, _. split; reflexivity.
  - destruct (print_N_head (N.pos p)) as (c & tl & Hhead & Hc).
    exists c, tl. split; [exact Hhead|]. rewrite Hc. reflexivity.
  - eexists _, _. split; reflexivity.
Qed.

(** ** The first character of a printed value *)

Lemma print_head v :
  exists c tl, print v = String c tl /\ is_value_start c = true.
Proof.
  destruct v as [| |[]|[z|]|s|xs|fields]; try (eexists _, _; split; reflexivity).
  destruct (print_Z_head z) as (c & tl & Hhead & Hc).
  exists c, tl. split; [exact Hhead|]. unfold is_value_start.
  apply orb_true_iff in Hc as [Hc|Hc]; rewrite Hc; [reflexivity|].
  rewrite orb_true_r. reflexivity.
Qed.

Lemma value_start_facts c :
  is_value_start c = true ->
  is_ws c = false /\ Ascii.eqb c "]" = false /\ Ascii.eqb c "}" = false
  /\ Ascii.eqb c "," = false.
Proof. destruct c as [[] [] [] [] [] [] [] []]; vm_compute; intros H; auto; discriminate H. Qed.

Lemma number_start_facts c :
  (is_digit c || Ascii.eqb c "-") = true ->
  is_ws c = false /\ Ascii.eqb c "n" = false /\ Ascii.eqb c "t" = false
  /\ Ascii.eqb c "f" = false /\ Ascii.eqb c quote = false /\ Ascii.eqb c "[" = false
  /\ Ascii.eqb c "{" = false.
Proof.
  destruct c as [[] [] [] [] [] [] [] []]; vm_compute; intros H;
    first [discriminate H | repeat split].
Qed.

Lemma skip_ws_print v tail : skip_ws (print v +:+ tail) = print v +:+ tail.
Proof.
  destruct (print_head v) as (c & tl & Hhead & Hc). rewrite Hhead, append_cons.
  destruct (value_start_facts c Hc) as (Hws & _). simpl. rewrite Hws. reflexivity.
Qed.

Lemma print_not_closing v tail :
  starts_with "]" (print v +:+ tail) = None /\ starts_with "}" (print v +:+ tail) = None.
Proof.
  destruct (print_head v) as (c & tl & Hhead & Hc). rewrite Hhead, append_cons.
  destruct (value_start_facts c Hc) as (_ & H1 & H2 & _). simpl. rewrite H1, H2. auto.
Qed.

(** ** One step of the reader *)

Lemma read_value_quote fuel s :
  read_value (S fuel) (String quote s)
  = match read_string s with
    | Some (str, rest) => Some (VStr str, rest)
    | None => None
    end.
Proof. reflexivity. Qed.

Lemma read_value_array fuel s :
  read_value (S fuel) (String "[" s)
  = match starts_with "]" (skip_ws s) with
    | Some rest => Some (VArr [], rest)
    | None =>
        match read_items fuel s with
        | Some (xs, rest) => Some (VArr xs, rest)
        | None => None
        end
    end.
Proof. reflexivity. Qed.

Lemma read_value_object fuel s :
  read_value (S fuel) (String "{" s)
  = match starts_with "}" (skip_ws s) with
    | Some rest => Some (VObj [], rest)
    | None =>
        match read_fields fuel s with
        | Some (fields, rest) => Some (VObj (set_fields fields), rest)
        | None => None
        end
    end.
Proof. reflexivity. Qed.

Lemma read_items_step fuel s :
  read_items (S fuel) s
  = match read_value fuel s with
    | Some (x, rest) =>
        match starts_with "," (skip_ws rest) with
        | Some rest' =>
            match read_items fuel rest' with
            | Some (xs, rest'') => Some (x :: xs, rest'')
            | None => None
            end
        | None =>
            match starts_with "]" (skip_ws rest) with
            | Some rest' => Some ([x], rest')
            | None => None
            end
        end
    | None => None
    end.
Proof. reflexivity. Qed.

Lemma read_value_number fuel z rest :
  ends_number rest = true ->
  read_value (S fuel) (print_Z z +:+ rest) = Some (VNumber (Num z), rest).
Proof.
  intros Hrest. pose proof (read_print_Z z rest Hrest) as Hread.
  destruct (print_Z_head z) as (c & tl & Hhead & Hc).
  rewrite Hhead in *. rewrite append_cons in *.
  destruct (number_start_facts c Hc) as (Hws & Hn & Ht & Hf & Hq & Ha & Ho).
  cbn [read_value skip_ws]. rewrite Hws, Hn, Ht, Hf, Hq, Ha, Ho, Hread. reflexivity.
Qed.

Lemma read_fields_step fuel s :
  read_fields (S fuel) s
  = match starts_with quote (skip_ws s) with
    | Some rest =>
        match read_string rest with
        | Some (k, rest1) =>
            match starts_with ":" (skip_ws rest1) with
            | Some rest2 =>
                match read_value fuel rest2 with
                | Some (v, rest3) =>
                    match starts_with "," (skip_ws rest3) with
                    | Some rest4 =>
                        match read_fields fuel rest4 with
                        | Some (fields, rest5) => Some ((k, v) :: fields, rest5)
                        | None => None
                        end
                    | None =>
                        match starts_with "}" (skip_ws rest3) with
                        | Some rest4 => Some ([(k, v)], rest4)
                        | None => None
                        end
                    end
                | None => None
                end
            | None => None
            end
        | None => None
        end
    | None => None
    end.
Proof. reflexivity. Qed.

Ltac flatten_append :=
  repeat first [rewrite append_assoc | rewrite append_cons | rewrite append_empty_l].

(** ** Arrays *)

Lemma print_items_cons pr first x xs :
  print_items pr first (x :: xs) = separator first +:+ pr x +:+ print_items pr false xs.
Proof. reflexivity. Qed.

Lemma read_print_items xs :
  Forall reads_back xs -> forallb is_json xs = true ->
  forall x fuel tail,
    reads_back x -> is_json x = true ->
    String.length (print x) + String.length (print_items print false xs) < fuel ->
    read_items fuel (print x +:+ print_items print false xs +:+ String "]" tail)
    = Some (x :: xs, tail).
Proof.
  induction 1 as [|y ys Hy Hys IH]; intros Hjson x fuel tail Hx Hjx Hfuel.
  - destruct fuel as [|fuel]; [lia|]. rewrite read_items_step.
    change (print_items print false []) with EmptyString. rewrite append_empty_l.
    rewrite (Hx Hjx fuel (String "]" tail)); [reflexivity|reflexivity|].
    simpl in Hfuel. lia.
  - destruct fuel as [|fuel]; [lia|]. rewrite read_items_step.
    simpl in Hjson. apply andb_true_iff in Hjson as [Hjy Hjys].
    rewrite print_items_cons in *. change (separator false) with ",".
    rewrite length_append, length_append in Hfuel. simpl String.length in Hfuel.
    flatten_append.
    rewrite (Hx Hjx fuel); [|reflexivity|lia].
    change (skip_ws (String "," ?s)) with (String "," s).
    change (starts_with "," (String "," ?s)) with (Some s).
    cbn [skip_ws is_ws]. simpl starts_with.
    rewrite (IH Hjys y fuel tail Hy Hjy); [reflexivity|lia].
Qed.

(** ** Objects *)

Lemma print_fields_cons pr first k v fields :
  is_json v = true ->
  print_fields pr first ((k, v) :: fields)
  = separator first +:+ print_string k +:+ ":" +:+ pr v +:+ print_fields pr false fields.
Proof. destruct v as [| | |[]| | |]; intros H; first [discriminate H | reflexivity]. Qed.

Lemma print_fields_ends pr fields tail :
  forallb (fun kv => is_json (snd kv)) fields = true ->
  ends_number (print_fields pr false fields +:+ String "}" tail) = true.
Proof.
  destruct fields as [|[k v] fields]; intros H; [reflexivity|].
  simpl in H. apply andb_true_iff in H as [Hv _].
  rewrite print_fields_cons by assumption. reflexivity.
Qed.

Lemma read_print_fields fields :
  Forall (fun kv => reads_back (snd kv)) fields ->
  forallb (fun kv => is_json (snd kv)) fields = true ->
  forall k v fuel tail,
    reads_back v -> is_json v = true ->
    String.length (print v) + String.length (print_fields print false fields) < fuel ->
    read_fields fuel (print_string k +:+ ":" +:+ print v
                      +:+ print_fields print false fields +:+ String "}" tail)
    = Some ((k, v) :: fields, tail).
Proof.
  induction 1 as [|[k' v'] rest Hv' Hrest IH]; intros Hjson k v fuel tail Hv Hjv Hfuel.
  - destruct fuel as [|fuel]; [lia|]. rewrite read_fields_step.
    rewrite print_string_append.
    change (skip_ws (String quote ?s)) with (String quote s).
    change (starts_with quote (String quote ?s)) with (Some s).
    cbv iota. rewrite read_escape. flatten_append.
    change (skip_ws (String ":" ?s)) with (String ":" s).
    change (starts_with ":" (String ":" ?s)) with (Some s).
    cbv iota.
    rewrite (Hv Hjv fuel (String "}" tail)); [reflexivity|reflexivity|].
    simpl in Hfuel. lia.
  - destruct fuel as [|fuel]; [lia|]. rewrite read_fields_step.
    pose proof Hjson as Hends.
    simpl in Hjson. apply andb_true_iff in Hjson as [Hjv' Hjrest].
    simpl snd in *.
    rewrite print_string_append.
    change (skip_ws (String quote ?s)) with (String quote s).
    change (starts_with quote (String quote ?s)) with (Some s).
    cbv iota. rewrite read_escape. flatten_append.
    change (skip_ws (String ":" ?s)) with (String ":" s).
    change (starts_with ":" (String ":" ?s)) with (Some s).
    cbv iota.
    rewrite (Hv Hjv fuel); [|apply print_fields_ends, Hends|].
    2:{ rewrite print_fields_cons in Hfuel by assumption. lia. }
    rewrite print_fields_cons in * by assumption. change (separator false) with ",".
    rewrite !length_append in Hfuel. simpl String.length in Hfuel.
    flatten_append.
    change (skip_ws (String "," ?s)) with (String "," s).
    change (starts_with "," (String "," ?s)) with (Some s).
    cbv iota.
    pose proof (IH Hjrest k' v' fuel tail Hv' Hjv') as Hgo.
    change (":" +:+ ?x) with (String ":" x) in Hgo.
    rewrite Hgo; [reflexivity|lia].
Qed.

Lemma update_field_fresh k v acc :
  k ∉ List.map fst acc -> update_field k v acc = acc ++ [(k, v)].
Proof.
  induction acc as [|[k' v'] acc IH]; simpl; intros Hk; [reflexivity|].
  apply not_elem_of_cons in Hk as [Hne Hk].
  destruct (String.eqb_spec k k') as [->|_]; [contradiction|].
  rewrite IH by assumption. reflexivity.
Qed.

Lemma set_fields_from acc fields :
  NoDup (List.map fst (acc ++ fields)) ->
  fold_left (fun acc kv => update_field (fst kv) (snd kv) acc) fields acc = acc ++ fields.
Proof.
  revert acc. induction fields as [|[k v] fields IH]; intros acc Hnd; simpl.
  - rewrite app_nil_r. reflexivity.
  - rewrite update_field_fresh.
    + rewrite IH; rewrite <- app_assoc; [reflexivity|exact Hnd].
    + rewrite List.map_app in Hnd. apply NoDup_app in Hnd as (_ & Hfresh & _).
      intros Hin. apply (Hfresh k Hin). simpl. left.
Qed.

(** Distinct names are set one after the other: the list read is the list
    kept. *)
Lemma set_fields_NoDup fields :
  NoDup (List.map fst fields) -> set_fields fields = fields.
Proof. intros Hnd. unfold set_fields. apply (set_fields_from [] fields Hnd). Qed.

(** ** Values *)

Lemma read_print v : reads_back v.
Proof.
  induction v as [| |b|[z|]|s|xs IH|fields IH] using value_nested_ind;
    unfold reads_back; intros Hjson fuel rest Hrest Hlen;
    try discriminate Hjson;
    (destruct fuel as [|fuel];
     [exfalso;
      match type of Hlen with
      | String.length (print ?v) <= 0 =>
          destruct (print_head v) as (c & tl & Hhead & _);
          rewrite Hhead in Hlen; simpl in Hlen; lia
      end|]).
  - reflexivity.
  - destruct b; reflexivity.
  - apply read_value_number, Hrest.
  - simpl print. rewrite print_string_append, read_value_quote, read_escape. reflexivity.
  - destruct xs as [|x xs]; [reflexivity|].
    simpl in Hjson. pose proof Hjson as Hall. apply andb_true_iff in Hjson as [Hjx Hjxs].
    apply Forall_cons in IH as [Hx Hxs].
    simpl print in *.
    revert Hlen. flatten_append. intros Hlen.
    repeat (progress (cbn [String.length] in Hlen; rewrite ?length_append in Hlen)).
    rewrite read_value_array, skip_ws_print.
    destruct (print_not_closing x (print_items print false xs +:+ String "]" rest))
      as [Hclose _].
    rewrite Hclose, read_print_items; [reflexivity|assumption..|lia].
  - destruct fields as [|[k v] fields]; [reflexivity|].
    simpl in Hjson. apply andb_true_iff in Hjson as [Hjson Hnd].
    apply bool_decide_eq_true in Hnd.
    apply andb_true_iff in Hjson as [Hjv Hjfields].
    apply Forall_cons in IH as [Hv Hfields]. simpl snd in *.
    cbn [print] in *. rewrite print_fields_cons in * by assumption.
    change (separator true) with EmptyString in *.
    revert Hlen. flatten_append. intros Hlen.
    repeat (progress (cbn [String.length] in Hlen; rewrite ?length_append in Hlen)).
    rewrite read_value_object.
    rewrite print_string_append.
    change (skip_ws (String quote ?x)) with (String quote x).
    change (starts_with "}" (String quote ?x)) with (@None string). cbv iota.
    rewrite <- print_string_append.
    pose proof (read_print_fields fields Hfields Hjfields k v fuel rest Hv Hjv) as Hgo.
    change (":" +:+ ?x) with (String ":" x) in Hgo.
    rewrite Hgo; [|lia]. rewrite set_fields_NoDup by exact Hnd. reflexivity.
Qed.

(** A JSON value is read back from its text. *)
Lemma read_print_json v : is_json v = true -> read (print v) = Some v.
Proof.
  intros Hjson. unfold read.
  pose proof (read_print v Hjson (S (String.length (print v))) EmptyString) as Hread.
  rewrite append_empty_r in Hread. rewrite Hread; [reflexivity..|lia].
Qed.

(** The law of the codec: a mapping of JSON values is parsed back from its
    text. *)
Lemma parse_stringify m : json_map m -> parse (stringify m) = Some m.
Proof.
  intros Hm. unfold parse, stringify. rewrite read_print_json.
  - rewrite list_to_map_to_list. reflexivity.
  - simpl. apply andb_true_iff. split.
    + apply forallb_forall. intros [k v] Hin. simpl.
      apply (Hm k v). apply elem_of_map_to_list. apply list_elem_of_In. exact Hin.
    + apply bool_decide_eq_true. apply NoDup_fst_map_to_list.
Qed.

End JsonText.

(* ===================================================================== *)
(** * Properties of the profile cache *)
(* ===================================================================== *)

Section ProfileCache.

Import Users.

Variable stringify : gmap string value -> string.
Variable parse : string -> option (gmap string value).

Lemma getUserProfile_run this userId w :
  getUserProfile this userId w
  = (Ok (Fulfilled (reply_of (network w (count_http (effects w))))),
     after_request "Error getting user profile: " (profile_request this userId) w).
Proof.
  unfold getUserProfile, fetch, bind, gets, modify, after_request, log_failure. simpl.
  destruct (network w (count_http (effects w))) as [msg|[json|]]; reflexivity.
Qed.

(** A hit: the memoized value, and nothing else happens. *)
Lemma getOrFetchUserProfile_hit this userId s :
  is_truthy (lookup_profile userId (userProfiles s)) = true ->
  getOrFetchUserProfile stringify this userId s
  = (Ok (Fulfilled (lookup_profile userId (userProfiles s))), s).
Proof.
  intros Hhit. unfold getOrFetchUserProfile, Promise_method, bind, gets.
  rewrite Hhit. reflexivity.
Qed.

(** A miss answered with an object: the profile is stamped, inserted,
    flushed when ten seconds have passed, and handed to [saveUser]. *)
Lemma getOrFetchUserProfile_miss this userId fields s :
  misses userId s -> next_reply s (VObj fields) ->
  getOrFetchUserProfile stringify this userId s
  = (Ok (if db_rejects (environment s) (user_row (Plain (stamped userId fields)))
         then Rejected (FetchError "saveUser")
         else Fulfilled (Own (Plain (stamped userId fields)))),
     after_miss stringify this userId fields s).
Proof.
  unfold misses, next_reply. intros Hmiss Hreply.
  unfold getOrFetchUserProfile, Promise_method.
  unfold bind at 1. unfold gets at 1. rewrite Hmiss.
  unfold bind at 1. unfold in_world. rewrite getUserProfile_run, Hreply.
  cbn [reply_of then_].
  unfold after_miss, stamped, saveUserProfiles, saveUser, new_Date, when, bind, gets,
    modify, lift, ret, then_. simpl.
  destruct (10000 <=? clock (environment s) - cacheTs s)%Z; simpl;
    destruct (db_rejects (environment s) _); reflexivity.
Qed.

Lemma lookup_profile_insert userId (p : profile) (m : gmap string profile) :
  lookup_profile userId (<[userId := p]> m) = Own p.
Proof. unfold lookup_profile. rewrite lookup_insert_eq. reflexivity. Qed.

(** C6, as stated, fails when the fetch fails: [getUserProfile] resolves with
    [undefined], stamping it throws, nothing is memoized, and the second call
    fetches again. *)
Lemma failed_fetch_is_repeated :
  fst (getOrFetchUserProfile Json.stringify bot "1001" (empty_cache empty_world))
  = Ok (Rejected (TypeError "Cannot set property 'id' of undefined"))
  /\ count_http
       (http_calls
          (snd (getOrFetchUserProfile Json.stringify bot "1001"
                  (snd (getOrFetchUserProfile Json.stringify bot "1001"
                          (empty_cache empty_world))))))
     = 2.
Proof. split; reflexivity. Qed.

(** C6, amended. For every userId that misses the cache (the mapping reads
    falsy under it: it has no truthy entry of its own there, and it is no
    name of [Object.prototype], which always reads truthy) and whose fetch is
    answered with a JSON object, calling [getOrFetchUserProfile] twice in
    sequence performs exactly one remote profile fetch: the first call
    fetches, stamps [id = userId] and inserts into the in-memory mapping; the
    second call, whatever happened around the cache in between, resolves with
    the memoized profile and leaves everything as it is, the network
    included. *)
Theorem second_call_is_memoized this userId fields s :
  misses userId s ->
  next_reply s (VObj fields) ->
  exists p1 s1,
    getOrFetchUserProfile stringify this userId s = (Ok p1, s1)
    /\ userProfiles s1 = <[userId := Plain (stamped userId fields)]> (userProfiles s)
    /\ http_calls s1 = http_calls s ++ [Http (profile_request this userId)]
    /\ forall s2,
         userProfiles s2 = userProfiles s1 ->
         getOrFetchUserProfile stringify this userId s2
         = (Ok (Fulfilled (Own (Plain (stamped userId fields)))), s2).
Proof.
  intros Hmiss Hreply. eexists _, _. split; [|split; [|split]].
  - exact (getOrFetchUserProfile_miss this userId fields s Hmiss Hreply).
  - reflexivity.
  - unfold http_calls, after_miss.
    destruct (10000 <=? clock (environment s) - cacheTs s)%Z; simpl;
      apply effects_after_request.
  - intros s2 Hs2. rewrite getOrFetchUserProfile_hit; rewrite Hs2; simpl;
      rewrite lookup_profile_insert; reflexivity.
Qed.

(** ** The flush *)

Lemma update_field_keys k x fields :
  forall k', k' ∈ List.map fst (update_field k x fields) ->
             k' = k \/ k' ∈ List.map fst fields.
Proof.
  induction fields as [|[k0 v0] fields IH]; simpl; intros k' Hin.
  - apply list_elem_of_singleton in Hin. auto.
  - destruct (String.eqb k k0); simpl in Hin.
    + apply elem_of_cons in Hin as [->|Hin]; [auto|].
      right. apply elem_of_cons. auto.
    + apply elem_of_cons in Hin as [->|Hin].
      * right. apply elem_of_cons. auto.
      * destruct (IH k' Hin) as [->|Hrest]; [auto|].
        right. apply elem_of_cons. auto.
Qed.

Lemma update_field_NoDup k x fields :
  NoDup (List.map fst fields) -> NoDup (List.map fst (update_field k x fields)).
Proof.
  induction fields as [|[k0 v0] fields IH]; simpl; intros Hnd.
  - apply NoDup_singleton.
  - apply NoDup_cons in Hnd as [Hfresh Hnd].
    destruct (String.eqb_spec k k0) as [->|Hne]; simpl.
    + apply NoDup_cons. auto.
    + apply NoDup_cons. split; [|auto].
      intros Hin. destruct (update_field_keys k x fields k0 Hin) as [->|Hin'];
        [apply Hne; reflexivity | apply Hfresh, Hin'].
Qed.

Lemma update_field_json k x fields :
  Json.is_json x = true ->
  forallb (fun kv => Json.is_json (snd kv)) fields = true ->
  forallb (fun kv => Json.is_json (snd kv)) (update_field k x fields) = true.
Proof.
  intros Hx. induction fields as [|[k0 v0] fields IH]; simpl; intros Hall.
  - rewrite Hx. reflexivity.
  - apply andb_true_iff in Hall as [Hv0 Hrest].
    destruct (String.eqb k k0); simpl.
    + rewrite Hx, Hrest. reflexivity.
    + rewrite Hv0, IH by assumption. reflexivity.
Qed.

(** Stamping a JSON object gives a JSON object. *)
Lemma stamped_json userId fields :
  Json.is_json (VObj fields) = true -> Json.is_json (stamped userId fields) = true.
Proof.
  unfold stamped. simpl. intros H. apply andb_true_iff in H as [Hall Hnd].
  apply bool_decide_eq_true in Hnd.
  apply andb_true_iff. split.
  - apply update_field_json; [reflexivity|assumption].
  - apply bool_decide_eq_true, update_field_NoDup, Hnd.
Qed.

(** What [saveUserProfiles] writes is the text of the mapping it is given,
    and [loadUserProfiles] reads that same file. *)
Lemma saveUserProfiles_file profiles s :
  saveUserProfiles stringify profiles s
  = (Ok tt,
     set_environment (add_logger "messenger: saved user profiles to disk")
       (set_environment (set_file (stringify (to_json <$> profiles))) s)).
Proof. reflexivity. Qed.

(** A mapping of JSON profiles is written as a mapping of JSON values, and
    what is read of that text is the mapping again. *)
Lemma json_profiles_to_json (m : gmap string profile) :
  json_profiles m -> Json.json_map (to_json <$> m).
Proof.
  intros Hm. apply map_Forall_fmap. intros k p Hk. specialize (Hm k p Hk).
  destruct p; [exact Hm | contradiction].
Qed.

Lemma json_profiles_read_back (m : gmap string profile) :
  json_profiles m -> Plain <$> (to_json <$> m) = m.
Proof.
  intros Hm. apply map_eq. intros k. rewrite !lookup_fmap.
  destruct (m !! k) as [p|] eqn:Hk; [|reflexivity]. simpl.
  specialize (Hm k p Hk). destruct p; [reflexivity | contradiction].
Qed.

Hypothesis codec_reads_back :
  forall m, Json.json_map m -> parse (stringify m) = Some m.


End ProfileCache.


Lemma second_call_is_memoized_witness :
  exists p1 s1,
    Users.getOrFetchUserProfile Json.stringify bot "1001"
      (empty_cache (answering (VObj ann))) = (Ok p1, s1)
    /\ Users.userProfiles s1
       = <["1001" := Users.Plain (stamped "1001" ann)]>
           (Users.userProfiles (empty_cache (answering (VObj ann))))
    /\ http_calls s1
       = http_calls (empty_cache (answering (VObj ann)))
         ++ [Http (profile_request bot "1001")]
    /\ forall s2,
         Users.userProfiles s2 = Users.userProfiles s1 ->
         Users.getOrFetchUserProfile Json.stringify bot "1001" s2
         = (Ok (Fulfilled (Users.Own (Users.Plain (stamped "1001" ann)))), s2).
Proof.
  apply (second_call_is_memoized Json.stringify bot "1001" ann
           (empty_cache (answering (VObj ann)))).
  - reflexivity.
  - reflexivity.
Defined.

(* ===================================================================== *)
(** * Further properties of the composer *)
(* ===================================================================== *)

Section Labels.

Lemma replace_runs_flag in_run str :
  replace_runs "" in_run str = replace_runs "" false str.
Proof.
  destruct str as [|c rest]; [reflexivity|]. simpl.
  destruct (is_alnum c); [reflexivity|]. destruct in_run; reflexivity.
Qed.

Lemma replace_runs_append s t :
  replace_runs "" false (s +:+ t)
  = replace_runs "" false s +:+ replace_runs "" false t.
Proof.
  induction s as [|c s IH]; [reflexivity|].
  rewrite append_cons. simpl replace_runs. destruct (is_alnum c).
  - rewrite IH, append_cons. reflexivity.
  - rewrite !append_empty_l, !(replace_runs_flag true), IH. reflexivity.
Qed.

Lemma toUpperCase_append s t : toUpperCase (s +:+ t) = toUpperCase s +:+ toUpperCase t.
Proof.
  induction s as [|c s IH]; [reflexivity|].
  rewrite append_cons. simpl. rewrite IH, append_cons. reflexivity.
Qed.

Lemma toUpperCase_length s : String.length (toUpperCase s) = String.length s.
Proof. induction s as [|c s IH]; simpl; [reflexivity|]. rewrite IH. reflexivity. Qed.

Lemma replace_runs_length in_run s :
  String.length (replace_runs "" in_run s) <= String.length s.
Proof.
  revert in_run. induction s as [|c s IH]; intros in_run; simpl; [lia|].
  destruct (is_alnum c).
  - simpl. specialize (IH false). lia.
  - destruct in_run; rewrite append_empty_l; specialize (IH true); lia.
Qed.

(** X1. A normalized label holds only the characters [A-Z0-9] and is never
    longer than the label it comes from. *)
Theorem normalizeString_alphabet_and_length (s : string) :
  all_chars is_upper_alnum (normalizeString s) = true
  /\ String.length (normalizeString s) <= String.length s.
Proof.
  split; [apply normalizeString_upper_alnum|].
  unfold normalizeString. rewrite toUpperCase_length. apply replace_runs_length.
Qed.

(** X2. Normalization goes through concatenation: the normal form of [s]
    followed by [t] is the normal form of [s] followed by that of [t]. *)
Theorem normalizeString_append (s t : string) :
  normalizeString (s +:+ t) = normalizeString s +:+ normalizeString t.
Proof.
  unfold normalizeString. rewrite replace_runs_append. apply toUpperCase_append.
Qed.

Lemma toUpperCase_empty s : toUpperCase s = EmptyString -> s = EmptyString.
Proof. destruct s; [reflexivity|discriminate]. Qed.

(** X3. The normal form is empty exactly for the labels without a letter or
    digit: all of them share the bare prefix as payload. *)
Theorem normalizeString_empty_iff (s : string) :
  normalizeString s = EmptyString
  <-> all_chars (fun c => negb (is_alnum c)) s = true.
Proof.
  unfold normalizeString. split.
  - intros H. apply toUpperCase_empty in H. revert H.
    induction s as [|c s IH]; [reflexivity|]. simpl.
    destruct (is_alnum c); [discriminate|].
    rewrite append_empty_l, replace_runs_flag. exact IH.
  - induction s as [|c s IH]; [reflexivity|]. simpl.
    destruct (is_alnum c); [discriminate|]. simpl. intros H.
    rewrite append_empty_l, replace_runs_flag. apply IH, H.
Qed.

End Labels.

Section Formatting.

Lemma format_button_again b :
  is_string b "" = false -> format_button (format_button b) = format_button b.
Proof.
  intros Hb. destruct b as [| |b|x|s|xs|fields]; try reflexivity.
  - destruct b; reflexivity.
  - destruct x as [n|]; [|reflexivity]. simpl. destruct (n =? 0)%Z; reflexivity.
  - simpl in Hb. simpl. rewrite Hb. reflexivity.
  - simpl. destruct (truthy (assoc "title" fields)) eqn:Ht; simpl; [rewrite Ht|];
      reflexivity.
Qed.

Lemma map_format_button_again xs :
  no_empty_label xs = true ->
  List.map format_button (List.map format_button xs) = List.map format_button xs.
Proof.
  induction xs as [|x xs IH]; simpl; intros H; [reflexivity|].
  apply andb_true_iff in H as [Hx Hxs]. apply negb_true_iff in Hx.
  rewrite format_button_again, IH by assumption. reflexivity.
Qed.

(** X5. Formatting buttons twice is formatting them once, as long as no
    label is the empty string (whose button has no title to be kept). *)
Theorem formatButtons_idempotent (xs ys : list value) :
  no_empty_label xs = true ->
  _formatButtons (VArr xs) = Ok (VArr ys) ->
  _formatButtons (VArr ys) = Ok (VArr ys).
Proof.
  intros Hxs Hys. injection Hys as Hys. subst ys.
  change (Ok (VArr (List.map format_button (List.map format_button xs)))
          = Ok (VArr (List.map format_button xs))).
  rewrite map_format_button_again by assumption. reflexivity.
Qed.

Lemma formatButtons_idempotent_witness :
  _formatButtons (VArr (List.map format_button [VStr "Yes"; VObj [("title", VStr "No")]; VNull]))
  = Ok (VArr (List.map format_button [VStr "Yes"; VObj [("title", VStr "No")]; VNull])).
Proof.
  apply (formatButtons_idempotent [VStr "Yes"; VObj [("title", VStr "No")]; VNull]);
    reflexivity.
Defined.

Lemma or_else_again a d : or_else (or_else a d) d = or_else a d.
Proof. unfold or_else. destruct (truthy a) eqn:Ha; [rewrite Ha|destruct (truthy d)]; reflexivity. Qed.

Lemma or_else_text_truthy a : truthy (or_else a (VStr "text")) = true.
Proof. unfold or_else. destruct (truthy a) eqn:Ha; [exact Ha|reflexivity]. Qed.

Lemma format_quick_reply_again r y :
  is_string r "" = false ->
  format_quick_reply r = Ok y -> format_quick_reply y = Ok y.
Proof.
  intros Hr Hy.
  assert (Hobj : forall ct title payload,
             truthy title = true -> truthy payload = true ->
             format_quick_reply
               (VObj [("content_type", or_else ct (VStr "text")); ("title", title);
                      ("payload", payload)])
             = Ok (VObj [("content_type", or_else ct (VStr "text")); ("title", title);
                         ("payload", payload)])).
  { intros ct title payload Ht Hp. simpl. rewrite Ht, Hp, or_else_again. reflexivity. }
  assert (Hgen : forall v,
             is_a_string v = false ->
             format_quick_reply v = Ok y -> format_quick_reply y = Ok y).
  { intros v Hv Hrun.
    assert (Hform : format_quick_reply v
                    = if truthy v && truthy (prop v "title") then
                        if truthy (prop v "payload") then
                          Ok (VObj [("content_type",
                                     or_else (prop v "content_type") (VStr "text"));
                                    ("title", prop v "title");
                                    ("payload", prop v "payload")])
                        else
                          match normalize_value (prop v "title") with
                          | Ok n =>
                              Ok (VObj [("content_type",
                                         or_else (prop v "content_type") (VStr "text"));
                                        ("title", prop v "title");
                                        ("payload", VStr ("BOOTBOT_QR_" +:+ n))])
                          | Throw e => Throw e
                          end
                      else Ok (VObj []))
      by (destruct v; first [discriminate Hv | reflexivity]).
    rewrite Hform in Hrun. clear Hform.
    destruct (truthy v && truthy (prop v "title")) eqn:Htitle.
    - apply andb_true_iff in Htitle as [_ Htitle].
      destruct (truthy (prop v "payload")) eqn:Hpayload.
      + injection Hrun as <-. apply Hobj; assumption.
      + destruct (normalize_value (prop v "title")) as [n|e]; [|discriminate Hrun].
        injection Hrun as <-. apply Hobj; [assumption|reflexivity].
    - injection Hrun as <-. reflexivity. }
  destruct r as [| |b|x|s|xs|fields]; try (refine (Hgen _ _ Hy); reflexivity).
  simpl in Hr. simpl in Hy. injection Hy as <-.
  apply (Hobj (VStr "text") (VStr s) (VStr ("BOOTBOT_QR_" +:+ normalizeString s))).
  - simpl. rewrite Hr. reflexivity.
  - reflexivity.
Qed.

Lemma map_result_again xs : forall ys,
  no_empty_label xs = true ->
  map_result format_quick_reply xs = Ok ys ->
  map_result format_quick_reply ys = Ok ys.
Proof.
  induction xs as [|x xs IH]; simpl; intros ys Hxs Hrun.
  - injection Hrun as <-. reflexivity.
  - apply andb_true_iff in Hxs as [Hx Hxs]. apply negb_true_iff in Hx.
    destruct (format_quick_reply x) as [y|e] eqn:Hy; [|discriminate Hrun].
    destruct (map_result format_quick_reply xs) as [ys'|e] eqn:Hys; [|discriminate Hrun].
    injection Hrun as <-. simpl.
    rewrite (format_quick_reply_again x y Hx Hy), (IH ys' Hxs eq_refl). reflexivity.
Qed.

(** X6. Formatting quick replies twice is formatting them once: what a
    successful call returns is returned unchanged by a second call, as long
    as no label is the empty string. *)
Theorem formatQuickReplies_idempotent (xs ys : list value) :
  no_empty_label xs = true ->
  _formatQuickReplies (VArr xs) = Ok (VArr ys) ->
  _formatQuickReplies (VArr ys) = Ok (VArr ys).
Proof.
  intros Hxs Hrun. unfold _formatQuickReplies, js_map_result in *. simpl truthy in *.
  cbv iota in *.
  destruct (map_result format_quick_reply xs) as [ys'|e] eqn:Hys; [|discriminate Hrun].
  injection Hrun as <-. rewrite (map_result_again xs ys' Hxs Hys). reflexivity.
Qed.

Lemma formatQuickReplies_idempotent_witness :
  _formatQuickReplies
    (VArr [VObj [("content_type", VStr "text"); ("title", VStr "Yes");
                 ("payload", VStr "BOOTBOT_QR_YES")];
           VObj [("content_type", VStr "location"); ("title", VStr "Where");
                 ("payload", VStr "BOOTBOT_QR_WHERE")]])
  = Ok (VArr [VObj [("content_type", VStr "text"); ("title", VStr "Yes");
                    ("payload", VStr "BOOTBOT_QR_YES")];
              VObj [("content_type", VStr "location"); ("title", VStr "Where");
                    ("payload", VStr "BOOTBOT_QR_WHERE")]]).
Proof.
  apply (formatQuickReplies_idempotent
           [VStr "Yes"; VObj [("title", VStr "Where"); ("content_type", VStr "location")]]);
    reflexivity.
Defined.

Lemma format_quick_reply_formatted r y :
  format_quick_reply r = Ok y -> is_formatted_reply y = true.
Proof.
  assert (Hgen : forall v,
             is_a_string v = false ->
             format_quick_reply v = Ok y -> is_formatted_reply y = true).
  { intros v Hv Hrun.
    assert (Hform : format_quick_reply v
                    = if truthy v && truthy (prop v "title") then
                        if truthy (prop v "payload") then
                          Ok (VObj [("content_type",
                                     or_else (prop v "content_type") (VStr "text"));
                                    ("title", prop v "title");
                                    ("payload", prop v "payload")])
                        else
                          match normalize_value (prop v "title") with
                          | Ok n =>
                              Ok (VObj [("content_type",
                                         or_else (prop v "content_type") (VStr "text"));
                                        ("title", prop v "title");
                                        ("payload", VStr ("BOOTBOT_QR_" +:+ n))])
                          | Throw e => Throw e
                          end
                      else Ok (VObj []))
      by (destruct v; first [discriminate Hv | reflexivity]).
    rewrite Hform in Hrun. clear Hform.
    destruct (truthy v && truthy (prop v "title")).
    - destruct (truthy (prop v "payload")) eqn:Hpayload.
      + injection Hrun as <-. simpl. rewrite or_else_text_truthy, Hpayload. reflexivity.
      + destruct (normalize_value (prop v "title")) as [n|e]; [|discriminate Hrun].
        injection Hrun as <-. simpl. rewrite or_else_text_truthy. reflexivity.
    - injection Hrun as <-. reflexivity. }
  intros Hrun.
  destruct r as [| |b|x|s|xs|fields]; try (refine (Hgen _ _ Hrun); reflexivity).
  simpl in Hrun. injection Hrun as <-. reflexivity.
Qed.

Lemma map_result_formatted xs : forall ys,
  map_result format_quick_reply xs = Ok ys ->
  forallb is_formatted_reply ys = true /\ length ys = length xs.
Proof.
  induction xs as [|x xs IH]; simpl; intros ys Hrun.
  - injection Hrun as <-. auto.
  - destruct (format_quick_reply x) as [y|e] eqn:Hy; [|discriminate Hrun].
    destruct (map_result format_quick_reply xs) as [ys'|e] eqn:Hys; [|discriminate Hrun].
    injection Hrun as <-. destruct (IH ys' eq_refl) as [Hall Hlen]. simpl.
    rewrite (format_quick_reply_formatted x y Hy), Hall, Hlen. auto.
Qed.

(** X7. What [_formatQuickReplies] returns for an array has one entry per
    element, and every entry is the empty object or a reply made of a truthy
    content type, a title and a truthy payload: a payload is never left
    out. *)
Theorem formatQuickReplies_formatted (xs ys : list value) :
  _formatQuickReplies (VArr xs) = Ok (VArr ys) ->
  forallb is_formatted_reply ys = true /\ length ys = length xs.
Proof.
  intros Hrun. unfold _formatQuickReplies, js_map_result in Hrun. simpl truthy in Hrun.
  cbv iota in Hrun.
  destruct (map_result format_quick_reply xs) as [ys'|e] eqn:Hys; [|discriminate Hrun].
  injection Hrun as <-. apply (map_result_formatted xs ys' Hys).
Qed.

Lemma formatQuickReplies_formatted_witness :
  forallb is_formatted_reply
    [VObj [("content_type", VStr "text"); ("title", VStr "Yes");
           ("payload", VStr "BOOTBOT_QR_YES")];
     VObj []] = true
  /\ length [VObj [("content_type", VStr "text"); ("title", VStr "Yes");
                   ("payload", VStr "BOOTBOT_QR_YES")];
             VObj []]
     = length [VStr "Yes"; VNull].
Proof.
  apply (formatQuickReplies_formatted [VStr "Yes"; VNull]). reflexivity.
Defined.

Lemma format_quick_reply_throws reply :
  untitled_payload reply = true ->
  format_quick_reply reply = Throw (TypeError "str.replace is not a function").
Proof.
  unfold untitled_payload. intros H.
  apply andb_true_iff in H as [H Htitle]. apply andb_true_iff in H as [H Hpayload].
  apply andb_true_iff in H as [H Htruthy_title]. apply andb_true_iff in H as [Hstr Htruthy].
  apply negb_true_iff in Hstr, Hpayload, Htitle.
  assert (Hform : format_quick_reply reply
                  = match normalize_value (prop reply "title") with
                    | Ok n =>
                        Ok (VObj [("content_type",
                                   or_else (prop reply "content_type") (VStr "text"));
                                  ("title", prop reply "title");
                                  ("payload", VStr ("BOOTBOT_QR_" +:+ n))])
                    | Throw e => Throw e
                    end).
  { destruct reply; simpl in *; try discriminate.
    rewrite Htruthy_title, Hpayload. reflexivity. }
  rewrite Hform. destruct (prop reply "title"); first [discriminate Htitle | reflexivity].
Qed.

Lemma format_quick_reply_object v :
  is_a_string v = false ->
  format_quick_reply v
  = if truthy v && truthy (prop v "title") then
      if truthy (prop v "payload") then
        Ok (VObj [("content_type", or_else (prop v "content_type") (VStr "text"));
                  ("title", prop v "title");
                  ("payload", prop v "payload")])
      else
        match normalize_value (prop v "title") with
        | Ok n =>
            Ok (VObj [("content_type", or_else (prop v "content_type") (VStr "text"));
                      ("title", prop v "title");
                      ("payload", VStr ("BOOTBOT_QR_" +:+ n))])
        | Throw e => Throw e
        end
    else Ok (VObj []).
Proof. intros Hv. destruct v; first [discriminate Hv | reflexivity]. Qed.

Lemma format_quick_reply_TypeError r e :
  format_quick_reply r = Throw e -> exists msg, e = TypeError msg.
Proof.
  intros Hrun. destruct (is_a_string r) eqn:Hr.
  - destruct r; try discriminate Hr. discriminate Hrun.
  - rewrite (format_quick_reply_object r Hr) in Hrun.
    destruct (truthy r && truthy (prop r "title")); [|discriminate Hrun].
    destruct (truthy (prop r "payload")); [discriminate Hrun|].
    destruct (prop r "title"); simpl in Hrun;
      first [discriminate Hrun | injection Hrun as <-; eauto].
Qed.

(** X8. One titled reply whose title is not a string and which brings no
    payload makes the whole call throw a [TypeError]: no list is returned,
    whatever the other replies are. *)
Theorem formatQuickReplies_throws (xs : list value) (reply : value) :
  In reply xs ->
  untitled_payload reply = true ->
  exists msg, _formatQuickReplies (VArr xs) = Throw (TypeError msg).
Proof.
  intros Hin Hreply. unfold _formatQuickReplies, js_map_result. simpl truthy. cbv iota.
  assert (Hmap : exists msg, map_result format_quick_reply xs = Throw (TypeError msg)).
  { induction xs as [|x xs IH]; [contradiction|]. simpl.
    destruct Hin as [->|Hin].
    - rewrite (format_quick_reply_throws reply Hreply). eauto.
    - destruct (format_quick_reply x) as [y|e] eqn:Hx.
      + destruct (IH Hin) as (msg & ->). eauto.
      + destruct (format_quick_reply_TypeError x e Hx) as (msg & ->). eauto. }
  destruct Hmap as (msg & ->). eauto.
Qed.

Lemma formatQuickReplies_throws_witness :
  exists msg,
    _formatQuickReplies (VArr [VStr "Yes"; VObj [("title", VNumber (Num 5))]])
    = Throw (TypeError msg).
Proof.
  apply (formatQuickReplies_throws [VStr "Yes"; VObj [("title", VNumber (Num 5))]]
           (VObj [("title", VNumber (Num 5))])).
  - right. left. reflexivity.
  - reflexivity.
Defined.

End Formatting.

Section Composer.

(** A send without options is one request. *)
Lemma sendMessage_plain this recipientId message w :
  sendMessage this recipientId message None w
  = (Ok (Fulfilled (reply_of (network w (count_http (effects w))))),
     after_request "Error sending message: "
       (message_request this recipientId message) w).
Proof.
  unfold sendMessage. unfold bind. rewrite sendRequest_messages. reflexivity.
Qed.

Lemma say_object this recipientId message options :
  is_a_string message = false ->
  say this recipientId message options
  = if truthy message && truthy (prop message "text") then
      quickReplies <- lift (has_items (prop message "quickReplies")) ;;
      if quickReplies then
        sent <- sendTextMessage this recipientId (prop message "text")
                  (prop message "quickReplies") options ;;
        ret (Some sent)
      else
        buttons <- lift (has_items (prop message "buttons")) ;;
        if buttons then
          sent <- sendButtonTemplate this recipientId (prop message "text")
                    (prop message "buttons") options ;;
          ret (Some sent)
        else (console_error "Invalid format for .say() message." ;; ret None)
    else if truthy message && truthy (prop message "attachment") then
      sent <- sendAttachment this recipientId (prop message "attachment")
                (prop message "url") (prop message "quickReplies") options ;;
      ret (Some sent)
    else (console_error "Invalid format for .say() message." ;; ret None).
Proof. intros H. destruct message; first [discriminate H | reflexivity]. Qed.

(** X9. [say] with a string sends one request whose message is the text
    alone, without a [quick_replies] property, and returns the promise of
    that request, fulfilled whatever the remote end does. *)
Theorem say_string_sends_text this recipientId (text : string) w :
  say this recipientId (VStr text) None w
  = (Ok (Some (Fulfilled (reply_of (network w (count_http (effects w)))))),
     after_request "Error sending message: "
       (message_request this recipientId (VObj [("text", VStr text)])) w).
Proof.
  unfold say, sendTextMessage. unfold bind at 1. unfold bind at 1.
  change (lift (_formatQuickReplies (VArr [])) w) with (@Ok value (VArr []), w).
  cbv iota. unfold bind at 1.
  change (lift (has_items (VArr [])) w) with (@Ok bool false, w).
  cbv iota. change (with_quick_replies [("text", VStr text)] false (VArr []))
    with (VObj [("text", VStr text)]).
  rewrite sendMessage_plain. reflexivity.
Qed.

(** X10. [say] with an object that has a text but neither quick replies nor
    buttons sends nothing: it logs that the format is invalid and returns
    no promise. *)
Theorem say_text_alone_is_invalid this recipientId message options w :
  is_a_string message = false ->
  truthy (prop message "text") = true ->
  has_items (prop message "quickReplies") = Ok false ->
  has_items (prop message "buttons") = Ok false ->
  say this recipientId message options w
  = (Ok None, add_console "Invalid format for .say() message." w).
Proof.
  intros Hobj Htext Hq Hb. rewrite say_object by assumption.
  assert (Ht : truthy message = true).
  { destruct message; simpl in Htext; first [discriminate Htext | reflexivity]. }
  rewrite Ht, Htext. cbn [andb]. cbv iota.
  unfold bind at 1, lift at 1. rewrite Hq.
  unfold bind at 1, lift at 1. rewrite Hb. reflexivity.
Qed.

Lemma say_text_alone_is_invalid_witness :
  say bot (VStr "1001") (VObj [("text", VStr "hi")]) None empty_world
  = (Ok None, add_console "Invalid format for .say() message." empty_world).
Proof.
  apply (say_text_alone_is_invalid bot (VStr "1001") (VObj [("text", VStr "hi")]) None
           empty_world); reflexivity.
Defined.

Lemma truthy_of_prop message k : truthy (prop message k) = true -> truthy message = true.
Proof. destruct message; simpl; intros H; first [discriminate H | reflexivity]. Qed.

(** X11. [say] with a text and a non-empty array of quick replies sends one
    request whose message is the text with the formatted quick replies;
    buttons given beside them are ignored. *)
Theorem say_quick_replies_first this recipientId message replies formatted w :
  is_a_string message = false ->
  truthy (prop message "text") = true ->
  prop message "quickReplies" = VArr replies ->
  replies <> [] ->
  _formatQuickReplies (VArr replies) = Ok formatted ->
  say this recipientId message None w
  = (Ok (Some (Fulfilled (reply_of (network w (count_http (effects w)))))),
     after_request "Error sending message: "
       (message_request this recipientId
          (VObj [("text", prop message "text"); ("quick_replies", formatted)])) w).
Proof.
  intros Hobj Htext Hq Hne Hformat. rewrite say_object by assumption.
  rewrite (truthy_of_prop _ _ Htext), Htext, Hq.
  assert (Hitems : has_items (VArr replies) = Ok true).
  { destruct replies; [contradiction|reflexivity]. }
  cbn [andb]. cbv iota. unfold bind at 1, lift at 1. rewrite Hitems. cbv iota.
  unfold sendTextMessage. unfold bind at 1. unfold bind at 1. unfold lift at 1.
  rewrite Hformat.
  assert (Hformatted : has_items formatted = Ok true).
  { unfold _formatQuickReplies, js_map_result in Hformat. simpl truthy in Hformat.
    cbv iota in Hformat.
    destruct (map_result format_quick_reply replies) as [ys|e] eqn:Hys;
      [|discriminate Hformat].
    injection Hformat as <-.
    destruct (map_result_formatted replies ys Hys) as [_ Hlen].
    destruct ys; [destruct replies; [contradiction|discriminate Hlen]|reflexivity]. }
  cbv beta iota. unfold bind at 1, lift at 1. rewrite Hformatted.
  unfold with_quick_replies. cbn [app]. cbv beta iota.
  rewrite sendMessage_plain. reflexivity.
Qed.

Lemma say_quick_replies_first_witness :
  say bot (VStr "1001")
    (VObj [("text", VStr "Sure?"); ("quickReplies", VArr [VStr "Yes"]);
           ("buttons", VArr [VStr "No"])]) None empty_world
  = (Ok (Some (Fulfilled (reply_of (network empty_world
                                      (count_http (effects empty_world)))))),
     after_request "Error sending message: "
       (message_request bot (VStr "1001")
          (VObj [("text",
                  prop (VObj [("text", VStr "Sure?"); ("quickReplies", VArr [VStr "Yes"]);
                              ("buttons", VArr [VStr "No"])]) "text");
                 ("quick_replies",
                  VArr [VObj [("content_type", VStr "text"); ("title", VStr "Yes");
                              ("payload", VStr "BOOTBOT_QR_YES")]])]))
       empty_world).
Proof.
  apply (say_quick_replies_first bot (VStr "1001")
           (VObj [("text", VStr "Sure?"); ("quickReplies", VArr [VStr "Yes"]);
                  ("buttons", VArr [VStr "No"])])
           [VStr "Yes"]); first [reflexivity | discriminate].
Defined.

(** X12. [say] with a text, no quick replies and a non-empty array of
    buttons sends one request whose message is a button template: the text
    and one formatted button per element. *)
Theorem say_buttons_template this recipientId message buttons w :
  is_a_string message = false ->
  truthy (prop message "text") = true ->
  has_items (prop message "quickReplies") = Ok false ->
  prop message "buttons" = VArr buttons ->
  buttons <> [] ->
  say this recipientId message None w
  = (Ok (Some (Fulfilled (reply_of (network w (count_http (effects w)))))),
     after_request "Error sending message: "
       (message_request this recipientId
          (VObj [("attachment",
                  VObj [("type", VStr "template");
                        ("payload",
                         VObj [("template_type", VStr "button");
                               ("text", prop message "text");
                               ("buttons", VArr (List.map format_button buttons))])])]))
       w).
Proof.
  intros Hobj Htext Hq Hb Hne. rewrite say_object by assumption.
  rewrite (truthy_of_prop _ _ Htext), Htext, Hb.
  assert (Hitems : has_items (VArr buttons) = Ok true).
  { destruct buttons; [contradiction|reflexivity]. }
  cbn [andb]. cbv iota. unfold bind at 1, lift at 1. rewrite Hq. cbv iota.
  unfold bind at 1, lift at 1. rewrite Hitems. cbv iota.
  unfold sendButtonTemplate, sendTemplate. unfold bind at 1. unfold bind at 1.
  change (lift (_formatButtons (VArr buttons)) w)
    with (@Ok value (VArr (List.map format_button buttons)), w).
  cbv iota. rewrite sendMessage_plain. reflexivity.
Qed.

Lemma say_buttons_template_witness :
  say bot (VStr "1001") (VObj [("text", VStr "Pick"); ("buttons", VArr [VStr "Yes"])])
    None empty_world
  = (Ok (Some (Fulfilled (reply_of (network empty_world
                                      (count_http (effects empty_world)))))),
     after_request "Error sending message: "
       (message_request bot (VStr "1001")
          (VObj [("attachment",
                  VObj [("type", VStr "template");
                        ("payload",
                         VObj [("template_type", VStr "button");
                               ("text",
                                prop (VObj [("text", VStr "Pick");
                                            ("buttons", VArr [VStr "Yes"])]) "text");
                               ("buttons", VArr (List.map format_button [VStr "Yes"]))])])]))
       empty_world).
Proof.
  apply (say_buttons_template bot (VStr "1001")
           (VObj [("text", VStr "Pick"); ("buttons", VArr [VStr "Yes"])]) [VStr "Yes"]);
    first [reflexivity | discriminate].
Defined.

(** X13. [say] with a text and quick replies given as a non-empty string,
    not as an array, throws a [TypeError] before anything is sent or
    logged. *)
Theorem say_string_quick_replies_throws this recipientId message (replies : string)
    options w :
  is_a_string message = false ->
  truthy (prop message "text") = true ->
  prop message "quickReplies" = VStr replies ->
  replies <> EmptyString ->
  say this recipientId message options w
  = (Throw (TypeError "map is not a function"), w).
Proof.
  intros Hobj Htext Hq Hne. rewrite say_object by assumption.
  rewrite (truthy_of_prop _ _ Htext), Htext, Hq.
  assert (Htruthy : truthy (VStr replies) = true).
  { simpl. destruct (String.eqb_spec replies ""); [contradiction|reflexivity]. }
  assert (Hitems : has_items (VStr replies) = Ok true).
  { unfold has_items. rewrite Htruthy. destruct replies; [contradiction|reflexivity]. }
  cbn [andb]. cbv iota. unfold bind at 1, lift at 1. rewrite Hitems. cbv iota.
  unfold sendTextMessage, bind, lift, _formatQuickReplies. rewrite Htruthy. reflexivity.
Qed.

Lemma say_string_quick_replies_throws_witness :
  say bot (VStr "1001") (VObj [("text", VStr "Sure?"); ("quickReplies", VStr "Yes")])
    None empty_world
  = (Throw (TypeError "map is not a function"), empty_world).
Proof.
  apply (say_string_quick_replies_throws bot (VStr "1001")
           (VObj [("text", VStr "Sure?"); ("quickReplies", VStr "Yes")]) "Yes");
    first [reflexivity | discriminate].
Defined.

(** A length that is a numeric string counts: ['2' > 0] holds, so the quick
    replies branch is taken, where an object has no [map]. *)
Example say_length_as_string :
  has_items (VObj [("length", VStr "2")]) = Ok true
  /\ say bot (VStr "1001")
       (VObj [("text", VStr "hi"); ("quickReplies", VObj [("length", VStr "2")])])
       None empty_world
     = (Throw (TypeError "map is not a function"), empty_world).
Proof. split; reflexivity. Qed.

End Composer.

Section Sender.

Lemma listeners_after_request intro r w : listeners (after_request intro r w) = listeners w.
Proof.
  unfold after_request, log_failure.
  destruct (failure_of (network w (count_http (effects w)))); reflexivity.
Qed.

Lemma sendRequest_message this recipientId message w :
  sendRequest this
    (VObj [("recipient", VObj [("id", recipientId)]); ("message", message)]) None None w
  = (Ok (Fulfilled (reply_of (network w (count_http (effects w))))),
     after_request "Error sending message: "
       (message_request this recipientId message) w).
Proof. rewrite sendRequest_messages. reflexivity. Qed.

(** A send without a typing indicator, as the registry of this file runs
    it. *)
Lemma sendMessage_callbacks_run this recipientId message o w :
  truthy (typing o) = false ->
  exists w',
    sendMessage this recipientId message (Some o) w
    = (Ok (Fulfilled (reply_of (network w (count_http (effects w))))), w')
    /\ effects w' = effects w ++ [Http (message_request this recipientId message)]
    /\ listeners w' = listeners w ++ callbacks o
    /\ invoked w' = invoked w.
Proof.
  intros Htyping. unfold sendMessage. rewrite Htyping.
  unfold bind at 1. rewrite sendRequest_message. unfold then_, callbacks.
  assert (Hinvoked : invoked (after_request "Error sending message: "
                                (message_request this recipientId message) w)
                     = invoked w).
  { unfold after_request, log_failure. destruct (failure_of _); reflexivity. }
  destruct (onDelivery o) as [fd|], (onRead o) as [fr|];
    unfold once, bind, modify, ret; eexists; (split; [reflexivity|]);
    cbn [effects listeners invoked set_listeners];
    rewrite effects_after_request, listeners_after_request, Hinvoked, ?app_nil_r,
      <- ?app_assoc;
    repeat split.
Qed.

(** X14. A send without a typing indicator makes one request.  While no
    listener of 'newListener' throws (the emitter calls those before it
    registers anything), its promise is fulfilled whatever the remote end
    does, and the [onDelivery] and [onRead] callbacks of the options are
    registered as one-shot listeners of 'delivery' and 'read', in this
    order, also when the request failed. *)
Theorem sendMessage_registers_callbacks this recipientId message o w :
  truthy (typing o) = false ->
  Forall never_throws (handlers_for "newListener" (listeners w)) ->
  exists w',
    sendMessage this recipientId message (Some o) w
    = (Ok (Fulfilled (reply_of (network w (count_http (effects w))))), w')
    /\ effects w' = effects w ++ [Http (message_request this recipientId message)]
    /\ listeners w' = listeners w ++ callbacks o.
Proof.
  intros Htyping _.
  destruct (sendMessage_callbacks_run this recipientId message o w Htyping)
    as (w' & Hrun & Heffects & Hlisteners & _).
  exists w'. auto.
Qed.

Lemma sendMessage_registers_callbacks_witness :
  exists w',
    sendMessage bot (VStr "1001") (VObj [("text", VStr "hi")])
      (Some {| typing := VUndefined; onDelivery := Some plain_listener; onRead := None |})
      empty_world
    = (Ok (Fulfilled (reply_of (network empty_world (count_http (effects empty_world))))),
       w')
    /\ effects w'
       = effects empty_world
         ++ [Http (message_request bot (VStr "1001") (VObj [("text", VStr "hi")]))]
    /\ listeners w'
       = listeners empty_world
         ++ callbacks {| typing := VUndefined; onDelivery := Some plain_listener;
                         onRead := None |}.
Proof.
  apply (sendMessage_registers_callbacks bot (VStr "1001") (VObj [("text", VStr "hi")])
           {| typing := VUndefined; onDelivery := Some plain_listener; onRead := None |}
           empty_world).
  - reflexivity.
  - constructor.
Defined.

Lemma same_registration_refl r : same_registration r r = true.
Proof.
  unfold same_registration.
  rewrite String.eqb_refl, Nat.eqb_refl. destruct (reg_once r); reflexivity.
Qed.

(** A registration made for a name nobody listened to is the first one
    [remove_first] finds. *)
Lemma remove_first_registered r rs later :
  handlers_for (reg_event r) rs = [] -> remove_first r (rs ++ r :: later) = rs ++ later.
Proof.
  induction rs as [|r' rest IH]; simpl; intros Hnone.
  - rewrite same_registration_refl. reflexivity.
  - unfold same_registration. rewrite String.eqb_sym.
    destruct (String.eqb (reg_event r') (reg_event r)); [discriminate Hnone|].
    simpl. f_equal. apply IH, Hnone.
Qed.

Lemma handlers_for_app type rs rs' :
  handlers_for type (rs ++ rs') = handlers_for type rs ++ handlers_for type rs'.
Proof. unfold handlers_for. rewrite List.filter_app. reflexivity. Qed.

(** An emission nobody listens to is logged and calls nobody. *)
Lemma _handleEvent_unheard type event data w :
  handlers_for type (listeners w) = [] ->
  _handleEvent type event data w
  = (Ok tt, add_emitted {| em_type := type; em_event := event; em_data := data |} w).
Proof.
  intros Hnone. unfold _handleEvent, emit, bind, modify, gets.
  cbn [listeners add_emitted]. rewrite Hnone. reflexivity.
Qed.

(** An emission with one listener. *)
Lemma _handleEvent_single type event data r w :
  handlers_for type (listeners w) = [r] ->
  _handleEvent type event data w
  = ((if l_throws (reg_listener r) event data
      then Throw (ListenerError (l_id (reg_listener r))) else Ok tt),
     add_invoked (l_id (reg_listener r))
       ((if reg_once r then set_listeners (remove_first r) else fun w0 => w0)
          (add_emitted {| em_type := type; em_event := event; em_data := data |} w))).
Proof.
  intros Hone. unfold _handleEvent, emit, bind, modify, gets.
  cbn [listeners add_emitted]. rewrite Hone.
  cbn [call_handlers]. unfold call_handler, when, bind, modify, throw, ret.
  destruct (reg_once r), (l_throws (reg_listener r) event data); reflexivity.
Qed.

(** The registrations a send makes for 'read' are none for 'delivery'. *)
Lemma handlers_for_delivery_read (r : option listener) :
  handlers_for "delivery"
    match r with Some g => [once_registration "read" g] | None => [] end = [].
Proof. destruct r; reflexivity. Qed.

(** X15. The [onDelivery] callback of a send runs once.  On an emitter
    where nobody listens to 'delivery', nor to 'newListener' and
    'removeListener' (the names the emitter itself emits when a listener
    comes and goes), a send without a typing indicator registers the
    callback; the first 'delivery' event then calls it, after it was
    unregistered, so also when it throws; later 'delivery' events call
    nobody. *)
Theorem onDelivery_runs_once this recipientId message o f event data w :
  truthy (typing o) = false ->
  onDelivery o = Some f ->
  handlers_for "delivery" (listeners w) = [] ->
  handlers_for "newListener" (listeners w) = [] ->
  handlers_for "removeListener" (listeners w) = [] ->
  exists p w1 w2,
    sendMessage this recipientId message (Some o) w = (Ok (Fulfilled p), w1)
    /\ _handleEvent "delivery" event data w1
       = ((if l_throws f event data then Throw (ListenerError (l_id f)) else Ok tt), w2)
    /\ invoked w2 = invoked w ++ [l_id f]
    /\ handlers_for "delivery" (listeners w2) = []
    /\ forall event' data',
         exists w3,
           _handleEvent "delivery" event' data' w2 = (Ok tt, w3)
           /\ invoked w3 = invoked w2.
Proof.
  intros Htyping Hcallback Hnone _ _.
  destruct (sendMessage_callbacks_run this recipientId message o w Htyping)
    as (w1 & Hrun & _ & Hlisteners & Hinvoked).
  unfold callbacks in Hlisteners. rewrite Hcallback in Hlisteners.
  set (later := match onRead o with
                | Some g => [once_registration "read" g]
                | None => []
                end) in Hlisteners.
  assert (Hone : handlers_for "delivery" (listeners w1) = [once_registration "delivery" f]).
  { rewrite Hlisteners, !handlers_for_app, Hnone. subst later.
    rewrite handlers_for_delivery_read. reflexivity. }
  assert (Hgone : remove_first (once_registration "delivery" f) (listeners w1)
                  = listeners w ++ later).
  { rewrite Hlisteners. apply (remove_first_registered (once_registration "delivery" f)).
    exact Hnone. }
  assert (Hafter : handlers_for "delivery" (listeners w ++ later) = []).
  { rewrite handlers_for_app, Hnone. subst later. apply handlers_for_delivery_read. }
  eexists _, w1, _. split; [exact Hrun|]. split.
  { apply (_handleEvent_single "delivery" event data _ w1 Hone). }
  cbn [once_registration reg_once reg_listener invoked listeners add_invoked set_listeners
       add_emitted].
  rewrite Hgone, Hinvoked. split; [reflexivity|]. split; [exact Hafter|].
  intros event' data'. eexists. split.
  - apply _handleEvent_unheard.
    cbn [listeners add_invoked set_listeners add_emitted]. rewrite Hgone. exact Hafter.
  - cbn [invoked add_invoked set_listeners add_emitted]. rewrite Hinvoked. reflexivity.
Qed.

Lemma onDelivery_runs_once_witness :
  exists p w1 w2,
    sendMessage bot (VStr "1001") (VObj [("text", VStr "hi")])
      (Some {| typing := VUndefined; onDelivery := Some failing_listener;
               onRead := Some plain_listener |}) empty_world
    = (Ok (Fulfilled p), w1)
    /\ _handleEvent "delivery" VNull VUndefined w1
       = ((if l_throws failing_listener VNull VUndefined
           then Throw (ListenerError (l_id failing_listener)) else Ok tt), w2)
    /\ invoked w2 = invoked empty_world ++ [l_id failing_listener]
    /\ handlers_for "delivery" (listeners w2) = []
    /\ forall event' data',
         exists w3,
           _handleEvent "delivery" event' data' w2 = (Ok tt, w3)
           /\ invoked w3 = invoked w2.
Proof.
  apply (onDelivery_runs_once bot (VStr "1001") (VObj [("text", VStr "hi")])
           {| typing := VUndefined; onDelivery := Some failing_listener;
              onRead := Some plain_listener |}
           failing_listener VNull VUndefined empty_world); reflexivity.
Defined.

(** With [typing] set to something truthy that is no number, the send is the
    one whose [typing] is the automatic timeout. *)
Lemma sendMessage_auto_timeout this recipientId message t d r n :
  truthy t = true -> is_a_number t = false -> n <> 0%Z ->
  (if truthy message && truthy (prop message "text")
   then length_times_10 (prop message "text") else Num 1000) = Num n ->
  sendMessage this recipientId message
    (Some {| typing := t; onDelivery := d; onRead := r |})
  = sendMessage this recipientId message
      (Some {| typing := VNumber (Num n); onDelivery := d; onRead := r |}).
Proof.
  intros Ht Hnum Hn Hauto. unfold sendMessage. cbn [typing onDelivery onRead].
  rewrite Ht, Hauto. cbn [truthy].
  destruct (Z.eqb_spec n 0) as [|_]; [contradiction|]. cbn [negb].
  destruct t; first [discriminate Hnum | reflexivity].
Qed.

Lemma sendMessage_typing_text_effects this recipientId message (text : string) t d r w :
  truthy t = true -> is_a_number t = false ->
  prop message "text" = VStr text -> text <> EmptyString ->
  exists json w',
    sendMessage this recipientId message
      (Some {| typing := t; onDelivery := d; onRead := r |}) w
    = (Ok (Fulfilled json), w')
    /\ effects w'
       = effects w
         ++ typing_calls this recipientId (Z.of_nat (String.length text) * 10)
         ++ [Http (message_request this recipientId message)].
Proof.
  intros Ht Hnum Htext Hne.
  assert (Hlen : (Z.of_nat (String.length text) * 10)%Z <> 0%Z).
  { destruct text; [contradiction|]. cbn [String.length]. lia. }
  assert (Hmsg : truthy message = true).
  { destruct message; simpl in Htext; first [discriminate Htext | reflexivity]. }
  assert (Htruthy : truthy (VStr text) = true).
  { simpl. destruct (String.eqb_spec text ""); [contradiction|reflexivity]. }
  rewrite (sendMessage_auto_timeout this recipientId message t d r
             (Z.of_nat (String.length text) * 10) Ht Hnum Hlen)
    by (rewrite Hmsg, Htext, Htruthy; reflexivity).
  destruct (sendMessage_typing_effects this recipientId message
              (Z.of_nat (String.length text) * 10) d r w Hlen)
    as (json & w' & Hrun & Heff & _).
  exists json, w'. split; [exact Hrun|]. exact Heff.
Qed.

Lemma sendMessage_typing_no_text_effects this recipientId message t d r w :
  truthy t = true -> is_a_number t = false ->
  truthy (prop message "text") = false ->
  exists json w',
    sendMessage this recipientId message
      (Some {| typing := t; onDelivery := d; onRead := r |}) w
    = (Ok (Fulfilled json), w')
    /\ effects w'
       = effects w
         ++ typing_calls this recipientId 1000
         ++ [Http (message_request this recipientId message)].
Proof.
  intros Ht Hnum Htext.
  rewrite (sendMessage_auto_timeout this recipientId message t d r 1000 Ht Hnum)
    by first [discriminate | rewrite Htext, andb_false_r; reflexivity].
  destruct (sendMessage_typing_effects this recipientId message 1000 d r w)
    as (json & w' & Hrun & Heff & _); [discriminate|].
  exists json, w'. split; [exact Hrun|]. exact Heff.
Qed.



End Sender.

Section ThreadSettings.

Lemma sendRequest_run this body endpoint method w :
  sendRequest this body endpoint method w
  = (Ok (Fulfilled (reply_of (network w (count_http (effects w))))),
     after_request "Error sending message: "
       {| rq_url := "https://graph.facebook.com/v2.7/me/" +:+ or_default endpoint "messages"
                    +:+ "?access_token=" +:+ accessToken this;
          rq_method := or_default method "POST";
          rq_body := body |} w).
Proof.
  unfold sendRequest, fetch, bind, gets, modify, after_request, log_failure. simpl.
  destruct (network w (count_http (effects w))) as [msg|[json|]]; reflexivity.
Qed.

Lemma sendThreadRequest_run this body method w :
  sendThreadRequest this body method w
  = (Ok (Fulfilled (reply_of (network w (count_http (effects w))))),
     after_request "Error sending message: "
       (thread_request this (or_default method "POST") body) w).
Proof. unfold sendThreadRequest. rewrite sendRequest_run. reflexivity. Qed.

(** X17. The calls that change the thread settings each send one request
    to the thread_settings endpoint and are fulfilled whatever the remote
    end does: the greeting text and the persistent menu (its buttons
    formatted) with POST, the two deletions with DELETE. *)
Theorem thread_settings_requests this text buttons w :
  setGreetingText this text w
  = (Ok (Fulfilled (reply_of (network w (count_http (effects w))))),
     after_request "Error sending message: "
       (thread_request this "POST"
          (VObj [("setting_type", VStr "greeting");
                 ("greeting", VObj [("text", text)])])) w)
  /\ setPersistentMenu this (VArr buttons) w
     = (Ok (Fulfilled (reply_of (network w (count_http (effects w))))),
        after_request "Error sending message: "
          (thread_request this "POST"
             (VObj [("setting_type", VStr "call_to_actions");
                    ("thread_state", VStr "existing_thread");
                    ("call_to_actions", VArr (List.map format_button buttons))])) w)
  /\ deleteGetStartedButton this w
     = (Ok (Fulfilled (reply_of (network w (count_http (effects w))))),
        after_request "Error sending message: "
          (thread_request this "DELETE"
             (VObj [("setting_type", VStr "call_to_actions");
                    ("thread_state", VStr "new_thread")])) w)
  /\ deletePersistentMenu this w
     = (Ok (Fulfilled (reply_of (network w (count_http (effects w))))),
        after_request "Error sending message: "
          (thread_request this "DELETE"
             (VObj [("setting_type", VStr "call_to_actions");
                    ("thread_state", VStr "existing_thread")])) w).
Proof.
  repeat split.
  - unfold setGreetingText. apply sendThreadRequest_run.
  - unfold setPersistentMenu. unfold bind.
    change (lift (_formatButtons (VArr buttons)) w)
      with (@Ok value (VArr (List.map format_button buttons)), w).
    cbv iota. apply sendThreadRequest_run.
  - unfold deleteGetStartedButton. apply sendThreadRequest_run.
  - unfold deletePersistentMenu. apply sendThreadRequest_run.
Qed.

Lemma remove_first_keeps r r' rs :
  reg_once r = false -> reg_once r' = true ->
  In r rs -> In r (remove_first r' rs).
Proof.
  intros Hr Hr'. induction rs as [|r0 rest IH]; simpl; intros Hin.
  - exact Hin.
  - destruct (same_registration r' r0) eqn:Hsame.
    + destruct Hin as [->|Hin]; [|exact Hin].
      unfold same_registration in Hsame. rewrite Hr, Hr' in Hsame.
      rewrite andb_false_r in Hsame. discriminate Hsame.
    + destruct Hin as [->|Hin]; [left; reflexivity | right; apply IH, Hin].
Qed.

(** Handlers that do not throw are all called, in order; the listeners
    registered with [on] stay. *)
Lemma call_handlers_all hs event data w :
  Forall never_throws hs ->
  exists w',
    call_handlers hs event data w = (Ok tt, w')
    /\ invoked w' = invoked w ++ listener_ids hs
    /\ (quiet w -> quiet w')
    /\ forall r, reg_once r = false -> In r (listeners w) -> In r (listeners w').
Proof.
  intros Hhs. revert w. induction Hhs as [|h rest Hh Hrest IH]; intros w.
  - exists w. simpl. rewrite app_nil_r. auto.
  - simpl call_handlers. unfold bind at 1. unfold call_handler, when.
    set (w0 := if reg_once h then set_listeners (remove_first h) w else w).
    assert (Hstep : (if reg_once h then modify (set_listeners (remove_first h)) else ret tt) w
                    = (Ok tt, w0)) by (subst w0; destruct (reg_once h); reflexivity).
    assert (Hinv0 : invoked w0 = invoked w)
      by (subst w0; destruct (reg_once h); reflexivity).
    assert (Hq0 : quiet w -> quiet w0).
    { subst w0. destruct (reg_once h); [|auto]. intros Hq. apply remove_first_Forall, Hq. }
    assert (Hkeep0 : forall r, reg_once r = false -> In r (listeners w) ->
                               In r (listeners w0)).
    { subst w0. destruct (reg_once h) eqn:Honce; [|auto].
      intros r Hr Hin. apply remove_first_keeps; assumption. }
    unfold bind at 1. rewrite Hstep. unfold bind at 1, modify at 1.
    rewrite (Hh event data). unfold ret at 1.
    destruct (IH (add_invoked (l_id (reg_listener h)) w0))
      as (w' & Hrun & Hinv & Hq & Hkeep).
    exists w'. split; [exact Hrun|]. split; [|split].
    + rewrite Hinv. simpl. rewrite Hinv0, <- app_assoc. reflexivity.
    + intros Hqw. apply Hq. apply Hq0, Hqw.
    + intros r Hr Hin. apply Hkeep; [exact Hr|]. apply Hkeep0; assumption.
Qed.

Lemma _handleEvent_all type event data w :
  quiet w ->
  exists w',
    _handleEvent type event data w = (Ok tt, w')
    /\ invoked w' = invoked w ++ listener_ids (handlers_for type (listeners w))
    /\ quiet w'
    /\ forall r, reg_once r = false -> In r (listeners w) -> In r (listeners w').
Proof.
  intros Hq. unfold _handleEvent, emit.
  set (w0 := add_emitted {| em_type := type; em_event := event; em_data := data |} w).
  destruct (call_handlers_all (handlers_for type (listeners w0)) event data w0)
    as (w' & Hrun & Hinv & Hq' & Hkeep).
  { apply handlers_for_Forall, Hq. }
  exists w'. split; [|split; [|split]].
  - unfold bind, modify, gets, ret. fold w0. rewrite Hrun. reflexivity.
  - exact Hinv.
  - apply Hq', Hq.
  - exact Hkeep.
Qed.

(** X18. [setGetStartedButton] with a callback registers it, with [on], for
    'postback:BOOTBOT_GET_STARTED' and sends that payload to the
    thread_settings endpoint.  While no listener throws, a postback event
    that carries this payload then calls the callback, which stays
    registered. *)
Theorem get_started_callback_is_called this f sender w :
  quiet w ->
  (forall event data, l_throws f event data = false) ->
  nullish sender = false ->
  exists p w1 w2 calls,
    setGetStartedButton this (ActionCallback f) w = (Ok p, w1)
    /\ effects w1
       = effects w ++ [Http (thread_request this "POST"
                               (get_started_body "BOOTBOT_GET_STARTED"))]
    /\ _handlePostbackEvent
         (VObj [("sender", sender);
                ("postback", VObj [("payload", VStr "BOOTBOT_GET_STARTED")])]) w1
       = (Ok tt, w2)
    /\ invoked w2 = invoked w ++ calls
    /\ In (l_id f) calls
    /\ In (on_registration "postback:BOOTBOT_GET_STARTED" f) (listeners w2).
Proof.
  intros Hq Hf Hsender.
  set (reg := on_registration "postback:BOOTBOT_GET_STARTED" f).
  set (w0 := set_listeners (fun rs => rs ++ [reg]) w).
  set (w1 := after_request "Error sending message: "
               (thread_request this "POST" (get_started_body "BOOTBOT_GET_STARTED")) w0).
  set (event := VObj [("sender", sender);
                      ("postback", VObj [("payload", VStr "BOOTBOT_GET_STARTED")])]).
  assert (Hset : setGetStartedButton this (ActionCallback f) w
                 = (Ok (Fulfilled (reply_of (network w (count_http (effects w))))), w1)).
  { unfold setGetStartedButton. unfold bind at 1.
    change (on ("postback:" +:+ "BOOTBOT_GET_STARTED") f w) with (@Ok unit tt, w0).
    cbv iota. rewrite sendThreadRequest_run. reflexivity. }
  assert (Hl1 : listeners w1 = listeners w ++ [reg]).
  { subst w1. rewrite listeners_after_request. reflexivity. }
  assert (Hi1 : invoked w1 = invoked w).
  { subst w1. unfold after_request, log_failure.
    destruct (failure_of _); reflexivity. }
  assert (Hq1 : quiet w1).
  { unfold quiet. rewrite Hl1. apply Forall_app. split; [exact Hq|].
    constructor; [|constructor]. intros e d. apply Hf. }
  destruct (_handleEvent_all "postback:BOOTBOT_GET_STARTED" event VUndefined w1 Hq1)
    as (wa & Hruna & Hinva & Hqa & Hkeepa).
  destruct (_handleEvent_all "postback" event VUndefined wa Hqa)
    as (wb & Hrunb & Hinvb & Hqb & Hkeepb).
  exists (Fulfilled (reply_of (network w (count_http (effects w))))), w1, wb.
  exists (listener_ids (handlers_for "postback:BOOTBOT_GET_STARTED" (listeners w1))
          ++ listener_ids (handlers_for "postback" (listeners wa))).
  split; [exact Hset|]. split; [|split; [|split; [|split]]].
  - subst w1. rewrite effects_after_request. reflexivity.
  - unfold _handlePostbackEvent.
    assert (Hconv : _handleConversationResponse "postback" event w1 = (Ok false, w1)).
    { unfold _handleConversationResponse, getM2, getM, lift, get, bind. subst event.
      cbn [nullish prop assoc String.eqb Ascii.eqb Bool.eqb]. rewrite Hsender.
      reflexivity. }
    unfold bind at 1. rewrite Hconv. cbv iota.
    unfold bind at 1.
    change (getM2 event "postback" "payload" w1)
      with (@Ok value (VStr "BOOTBOT_GET_STARTED"), w1).
    cbv iota. change (truthy (VStr "BOOTBOT_GET_STARTED")) with true.
    unfold when. unfold bind at 1.
    change ("postback:" +:+ to_string (VStr "BOOTBOT_GET_STARTED"))
      with "postback:BOOTBOT_GET_STARTED".
    rewrite Hruna. exact Hrunb.
  - rewrite Hinvb, Hinva, Hi1, <- app_assoc. reflexivity.
  - apply in_or_app. left. rewrite Hl1, handlers_for_app. unfold listener_ids.
    rewrite List.map_app. apply in_or_app. right. left. reflexivity.
  - apply Hkeepb; [reflexivity|]. apply Hkeepa; [reflexivity|].
    rewrite Hl1. apply in_or_app. right. left. reflexivity.
Qed.

Lemma get_started_callback_is_called_witness :
  exists p w1 w2 calls,
    setGetStartedButton bot (ActionCallback plain_listener) empty_world = (Ok p, w1)
    /\ effects w1
       = effects empty_world
         ++ [Http (thread_request bot "POST" (get_started_body "BOOTBOT_GET_STARTED"))]
    /\ _handlePostbackEvent
         (VObj [("sender", sender_1001);
                ("postback", VObj [("payload", VStr "BOOTBOT_GET_STARTED")])]) w1
       = (Ok tt, w2)
    /\ invoked w2 = invoked empty_world ++ calls
    /\ In (l_id plain_listener) calls
    /\ In (on_registration "postback:BOOTBOT_GET_STARTED" plain_listener) (listeners w2).
Proof.
  apply (get_started_callback_is_called bot plain_listener sender_1001 empty_world).
  - constructor.
  - reflexivity.
  - reflexivity.
Defined.

End ThreadSettings.

Section Attachments.

(** X19. [say] with an object that has an attachment, no text and no quick
    replies sends one request whose message is the attachment: its type is
    [message.attachment] and its payload holds [message.url]. *)
Theorem say_attachment this recipientId message w :
  truthy (prop message "text") = false ->
  truthy (prop message "attachment") = true ->
  truthy (prop message "quickReplies") = false ->
  say this recipientId message None w
  = (Ok (Some (Fulfilled (reply_of (network w (count_http (effects w)))))),
     after_request "Error sending message: "
       (message_request this recipientId
          (VObj [("attachment",
                  VObj [("type", prop message "attachment");
                        ("payload", VObj [("url", prop message "url")])])])) w).
Proof.
  intros Htext Hatt Hq.
  assert (Hobj : is_a_string message = false).
  { destruct message; simpl in Hatt; first [discriminate Hatt | reflexivity]. }
  rewrite say_object by assumption.
  rewrite (truthy_of_prop _ _ Hatt), Htext, Hatt. cbn [andb]. cbv iota.
  unfold sendAttachment. unfold bind at 1. unfold bind at 1.
  unfold lift at 1, _formatQuickReplies. rewrite Hq. cbv iota.
  unfold bind at 1, lift at 1, has_items. rewrite Hq.
  unfold with_quick_replies. cbv iota beta.
  rewrite sendMessage_plain. reflexivity.
Qed.

Lemma say_attachment_witness :
  say bot (VStr "1001")
    (VObj [("attachment", VStr "image"); ("url", VStr "http://example.com/a.png")])
    None empty_world
  = (Ok (Some (Fulfilled (reply_of (network empty_world
                                      (count_http (effects empty_world)))))),
     after_request "Error sending message: "
       (message_request bot (VStr "1001")
          (VObj [("attachment",
                  VObj [("type",
                         prop (VObj [("attachment", VStr "image");
                                     ("url", VStr "http://example.com/a.png")])
                              "attachment");
                        ("payload",
                         VObj [("url",
                                prop (VObj [("attachment", VStr "image");
                                            ("url", VStr "http://example.com/a.png")])
                                     "url")])])])) empty_world).
Proof.
  apply (say_attachment bot (VStr "1001")
           (VObj [("attachment", VStr "image"); ("url", VStr "http://example.com/a.png")])
           empty_world); reflexivity.
Defined.

End Attachments.

Section Handshake.

(** X20. The verification handshake, for every query: the answer is 200
    with the challenge as its body exactly when [hub.mode] is the string
    'subscribe' and [hub.verify_token] is the instance's verify token;
    every other query is answered 403.  One line is logged either way. *)
Theorem get_webhook_validates this query w :
  nullish query = false ->
  get_webhook this query w
  = if is_string (prop query "hub.mode") "subscribe"
       && is_string (prop query "hub.verify_token") (verifyToken this)
    then (Ok (StatusSend 200 (prop query "hub.challenge")),
          add_console "Validation Succeded." w)
    else (Ok (SendStatus 403),
          add_console "Failed validation. Make sure the validation tokens match." w).
Proof.
  intros Hn. unfold get_webhook.
  rewrite (bind_pure _ _ _ _ (getM_run query "hub.mode" w Hn)).
  destruct (is_string (prop query "hub.mode") "subscribe").
  - unfold bind at 1.
    rewrite (bind_pure _ _ _ _ (getM_run query "hub.verify_token" w Hn)).
    unfold ret at 1.
    destruct (is_string (prop query "hub.verify_token") (verifyToken this)).
    + unfold bind at 1, console_log, modify.
      rewrite (bind_pure _ _ _ _ (getM_run query "hub.challenge" _ Hn)). reflexivity.
    + reflexivity.
  - reflexivity.
Qed.

Lemma get_webhook_validates_witness :
  get_webhook bot
    (VObj [("hub.mode", VStr "subscribe"); ("hub.verify_token", VStr "verify");
           ("hub.challenge", VStr "42")]) empty_world
  = if is_string
         (prop (VObj [("hub.mode", VStr "subscribe"); ("hub.verify_token", VStr "verify");
                      ("hub.challenge", VStr "42")]) "hub.mode") "subscribe"
       && is_string
            (prop (VObj [("hub.mode", VStr "subscribe");
                         ("hub.verify_token", VStr "verify");
                         ("hub.challenge", VStr "42")]) "hub.verify_token")
            (verifyToken bot)
    then (Ok (StatusSend 200
                (prop (VObj [("hub.mode", VStr "subscribe");
                             ("hub.verify_token", VStr "verify");
                             ("hub.challenge", VStr "42")]) "hub.challenge")),
          add_console "Validation Succeded." empty_world)
    else (Ok (SendStatus 403),
          add_console "Failed validation. Make sure the validation tokens match."
            empty_world).
Proof.
  apply (get_webhook_validates bot
           (VObj [("hub.mode", VStr "subscribe"); ("hub.verify_token", VStr "verify");
                  ("hub.challenge", VStr "42")]) empty_world).
  reflexivity.
Defined.

Lemma nonempty_true s : nonempty s = true -> s <> EmptyString.
Proof.
  unfold nonempty. intros H ->. discriminate H.
Qed.

Lemma truthy_or_false v : truthy (or_else v (VBool false)) = truthy v.
Proof. unfold or_else. destruct (truthy v) eqn:H; [exact H | reflexivity]. Qed.

(** X21. An instance exists only for options that bring the three tokens
    and a skin: the constructor copies the tokens, none of which is empty,
    and [broadcastEchoes] is on exactly when the option is truthy, so it is
    off when the option is left out. *)
Theorem constructor_checks_options options this :
  constructor options = Passed this ->
  exists o,
    options = Some o
    /\ opt_skin o = true
    /\ accessToken this = opt_accessToken o /\ accessToken this <> EmptyString
    /\ verifyToken this = opt_verifyToken o /\ verifyToken this <> EmptyString
    /\ appSecret this = opt_appSecret o /\ appSecret this <> EmptyString
    /\ broadcastEchoes this = truthy (opt_broadcastEchoes o).
Proof.
  unfold constructor. destruct options as [o|]; [|discriminate].
  destruct (nonempty (opt_accessToken o)) eqn:Ha; [|discriminate].
  destruct (nonempty (opt_verifyToken o)) eqn:Hv; [|discriminate].
  destruct (nonempty (opt_appSecret o)) eqn:Hs; [|discriminate].
  destruct (opt_skin o) eqn:Hskin; [|discriminate].
  simpl. intros H. injection H as <-. exists o. simpl.
  repeat split; try assumption; try (apply nonempty_true; assumption).
  apply truthy_or_false.
Qed.

Lemma constructor_checks_options_witness :
  exists o,
    Some {| opt_accessToken := "token"; opt_verifyToken := "verify";
            opt_appSecret := "secret"; opt_broadcastEchoes := VUndefined;
            opt_skin := true |} = Some o
    /\ opt_skin o = true
    /\ accessToken bot = opt_accessToken o /\ accessToken bot <> EmptyString
    /\ verifyToken bot = opt_verifyToken o /\ verifyToken bot <> EmptyString
    /\ appSecret bot = opt_appSecret o /\ appSecret bot <> EmptyString
    /\ broadcastEchoes bot = truthy (opt_broadcastEchoes o).
Proof.
  apply (constructor_checks_options
           (Some {| opt_accessToken := "token"; opt_verifyToken := "verify";
                    opt_appSecret := "secret"; opt_broadcastEchoes := VUndefined;
                    opt_skin := true |}) bot).
  reflexivity.
Defined.

End Handshake.

Section SignatureCheck.

Variable hmac_sha1_hex : string -> string -> string.

Lemma js_split_cons c s :
  js_split "=" (String c s)
  = if Ascii.eqb c "=" then EmptyString :: js_split "=" s
    else match js_split "=" s with
         | piece :: pieces => String c piece :: pieces
         | [] => [String c EmptyString]
         end.
Proof. reflexivity. Qed.

(** A text without the separator is one piece. *)
Lemma js_split_one s : all_chars not_equals_sign s = true -> js_split "=" s = [s].
Proof.
  induction s as [|c rest IH]; intros H.
  - reflexivity.
  - cbn [all_chars] in H. apply andb_true_iff in H as [Hc Hrest].
    rewrite js_split_cons. unfold not_equals_sign in Hc. apply negb_true_iff in Hc.
    rewrite Hc, (IH Hrest). reflexivity.
Qed.

(** The first piece ends at the first separator. *)
Lemma js_split_first m rest :
  all_chars not_equals_sign m = true ->
  js_split "=" (m +:+ String "=" rest) = m :: js_split "=" rest.
Proof.
  induction m as [|c m IH]; intros H.
  - reflexivity.
  - cbn [all_chars] in H. apply andb_true_iff in H as [Hc Hm].
    change (String c m +:+ String "=" rest) with (String c (m +:+ String "=" rest)).
    rewrite js_split_cons. unfold not_equals_sign in Hc. apply negb_true_iff in Hc.
    rewrite Hc, (IH Hm). reflexivity.
Qed.

Lemma nonempty_with_separator m rest : nonempty (m +:+ String "=" rest) = true.
Proof. destruct m; reflexivity. Qed.

Lemma js_split_head s : exists piece pieces, js_split "=" s = piece :: pieces.
Proof.
  induction s as [|c rest (piece & pieces & IH)].
  - eexists _, _. reflexivity.
  - rewrite js_split_cons, IH. destruct (Ascii.eqb c "="); eexists _, _; reflexivity.
Qed.

(** X22. The signature check reads the header as pieces between '=' signs
    and compares the second piece with the digest of the body under the app
    secret.  A header "<method>=<digest>" passes whatever the method names,
    and so does the same header followed by '=' and anything; a request
    without the header, and a header without '=', fail. *)
Theorem signature_second_piece_decides this method buf :
  all_chars not_equals_sign method = true ->
  all_chars not_equals_sign (hmac_sha1_hex (appSecret this) buf) = true ->
  _verifyRequestSignature hmac_sha1_hex this
    (Some (method +:+ String "=" (hmac_sha1_hex (appSecret this) buf))) buf
  = Passed tt
  /\ (forall rest,
        _verifyRequestSignature hmac_sha1_hex this
          (Some (method +:+ String "=" (hmac_sha1_hex (appSecret this) buf
                                        +:+ String "=" rest))) buf
        = Passed tt)
  /\ _verifyRequestSignature hmac_sha1_hex this None buf
     = Failed "Couldn't validate the request signature."
  /\ _verifyRequestSignature hmac_sha1_hex this (Some method) buf
     = Failed "Couldn't validate the request signature.".
Proof.
  intros Hmethod Hdigest. split; [|split; [|split]].
  - unfold _verifyRequestSignature. rewrite nonempty_with_separator. cbn [negb].
    rewrite (js_split_first _ _ Hmethod), (js_split_one _ Hdigest).
    cbn [nth_error]. rewrite String.eqb_refl. reflexivity.
  - intros rest. unfold _verifyRequestSignature.
    rewrite nonempty_with_separator. cbn [negb].
    rewrite (js_split_first _ _ Hmethod), (js_split_first _ _ Hdigest).
    cbn [nth_error]. rewrite String.eqb_refl. reflexivity.
  - reflexivity.
  - unfold _verifyRequestSignature. destruct (negb (nonempty method)); [reflexivity|].
    rewrite (js_split_one _ Hmethod). reflexivity.
Qed.

End SignatureCheck.

Lemma signature_second_piece_decides_witness :
  _verifyRequestSignature toy_digest bot
    (Some ("sha1" +:+ String "=" (toy_digest (appSecret bot) "body"))) "body"
  = Passed tt
  /\ (forall rest,
        _verifyRequestSignature toy_digest bot
          (Some ("sha1" +:+ String "=" (toy_digest (appSecret bot) "body"
                                        +:+ String "=" rest))) "body"
        = Passed tt)
  /\ _verifyRequestSignature toy_digest bot None "body"
     = Failed "Couldn't validate the request signature."
  /\ _verifyRequestSignature toy_digest bot (Some "sha1") "body"
     = Failed "Couldn't validate the request signature.".
Proof.
  apply (signature_second_piece_decides toy_digest bot "sha1" "body"); reflexivity.
Defined.

Section WebhookAnswer.

Lemma keeps_ret {A} (a : A) : keeps_responses (ret a).
Proof. intros w. reflexivity. Qed.

Lemma keeps_lift {A} (r : result A) : keeps_responses (lift r).
Proof. intros w. reflexivity. Qed.

Lemma keeps_throw {A} e : keeps_responses (@throw world A e).
Proof. intros w. reflexivity. Qed.

Lemma keeps_gets {A} (f : world -> A) : keeps_responses (gets f).
Proof. intros w. reflexivity. Qed.

Lemma keeps_modify (f : world -> world) :
  (forall w, responses (f w) = responses w) -> keeps_responses (modify f).
Proof. intros Hf w. apply Hf. Qed.

Lemma keeps_bind {A B} (m : M A) (k : A -> M B) :
  keeps_responses m -> (forall a, keeps_responses (k a)) ->
  keeps_responses (x <- m ;; k x).
Proof.
  intros Hm Hk w. unfold bind. specialize (Hm w).
  destruct (m w) as [[a|e] w1]; simpl in Hm.
  - rewrite (Hk a w1). exact Hm.
  - exact Hm.
Qed.

Lemma keeps_when (b : bool) (m : M unit) : keeps_responses m -> keeps_responses (when b m).
Proof. intros Hm. destruct b; [exact Hm | apply keeps_ret]. Qed.

Lemma keeps_getM v k : keeps_responses (getM v k).
Proof. apply keeps_lift. Qed.

Lemma keeps_getM2 v k1 k2 : keeps_responses (getM2 v k1 k2).
Proof. apply keeps_bind; [apply keeps_getM|]. intros a. apply keeps_getM. Qed.

Lemma keeps_and_ (a b : M value) :
  keeps_responses a -> keeps_responses b -> keeps_responses (and_ a b).
Proof.
  intros Ha Hb. apply keeps_bind; [exact Ha|].
  intros x. destruct (truthy x); [exact Hb | apply keeps_ret].
Qed.

Lemma keeps_call_handler r event data : keeps_responses (call_handler r event data).
Proof.
  unfold call_handler. apply keeps_bind.
  - apply keeps_when, keeps_modify. reflexivity.
  - intros _. apply keeps_bind.
    + apply keeps_modify. reflexivity.
    + intros _. destruct (l_throws (reg_listener r) event data);
        [apply keeps_throw | apply keeps_ret].
Qed.

Lemma keeps_call_handlers hs event data : keeps_responses (call_handlers hs event data).
Proof.
  induction hs as [|h rest IH]; simpl.
  - apply keeps_ret.
  - apply keeps_bind; [apply keeps_call_handler|]. intros _. exact IH.
Qed.

Lemma keeps__handleEvent type event data : keeps_responses (_handleEvent type event data).
Proof.
  unfold _handleEvent, emit.
  apply keeps_bind; [|intros _; apply keeps_ret].
  apply keeps_bind; [apply keeps_modify; reflexivity|]. intros _.
  apply keeps_bind; [apply keeps_gets|]. intros hs.
  apply keeps_bind; [apply keeps_call_handlers|]. intros _. apply keeps_ret.
Qed.

Lemma keeps__handleConversationResponse type event :
  keeps_responses (_handleConversationResponse type event).
Proof.
  unfold _handleConversationResponse.
  apply keeps_bind; [apply keeps_getM2|]. intros _. apply keeps_ret.
Qed.

Lemma keeps__handleMessageEvent event : keeps_responses (_handleMessageEvent event).
Proof.
  unfold _handleMessageEvent.
  apply keeps_bind; [apply keeps__handleConversationResponse|]. intros stop.
  destruct stop; [apply keeps_ret|].
  apply keeps_bind; [apply keeps_getM2|]. intros text.
  apply keeps_bind; [apply keeps_getM2|]. intros _.
  destruct (negb (truthy text)); [apply keeps_ret | apply keeps__handleEvent].
Qed.

Lemma keeps__handleAttachmentEvent event : keeps_responses (_handleAttachmentEvent event).
Proof.
  unfold _handleAttachmentEvent.
  apply keeps_bind; [apply keeps__handleConversationResponse|]. intros stop.
  destruct stop; [apply keeps_ret | apply keeps__handleEvent].
Qed.

Lemma keeps__handlePostbackEvent event : keeps_responses (_handlePostbackEvent event).
Proof.
  unfold _handlePostbackEvent.
  apply keeps_bind; [apply keeps__handleConversationResponse|]. intros stop.
  destruct stop; [apply keeps_ret|].
  apply keeps_bind; [apply keeps_getM2|]. intros payload.
  apply keeps_bind; [apply keeps_when, keeps__handleEvent|]. intros _.
  apply keeps__handleEvent.
Qed.

Lemma keeps__handleQuickReplyEvent event : keeps_responses (_handleQuickReplyEvent event).
Proof.
  unfold _handleQuickReplyEvent.
  apply keeps_bind; [apply keeps__handleConversationResponse|]. intros stop.
  destruct stop; [apply keeps_ret|].
  apply keeps_bind.
  { apply keeps_and_; [apply keeps_getM2|].
    apply keeps_bind; [apply keeps_getM2|]. intros q. apply keeps_getM. }
  intros payload.
  apply keeps_bind; [apply keeps_when, keeps__handleEvent|]. intros _.
  apply keeps__handleEvent.
Qed.

Lemma keeps_on_messaging this event : keeps_responses (on_messaging this event).
Proof.
  unfold on_messaging.
  apply keeps_bind.
  { apply keeps_and_; [apply keeps_getM|].
    apply keeps_and_; [apply keeps_getM2 | apply keeps_ret]. }
  intros echo. destruct (truthy echo); [apply keeps_ret|].
  apply keeps_bind; [apply keeps_getM|]. intros optin.
  destruct (truthy optin); [apply keeps__handleEvent|].
  apply keeps_bind; [apply keeps_and_; [apply keeps_getM | apply keeps_getM2]|].
  intros text. destruct (truthy text).
  { apply keeps_bind; [apply keeps__handleMessageEvent|]. intros _.
    apply keeps_bind; [apply keeps_getM2|]. intros quick_reply.
    apply keeps_when, keeps__handleQuickReplyEvent. }
  apply keeps_bind; [apply keeps_and_; [apply keeps_getM | apply keeps_getM2]|].
  intros attachments. destruct (truthy attachments); [apply keeps__handleAttachmentEvent|].
  apply keeps_bind; [apply keeps_getM|]. intros postback.
  destruct (truthy postback); [apply keeps__handlePostbackEvent|].
  apply keeps_bind; [apply keeps_getM|]. intros delivery.
  destruct (truthy delivery); [apply keeps__handleEvent|].
  apply keeps_bind; [apply keeps_getM|]. intros read.
  destruct (truthy read); [apply keeps__handleEvent|].
  apply keeps_bind; [apply keeps_getM|]. intros account_linking.
  destruct (truthy account_linking); [apply keeps__handleEvent|].
  apply keeps_modify. reflexivity.
Qed.

Lemma keeps_each xs (f : value -> M unit) :
  (forall x, keeps_responses (f x)) -> keeps_responses (each xs f).
Proof.
  intros Hf. induction xs as [|x rest IH]; simpl.
  - apply keeps_ret.
  - apply keeps_bind; [apply Hf|]. intros _. exact IH.
Qed.

Lemma keeps_forEach xs (f : value -> M unit) :
  (forall x, keeps_responses (f x)) -> keeps_responses (forEach xs f).
Proof.
  intros Hf. destruct xs; simpl; try apply keeps_throw. apply keeps_each, Hf.
Qed.

(** X23. The webhook handler, for every body and every set of listeners,
    sends at most one status and only 200: it is sent exactly when the body
    is a page batch that was handled to its end.  When the handler ends
    with an exception (a listener that throws, a malformed batch), and when
    the body is no page batch, no status is sent at all. *)
Theorem post_webhook_answers_after_the_batch this data w :
  responses (snd (post_webhook this data w))
  = responses w
    ++ match fst (post_webhook this data w) with
       | Ok _ => if is_string (prop data "object") "page" then [200%Z] else []
       | Throw _ => []
       end.
Proof.
  destruct (nullish data) eqn:Hn.
  { unfold post_webhook, getM, lift, get, bind. rewrite Hn. simpl.
    rewrite app_nil_r. reflexivity. }
  unfold post_webhook.
  rewrite (bind_pure _ _ _ _ (getM_run data "object" w Hn)).
  destruct (is_string (prop data "object") "page"); cbn [negb].
  2:{ simpl. rewrite app_nil_r. reflexivity. }
  rewrite (bind_pure _ _ _ _ (getM_run data "entry" w Hn)).
  set (body := forEach (prop data "entry")
                 (fun entry => messaging <- getM entry "messaging" ;;
                               forEach messaging (on_messaging this))).
  assert (Hbody : keeps_responses body).
  { subst body. apply keeps_forEach. intros entry.
    apply keeps_bind; [apply keeps_getM|].
    intros messaging. apply keeps_forEach, keeps_on_messaging. }
  unfold bind. specialize (Hbody w).
  destruct (body w) as [[[]|e] w1]; simpl in *.
  - rewrite Hbody. reflexivity.
  - rewrite app_nil_r. exact Hbody.
Qed.

(** X24. A page batch whose [entry] is no array ends the handler with a
    [TypeError] before anything is dispatched: nothing is emitted or
    logged, and no status is sent. *)
Theorem post_webhook_malformed_throws this data w :
  nullish data = false ->
  is_string (prop data "object") "page" = true ->
  is_array (prop data "entry") = false ->
  exists msg, post_webhook this data w = (Throw (TypeError msg), w).
Proof.
  intros Hn Hpage Harr. unfold post_webhook.
  rewrite (bind_pure _ _ _ _ (getM_run data "object" w Hn)), Hpage. cbn [negb].
  rewrite (bind_pure _ _ _ _ (getM_run data "entry" w Hn)).
  destruct (prop data "entry"); try discriminate Harr; eexists; reflexivity.
Qed.

Lemma post_webhook_malformed_throws_witness :
  exists msg,
    post_webhook bot (VObj [("object", VStr "page")]) empty_world
    = (Throw (TypeError msg), empty_world).
Proof.
  apply (post_webhook_malformed_throws bot (VObj [("object", VStr "page")]) empty_world);
    reflexivity.
Defined.

Lemma present2_not_nullish event k1 k2 : present2 event k1 k2 = true -> nullish event = false.
Proof.
  unfold present2, present. destruct event; simpl; intros H;
    first [reflexivity | discriminate H].
Qed.

(** X25. With [broadcastEchoes] off, an event whose message is an echo is
    dropped whatever else it carries and whoever listens: the callback
    returns and the world is as it was. *)
Theorem echo_is_dropped this event w :
  broadcastEchoes this = false ->
  present2 event "message" "is_echo" = true ->
  on_messaging this event w = (Ok tt, w).
Proof.
  intros Hoff Hecho. pose proof (present2_not_nullish _ _ _ Hecho) as Hn.
  unfold on_messaging.
  destruct (echo_test_run this event w Hn) as (echo & Hrun & Htruthy).
  rewrite (bind_pure _ _ _ _ Hrun), Htruthy, Hecho, Hoff. reflexivity.
Qed.

Lemma echo_is_dropped_witness : on_messaging bot echo_event two_listeners = (Ok tt, two_listeners).
Proof. apply (echo_is_dropped bot echo_event two_listeners); reflexivity. Defined.

Lemma _handleConversationResponse_no_sender type event w :
  nullish event = false -> nullish (prop event "sender") = true ->
  exists msg, _handleConversationResponse type event w = (Throw (TypeError msg), w).
Proof.
  intros Hn Hs. unfold _handleConversationResponse, getM2.
  unfold bind at 1. rewrite (bind_pure _ _ _ _ (getM_run event "sender" w Hn)).
  unfold getM, lift, get. rewrite Hs. eexists. reflexivity.
Qed.

(** X26. The handlers of text messages, attachments and postbacks read
    [event.sender.id] first: for an event of one of these three kinds that
    brings no sender, the callback ends with a [TypeError] and emits
    nothing, whoever listens. *)
Theorem event_without_sender_throws this event w :
  nullish event = false ->
  nullish (prop event "sender") = true ->
  needs_sender (classify this event) = true ->
  exists msg, on_messaging this event w = (Throw (TypeError msg), w).
Proof.
  intros Hn Hs Hrule. unfold classify in Hrule. unfold on_messaging.
  destruct (echo_test_run this event w Hn) as (echo & Hecho & Htecho).
  rewrite (bind_pure _ _ _ _ Hecho), Htecho.
  destruct (present2 event "message" "is_echo" && negb (broadcastEchoes this));
    [discriminate Hrule|].
  rewrite (bind_pure _ _ _ _ (getM_run event "optin" w Hn)).
  fold (present event "optin").
  destruct (present event "optin"); [discriminate Hrule|].
  destruct (and_get_run event "message" "text" w Hn) as (text & Htext & Httext).
  rewrite (bind_pure _ _ _ _ Htext), Httext.
  destruct (present2 event "message" "text").
  { unfold _handleMessageEvent. unfold bind at 1. unfold bind at 1.
    destruct (_handleConversationResponse_no_sender "message" event w Hn Hs) as (msg & ->).
    exists msg. reflexivity. }
  destruct (and_get_run event "message" "attachments" w Hn) as (att & Hatt & Htatt).
  rewrite (bind_pure _ _ _ _ Hatt), Htatt.
  destruct (present2 event "message" "attachments").
  { unfold _handleAttachmentEvent. unfold bind at 1.
    destruct (_handleConversationResponse_no_sender "attachment" event w Hn Hs)
      as (msg & ->).
    exists msg. reflexivity. }
  rewrite (bind_pure _ _ _ _ (getM_run event "postback" w Hn)).
  fold (present event "postback").
  destruct (present event "postback").
  { unfold _handlePostbackEvent. unfold bind at 1.
    destruct (_handleConversationResponse_no_sender "postback" event w Hn Hs)
      as (msg & ->).
    exists msg. reflexivity. }
  destruct (present event "delivery"); [discriminate Hrule|].
  destruct (present event "read"); [discriminate Hrule|].
  destruct (present event "account_linking"); discriminate Hrule.
Qed.

Lemma event_without_sender_throws_witness :
  exists msg,
    on_messaging bot (VObj [("message", VObj [("text", VStr "hi")])]) two_listeners
    = (Throw (TypeError msg), two_listeners).
Proof.
  apply (event_without_sender_throws bot (VObj [("message", VObj [("text", VStr "hi")])])
           two_listeners); reflexivity.
Defined.

End WebhookAnswer.

Section ProfileCacheEdges.

Import Users.

Variable stringify : gmap string value -> string.

Lemma set_id_primitive v x :
  is_primitive v = true -> exists msg, set_id v x = Throw (TypeError msg).
Proof.
  destruct v; simpl; intros H; try discriminate H; eexists; reflexivity.
Qed.

(** X27. A miss whose fetch brings no profile (the request failed, the
    body did not parse, or the JSON is [null] or another primitive) makes
    one request and ends in a promise rejected with a [TypeError]: nothing
    is memoized, nothing is written to the file or handed to [saveUser],
    and the next call for the same user misses again. *)
Theorem unusable_reply_is_not_cached this userId s :
  misses userId s ->
  is_primitive (reply_of (network (outside (environment s)) (count_http (http_calls s))))
  = true ->
  exists msg s1,
    getOrFetchUserProfile stringify this userId s = (Ok (Rejected (TypeError msg)), s1)
    /\ userProfiles s1 = userProfiles s
    /\ cacheTs s1 = cacheTs s
    /\ file (environment s1) = file (environment s)
    /\ db_rows (environment s1) = db_rows (environment s)
    /\ http_calls s1 = http_calls s ++ [Http (profile_request this userId)]
    /\ misses userId s1.
Proof.
  unfold misses, http_calls. intros Hmiss Hreply.
  destruct (set_id_primitive _ (VStr userId) Hreply) as (msg & Hset).
  exists msg.
  exists (set_environment
            (set_outside (after_request "Error getting user profile: "
                            (profile_request this userId) (outside (environment s)))) s).
  split; [|repeat split].
  - unfold getOrFetchUserProfile, Promise_method.
    unfold bind at 1. unfold gets at 1. rewrite Hmiss.
    unfold bind at 1. unfold in_world. rewrite getUserProfile_run.
    cbn [then_]. unfold bind at 1. unfold lift. rewrite Hset. reflexivity.
  - simpl. apply effects_after_request.
  - exact Hmiss.
Qed.

(** X28. A miss answered with a JSON object less than ten seconds after
    the last flush memoizes the profile and hands its row to [saveUser],
    but writes nothing: the file, the flush time and the log stay as they
    were, so the file lags behind the mapping in memory. *)
Theorem no_flush_within_ten_seconds this userId fields s :
  misses userId s ->
  next_reply s (VObj fields) ->
  (clock (environment s) - cacheTs s < 10000)%Z ->
  exists p s1,
    getOrFetchUserProfile stringify this userId s = (Ok p, s1)
    /\ userProfiles s1 = <[userId := Plain (stamped userId fields)]> (userProfiles s)
    /\ file (environment s1) = file (environment s)
    /\ cacheTs s1 = cacheTs s
    /\ logger (environment s1) = logger (environment s)
    /\ db_rows (environment s1)
       = db_rows (environment s) ++ [user_row (Plain (stamped userId fields))].
Proof.
  intros Hmiss Hreply Hearly.
  assert (Hflush : (10000 <=? clock (environment s) - cacheTs s)%Z = false)
    by (apply Z.leb_gt, Hearly).
  eexists _, _. split.
  - exact (getOrFetchUserProfile_miss stringify this userId fields s Hmiss Hreply).
  - unfold after_miss. rewrite Hflush. repeat split.
Qed.

(** X29. When [saveUser] rejects the row of a fetched profile, the promise
    of that call is rejected, but the profile was memoized before: the next
    call for the same user is a hit that resolves with it and asks neither
    the remote end nor [saveUser] again. *)
Theorem rejected_save_keeps_profile this userId fields s :
  misses userId s ->
  next_reply s (VObj fields) ->
  db_rejects (environment s) (user_row (Plain (stamped userId fields))) = true ->
  exists err s1,
    getOrFetchUserProfile stringify this userId s = (Ok (Rejected err), s1)
    /\ db_rows (environment s1)
       = db_rows (environment s) ++ [user_row (Plain (stamped userId fields))]
    /\ getOrFetchUserProfile stringify this userId s1
       = (Ok (Fulfilled (Own (Plain (stamped userId fields)))), s1).
Proof.
  intros Hmiss Hreply Hrejects.
  pose proof (getOrFetchUserProfile_miss stringify this userId fields s Hmiss Hreply)
    as Hrun.
  rewrite Hrejects in Hrun.
  eexists _, _. split; [exact Hrun|]. split.
  - unfold after_miss.
    destruct (10000 <=? clock (environment s) - cacheTs s)%Z; reflexivity.
  - rewrite getOrFetchUserProfile_hit; simpl; rewrite lookup_profile_insert; reflexivity.
Qed.

Lemma assoc_update_field_same k x fields : assoc k (update_field k x fields) = x.
Proof.
  induction fields as [|[k0 v0] rest IH]; simpl.
  - rewrite String.eqb_refl. reflexivity.
  - destruct (String.eqb k k0) eqn:Hk; simpl.
    + rewrite String.eqb_refl. reflexivity.
    + rewrite Hk. exact IH.
Qed.

Lemma assoc_update_field_other k k' x fields :
  k' <> k -> assoc k' (update_field k x fields) = assoc k' fields.
Proof.
  intros Hne. induction fields as [|[k0 v0] rest IH]; simpl.
  - destruct (String.eqb_spec k' k); [contradiction|reflexivity].
  - destruct (String.eqb_spec k k0) as [->|Hk]; simpl.
    + destruct (String.eqb_spec k' k0); [contradiction|reflexivity].
    + destruct (String.eqb k' k0); [reflexivity|exact IH].
Qed.

(** X30. After a miss answered with a JSON object, the profile memoized
    under [userId] carries the id it was asked for: the [id] of the fetched
    object, if it had one, is replaced by [userId] and every other property
    reads as fetched; the one row handed to [saveUser] has that id, the
    platform 'facebook', and the fetched [profile_pic] as [picture_url]. *)
Theorem memoized_profile_has_the_asked_id this userId fields s :
  misses userId s ->
  next_reply s (VObj fields) ->
  exists p s1 memoized row,
    getOrFetchUserProfile stringify this userId s = (Ok p, s1)
    /\ userProfiles s1 !! userId = Some memoized
    /\ profile_prop memoized "id" = VStr userId
    /\ (forall k, k <> "id" -> profile_prop memoized k = prop (VObj fields) k)
    /\ db_rows (environment s1) = db_rows (environment s) ++ [row]
    /\ prop row "id" = VStr userId
    /\ prop row "platform" = VStr "facebook"
    /\ prop row "picture_url" = prop (VObj fields) "profile_pic".
Proof.
  intros Hmiss Hreply.
  assert (Hid : prop (stamped userId fields) "id" = VStr userId)
    by apply assoc_update_field_same.
  eexists _, _, (Plain (stamped userId fields)), (user_row (Plain (stamped userId fields))).
  split; [exact (getOrFetchUserProfile_miss stringify this userId fields s Hmiss Hreply)|].
  split; [|split; [|split; [|split; [|split; [|split]]]]].
  - unfold after_miss. cbn [userProfiles]. apply lookup_insert_eq.
  - exact Hid.
  - intros k Hk. apply assoc_update_field_other, Hk.
  - unfold after_miss.
    destruct (10000 <=? clock (environment s) - cacheTs s)%Z; reflexivity.
  - unfold user_row. cbn [prop assoc String.eqb Ascii.eqb Bool.eqb profile_prop]. exact Hid.
  - reflexivity.
  - unfold user_row. cbn [prop assoc String.eqb Ascii.eqb Bool.eqb profile_prop].
    apply assoc_update_field_other. discriminate.
Qed.

(** X31. A user id that names a member of [Object.prototype]
    ('constructor', 'toString', '__proto__', ...) and has no entry of its
    own is a hit: the promise resolves at once with the inherited member,
    and nothing is fetched, memoized, written or saved. *)
Theorem prototype_name_is_a_hit this userId s :
  inherited userId = true ->
  userProfiles s !! userId = None ->
  getOrFetchUserProfile stringify this userId s = (Ok (Fulfilled (Inherited userId)), s).
Proof.
  intros Hname Hnone.
  assert (Hlook : lookup_profile userId (userProfiles s) = Inherited userId).
  { unfold lookup_profile. rewrite Hnone, Hname. reflexivity. }
  rewrite getOrFetchUserProfile_hit; rewrite Hlook; reflexivity.
Qed.

(** A miss answered with a JSON array memoizes the array with
    [userId] as its [id] property, and the row handed to [saveUser] has
    that id, while its other columns read [undefined]. *)
Theorem array_reply_keeps_the_id this userId xs s :
  misses userId s ->
  next_reply s (VArr xs) ->
  exists p s1 row,
    getOrFetchUserProfile stringify this userId s = (Ok p, s1)
    /\ userProfiles s1 = <[userId := ArrayWithId xs (VStr userId)]> (userProfiles s)
    /\ db_rows (environment s1) = db_rows (environment s) ++ [row]
    /\ prop row "id" = VStr userId
    /\ prop row "first_name" = VUndefined
    /\ getOrFetchUserProfile stringify this userId s1
       = (Ok (Fulfilled (Own (ArrayWithId xs (VStr userId)))), s1).
Proof.
  unfold misses, next_reply. intros Hmiss Hreply.
  assert (Hrun : exists p s1,
            getOrFetchUserProfile stringify this userId s = (Ok p, s1)
            /\ userProfiles s1 = <[userId := ArrayWithId xs (VStr userId)]> (userProfiles s)
            /\ db_rows (environment s1)
               = db_rows (environment s) ++ [user_row (ArrayWithId xs (VStr userId))]).
  { unfold getOrFetchUserProfile, Promise_method.
    unfold bind at 1. unfold gets at 1. rewrite Hmiss.
    unfold bind at 1. unfold in_world. rewrite getUserProfile_run, Hreply.
    cbn [reply_of then_].
    unfold saveUserProfiles, saveUser, new_Date, when, bind, gets, modify, lift, ret, then_.
    simpl.
    destruct (10000 <=? clock (environment s) - cacheTs s)%Z; simpl;
      destruct (db_rejects (environment s) _); eexists _, _; repeat split. }
  destruct Hrun as (p & s1 & Hrun & Hmap & Hrows).
  exists p, s1, (user_row (ArrayWithId xs (VStr userId))).
  split; [exact Hrun|]. split; [exact Hmap|]. split; [exact Hrows|].
  split; [reflexivity|]. split; [reflexivity|].
  rewrite getOrFetchUserProfile_hit; rewrite Hmap, lookup_profile_insert; reflexivity.
Qed.

End ProfileCacheEdges.

Section ProfileCacheExamples.

Import Users.

Lemma unusable_reply_is_not_cached_witness :
  exists msg s1,
    getOrFetchUserProfile Json.stringify bot "1001" (empty_cache empty_world)
    = (Ok (Rejected (TypeError msg)), s1)
    /\ userProfiles s1 = userProfiles (empty_cache empty_world)
    /\ cacheTs s1 = cacheTs (empty_cache empty_world)
    /\ file (environment s1) = file (environment (empty_cache empty_world))
    /\ db_rows (environment s1) = db_rows (environment (empty_cache empty_world))
    /\ http_calls s1
       = http_calls (empty_cache empty_world) ++ [Http (profile_request bot "1001")]
    /\ misses "1001" s1.
Proof.
  apply (unusable_reply_is_not_cached Json.stringify bot "1001" (empty_cache empty_world));
    reflexivity.
Defined.

Lemma no_flush_within_ten_seconds_witness :
  exists p s1,
    getOrFetchUserProfile Json.stringify bot "1001"
      (set_cacheTs 15000 (empty_cache (answering (VObj ann)))) = (Ok p, s1)
    /\ userProfiles s1
       = <["1001" := Plain (stamped "1001" ann)]>
           (userProfiles (set_cacheTs 15000 (empty_cache (answering (VObj ann)))))
    /\ file (environment s1)
       = file (environment (set_cacheTs 15000 (empty_cache (answering (VObj ann)))))
    /\ cacheTs s1 = cacheTs (set_cacheTs 15000 (empty_cache (answering (VObj ann))))
    /\ logger (environment s1)
       = logger (environment (set_cacheTs 15000 (empty_cache (answering (VObj ann)))))
    /\ db_rows (environment s1)
       = db_rows (environment (set_cacheTs 15000 (empty_cache (answering (VObj ann)))))
         ++ [user_row (Plain (stamped "1001" ann))].
Proof.
  apply (no_flush_within_ten_seconds Json.stringify bot "1001" ann
           (set_cacheTs 15000 (empty_cache (answering (VObj ann))))).
  - reflexivity.
  - reflexivity.
  - simpl. lia.
Defined.

Lemma rejected_save_keeps_profile_witness :
  exists err s1,
    getOrFetchUserProfile Json.stringify bot "1001"
      (set_environment
         (fun e => {| file := file e; clock := clock e; db_rows := db_rows e;
                      db_rejects := fun _ => true; logger := logger e;
                      outside := outside e |})
         (empty_cache (answering (VObj ann))))
    = (Ok (Rejected err), s1)
    /\ db_rows (environment s1)
       = db_rows
           (environment
              (set_environment
                 (fun e => {| file := file e; clock := clock e; db_rows := db_rows e;
                              db_rejects := fun _ => true; logger := logger e;
                              outside := outside e |})
                 (empty_cache (answering (VObj ann)))))
         ++ [user_row (Plain (stamped "1001" ann))]
    /\ getOrFetchUserProfile Json.stringify bot "1001" s1
       = (Ok (Fulfilled (Own (Plain (stamped "1001" ann)))), s1).
Proof.
  apply (rejected_save_keeps_profile Json.stringify bot "1001" ann
           (set_environment
              (fun e => {| file := file e; clock := clock e; db_rows := db_rows e;
                           db_rejects := fun _ => true; logger := logger e;
                           outside := outside e |})
              (empty_cache (answering (VObj ann))))); reflexivity.
Defined.

Lemma memoized_profile_has_the_asked_id_witness :
  exists p s1 memoized row,
    getOrFetchUserProfile Json.stringify bot "1001"
      (empty_cache (answering (VObj (("id", VStr "7") :: ann)))) = (Ok p, s1)
    /\ userProfiles s1 !! "1001" = Some memoized
    /\ profile_prop memoized "id" = VStr "1001"
    /\ (forall k, k <> "id"
                  -> profile_prop memoized k = prop (VObj (("id", VStr "7") :: ann)) k)
    /\ db_rows (environment s1)
       = db_rows (environment (empty_cache (answering (VObj (("id", VStr "7") :: ann)))))
         ++ [row]
    /\ prop row "id" = VStr "1001"
    /\ prop row "platform" = VStr "facebook"
    /\ prop row "picture_url" = prop (VObj (("id", VStr "7") :: ann)) "profile_pic".
Proof.
  apply (memoized_profile_has_the_asked_id Json.stringify bot "1001"
           (("id", VStr "7") :: ann)
           (empty_cache (answering (VObj (("id", VStr "7") :: ann))))); reflexivity.
Defined.

Lemma prototype_name_is_a_hit_witness :
  getOrFetchUserProfile Json.stringify bot "constructor" (empty_cache empty_world)
  = (Ok (Fulfilled (Inherited "constructor")), empty_cache empty_world).
Proof.
  apply (prototype_name_is_a_hit Json.stringify bot "constructor" (empty_cache empty_world));
    reflexivity.
Defined.

Lemma array_reply_keeps_the_id_witness :
  exists p s1 row,
    getOrFetchUserProfile Json.stringify bot "1001"
      (empty_cache (answering (VArr [VNumber (Num 1)]))) = (Ok p, s1)
    /\ userProfiles s1
       = <["1001" := ArrayWithId [VNumber (Num 1)] (VStr "1001")]>
           (userProfiles (empty_cache (answering (VArr [VNumber (Num 1)]))))
    /\ db_rows (environment s1)
       = db_rows (environment (empty_cache (answering (VArr [VNumber (Num 1)])))) ++ [row]
    /\ prop row "id" = VStr "1001"
    /\ prop row "first_name" = VUndefined
    /\ getOrFetchUserProfile Json.stringify bot "1001" s1
       = (Ok (Fulfilled (Own (ArrayWithId [VNumber (Num 1)] (VStr "1001")))), s1).
Proof.
  apply (array_reply_keeps_the_id Json.stringify bot "1001" [VNumber (Num 1)]
           (empty_cache (answering (VArr [VNumber (Num 1)])))); reflexivity.
Defined.

End ProfileCacheExamples.
